(** * PetPal: offline-first entity stores and the reminder schedule engine

    A shallow embedding of the zustand stores ([petStore.ts],
    [appointmentStore.ts], [notificationStore.ts]), of the notification
    service ([notification.service.ts]) and of the weekday formatting
    helpers of the reminder screens, followed by the properties of the
    specification that can be stated about them.

    Conventions of the embedding.
    - A JavaScript [number] that the program uses as an integer (age,
      weight, hour, minute, weekday, [Date.now()]) is a [Z] or an [N].
    - An optional or nullable field is an [option]; a [Partial<T>] is a
      record of options, [None] meaning that the key is absent.
    - The stores, the table of the OS notification scheduler and the log
      of calls made to the remote gateway form one [World]; every store
      action is a computation in the monad [M] over that world, which
      also carries thrown exceptions ([try]/[catch]).
    - What the outside answers (who is signed in, whether Supabase is
      configured, the clock, the gateway's replies) is the [Env] an
      action runs in.
    - The scheduler is a table: scheduling appends a request under a
      fresh identifier, cancelling removes the requests that carry an
      identifier; its calls do not throw.
    - An action runs to completion before the next one starts: the
      interleaving of two pending promises is not modelled.
    - What works on calendar dates ([addAppointment], which sorts by
      parsed dates, [getUpcomingAppointments] and the appointment
      notifications) is not embedded. *)

From Stdlib Require Import String Ascii List ZArith NArith Bool Lia.
From Stdlib Require Import DecimalString Permutation Sorted.
Import ListNotations.
Open Scope list_scope.
Open Scope string_scope.

(* ===================================================================== *)
(** * JavaScript helpers *)
(* ===================================================================== *)

Module Js.

(** [x || ''] on a [string | null]. *)
Definition orEmpty (x : option string) : string :=
  match x with Some s => s | None => "" end.

(** [x || undefined] on a [string | null]: the empty string is falsy. *)
Definition orUndefined (x : option string) : option string :=
  match x with
  | Some s => if String.eqb s "" then None else Some s
  | None => None
  end.

(** [x || null] on a [string]. *)
Definition orNull (s : string) : option string :=
  if String.eqb s "" then None else Some s.

(** [x || 0] on a [number | null]. *)
Definition orZero (x : option Z) : Z :=
  match x with Some n => n | None => 0%Z end.

(** [s.startsWith(p)]. *)
Definition startsWith (s p : string) : bool := String.prefix p s.

(** [`${n}`] for a non-negative integer. *)
Definition numberToString (n : N) : string :=
  NilEmpty.string_of_uint (N.to_uint n).

(** [arr.includes(d)] on an array of numbers. *)
Definition includes (arr : list Z) (d : Z) : bool :=
  existsb (Z.eqb d) arr.

(** [arr[d]]: [undefined] outside of the array. *)
Definition index {A : Type} (arr : list A) (d : Z) : option A :=
  if (d <? 0)%Z then None else nth_error arr (Z.to_nat d).

(** [Array.prototype.join]: an [undefined] element is rendered as the
    empty string. *)
Fixpoint join (sep : string) (arr : list (option string)) : string :=
  match arr with
  | [] => ""
  | x :: rest =>
      match rest with
      | [] => orEmpty x
      | _ :: _ => orEmpty x ++ sep ++ join sep rest
      end
  end.

(** One key of an object spread [{ ...old, ...patch }]: the patch wins
    when it has the key. *)
Definition spread {A : Type} (old : A) (patch : option A) : A :=
  match patch with Some v => v | None => old end.

(** The same for a key that is optional in the target type. *)
Definition spreadOpt {A : Type} (old patch : option A) : option A :=
  match patch with Some v => Some v | None => old end.

(** [arr.find(p)]. *)
Definition find {A : Type} (p : A -> bool) (arr : list A) : option A :=
  List.find p arr.

(** What a [catch] clause receives.  [message] is [Some m] when the
    value thrown is an [Error] with message [m]. *)
Record Thrown := mkThrown { message : option string }.

(** [error instanceof Error ? error.message : fallback]. *)
Definition messageOr (e : Thrown) (fallback : string) : string :=
  match message e with Some m => m | None => fallback end.

End Js.

(* ===================================================================== *)
(** * Formatting helpers of the reminder screens *)
(* ===================================================================== *)

(** [app/reminders.tsx] *)
Module RemindersScreen.

Definition DAYS_SHORT : list string :=
  ["Sun"; "Mon"; "Tue"; "Wed"; "Thu"; "Fri"; "Sat"].

Definition formatDays (days : list Z) : string :=
  if (length days =? 7)%nat then "Every day"
  else if (length days =? 5)%nat && negb (Js.includes days 0)
          && negb (Js.includes days 6) then "Weekdays"
  else if (length days =? 2)%nat && Js.includes days 0
          && Js.includes days 6 then "Weekends"
  else Js.join ", " (map (fun d => Js.index DAYS_SHORT d) days).

End RemindersScreen.

(** The notification settings screen; weekdays are numbered from 1 here. *)
Module NotificationsScreen.

Definition dayNames : list string :=
  ["Sun"; "Mon"; "Tue"; "Wed"; "Thu"; "Fri"; "Sat"].

Definition getDayLabels (days : list Z) : string :=
  if (length days =? 7)%nat then "Every day"
  else if (length days =? 5)%nat && negb (Js.includes days 1)
          && negb (Js.includes days 7) then "Weekdays"
  else if (length days =? 2)%nat && Js.includes days 1
          && Js.includes days 7 then "Weekends"
  else Js.join ", " (map (fun d => Js.index dayNames (d - 1)) days).

End NotificationsScreen.


(* ===================================================================== *)
(** * Data model *)
(* ===================================================================== *)

(** ** Pets ([petStore.ts]) *)

Inductive Gender := male | female.

Module Pet.
Record t := mk {
  id : string;
  name : string;
  species : string;
  breed : string;
  age : Z;
  weight : Z;
  imageUrl : option string;
  gender : option Gender;
  color : option string;
  microchipId : option string;
  notes : option string;
  createdAt : option string;
  updatedAt : option string }.
End Pet.

(** [Omit<Pet, 'id' | 'createdAt' | 'updatedAt'>] *)
Module NewPet.
Record t := mk {
  name : string;
  species : string;
  breed : string;
  age : Z;
  weight : Z;
  imageUrl : option string;
  gender : option Gender;
  color : option string;
  microchipId : option string;
  notes : option string }.
End NewPet.

(** [Partial<Pet>] *)
Module PartialPet.
Record t := mk {
  id : option string;
  name : option string;
  species : option string;
  breed : option string;
  age : option Z;
  weight : option Z;
  imageUrl : option string;
  gender : option Gender;
  color : option string;
  microchipId : option string;
  notes : option string;
  createdAt : option string;
  updatedAt : option string }.

Definition empty : t :=
  mk None None None None None None None None None None None None None.

Definition ofNew (d : NewPet.t) : t :=
  mk None (Some (NewPet.name d)) (Some (NewPet.species d))
     (Some (NewPet.breed d)) (Some (NewPet.age d)) (Some (NewPet.weight d))
     (NewPet.imageUrl d) (NewPet.gender d) (NewPet.color d)
     (NewPet.microchipId d) (NewPet.notes d) None None.

Definition ofPet (p : Pet.t) : t :=
  mk (Some (Pet.id p)) (Some (Pet.name p)) (Some (Pet.species p))
     (Some (Pet.breed p)) (Some (Pet.age p)) (Some (Pet.weight p))
     (Pet.imageUrl p) (Pet.gender p) (Pet.color p)
     (Pet.microchipId p) (Pet.notes p) (Pet.createdAt p) (Pet.updatedAt p).
End PartialPet.

(** The database row, [PetRecord]; [None] is SQL [null]. *)
Module PetRecord.
Record t := mk {
  id : string;
  name : string;
  species : string;
  breed : option string;
  age : option Z;
  weight : option Z;
  image_url : option string;
  gender : option Gender;
  color : option string;
  microchip_id : option string;
  notes : option string;
  created_at : string;
  updated_at : string }.
End PetRecord.

(** [Partial<PetRecord>], as far as [petToRecord] fills it: the outer
    option is the presence of the key, the inner one is [null]. *)
Module PartialPetRecord.
Record t := mk {
  name : option string;
  species : option string;
  breed : option (option string);
  age : option Z;
  weight : option Z;
  image_url : option (option string);
  gender : option (option Gender);
  color : option (option string);
  microchip_id : option (option string);
  notes : option (option string) }.
End PartialPetRecord.

(** ** Appointments ([appointmentStore.ts]) *)

Inductive AppointmentType :=
  checkup | apt_vaccination | apt_grooming | surgery | emergency | other.

Module Appointment.
Record t := mk {
  id : string;
  petId : string;
  type : AppointmentType;
  title : string;
  date : string;
  time : option string;
  veterinarian : option string;
  clinic : option string;
  location : option string;
  notes : option string;
  reminderEnabled : option bool;
  isCompleted : option bool;
  createdAt : option string;
  updatedAt : option string }.
End Appointment.

(** [Partial<Appointment>] *)
Module PartialAppointment.
Record t := mk {
  id : option string;
  petId : option string;
  type : option AppointmentType;
  title : option string;
  date : option string;
  time : option string;
  veterinarian : option string;
  clinic : option string;
  location : option string;
  notes : option string;
  reminderEnabled : option bool;
  isCompleted : option bool;
  createdAt : option string;
  updatedAt : option string }.

Definition empty : t :=
  mk None None None None None None None None None None None None None None.
End PartialAppointment.

(** [Partial<AppointmentRecord>], as far as [appointmentToRecord] fills it. *)
Module PartialAppointmentRecord.
Record t := mk {
  pet_id : option string;
  type : option AppointmentType;
  title : option string;
  date : option string;
  time : option (option string);
  veterinarian : option (option string);
  clinic : option (option string);
  location : option (option string);
  notes : option (option string);
  reminder_enabled : option bool;
  is_completed : option bool }.
End PartialAppointmentRecord.

(** ** Reminders ([notification.service.ts], [notificationStore.ts]) *)

Inductive ReminderType :=
  feeding | walk | medication | grooming | vet | vaccination | custom.

Module Time.
Record t := mk { hour : Z; minute : Z }.
End Time.

Module PetReminder.
Record t := mk {
  id : string;
  petId : string;
  petName : string;
  type : ReminderType;
  title : string;
  body : string;
  time : Time.t;
  daysOfWeek : list Z;
  enabled : bool }.
End PetReminder.

(** [Omit<PetReminder, 'id'>] *)
Module NewPetReminder.
Record t := mk {
  petId : string;
  petName : string;
  type : ReminderType;
  title : string;
  body : string;
  time : Time.t;
  daysOfWeek : list Z;
  enabled : bool }.
End NewPetReminder.

(** [Partial<PetReminder>] *)
Module PartialPetReminder.
Record t := mk {
  id : option string;
  petId : option string;
  petName : option string;
  type : option ReminderType;
  title : option string;
  body : option string;
  time : option Time.t;
  daysOfWeek : option (list Z);
  enabled : option bool }.

Definition empty : t := mk None None None None None None None None None.

Definition ofNew (d : NewPetReminder.t) : t :=
  mk None (Some (NewPetReminder.petId d)) (Some (NewPetReminder.petName d))
     (Some (NewPetReminder.type d)) (Some (NewPetReminder.title d))
     (Some (NewPetReminder.body d)) (Some (NewPetReminder.time d))
     (Some (NewPetReminder.daysOfWeek d)) (Some (NewPetReminder.enabled d)).

Definition ofReminder (r : PetReminder.t) : t :=
  mk (Some (PetReminder.id r)) (Some (PetReminder.petId r))
     (Some (PetReminder.petName r)) (Some (PetReminder.type r))
     (Some (PetReminder.title r)) (Some (PetReminder.body r))
     (Some (PetReminder.time r)) (Some (PetReminder.daysOfWeek r))
     (Some (PetReminder.enabled r)).
End PartialPetReminder.

(** The database row, [PetReminderRecord]. *)
Module PetReminderRecord.
Record t := mk {
  id : string;
  pet_id : string;
  pet_name : string;
  type : ReminderType;
  title : string;
  body : option string;
  hour : Z;
  minute : Z;
  days_of_week : list Z;
  enabled : bool;
  created_at : string;
  updated_at : string }.
End PetReminderRecord.

(** [Partial<PetReminderRecord>], as far as [reminderToRecord] fills it. *)
Module PartialPetReminderRecord.
Record t := mk {
  pet_id : option string;
  pet_name : option string;
  type : option ReminderType;
  title : option string;
  body : option (option string);
  hour : option Z;
  minute : option Z;
  days_of_week : option (list Z);
  enabled : option bool }.
End PartialPetReminderRecord.

(** ** Notification settings *)

Module NotificationSettings.
Record t := mk {
  pushEnabled : bool;
  reminders : bool;
  achievements : bool;
  weeklyReport : bool;
  marketing : bool;
  appointmentReminders : bool;
  appointmentReminderMinutes : Z }.
End NotificationSettings.

(** [Partial<NotificationSettings>] *)
Module PartialNotificationSettings.
Record t := mk {
  pushEnabled : option bool;
  reminders : option bool;
  achievements : option bool;
  weeklyReport : option bool;
  marketing : option bool;
  appointmentReminders : option bool;
  appointmentReminderMinutes : option Z }.

Definition empty : t := mk None None None None None None None.
End PartialNotificationSettings.

(** What [settingsToRecord] builds of a [UserSettingsRecord]. *)
Module UserSettingsRecord.
Record t := mk {
  push_enabled : bool;
  reminders_enabled : bool;
  achievements_enabled : bool;
  weekly_report_enabled : bool;
  marketing_enabled : bool;
  appointment_reminders_enabled : bool;
  appointment_reminder_minutes : Z }.
End UserSettingsRecord.

(** ** The stores' states *)

Module PetState.
Record t := mk {
  pets : list Pet.t;
  loading : bool;
  error : option string;
  lastSyncedAt : option string;
  pendingChanges : bool }.

Definition initial : t := mk [] false None None false.
End PetState.

Module AppointmentState.
Record t := mk {
  appointments : list Appointment.t;
  loading : bool;
  error : option string;
  lastSyncedAt : option string;
  pendingChanges : bool }.

Definition initial : t := mk [] false None None false.
End AppointmentState.

Definition DEFAULT_SETTINGS : NotificationSettings.t :=
  NotificationSettings.mk true true true false false true 60.

Module NotificationState.
Record t := mk {
  settings : NotificationSettings.t;
  petReminders : list PetReminder.t;
  isInitialized : bool;
  permissionGranted : bool;
  lastSyncedAt : option string;
  pendingChanges : bool }.

Definition initial : t := mk DEFAULT_SETTINGS [] false false None false.
End NotificationState.

(** ** The OS notification scheduler ([expo-notifications]) *)

Module Notifications.

(** [content] of a request, with the keys of [data] the program reads
    or writes. *)
Record Content := mkContent {
  title : string;
  body : string;
  dataType : string;
  reminderId : option string;
  petId : option string;
  reminderType : option ReminderType;
  sound : option string }.

Inductive Trigger :=
| WEEKLY (weekday hour minute : Z) (channelId : option string)
| OTHER.

Record NotificationRequest := mkRequest {
  identifier : nat;
  content : Content;
  trigger : Trigger }.

End Notifications.

(** ** The remote gateway ([database.ts] over Supabase) *)

Inductive Payload :=
| PetPayload (r : PartialPetRecord.t)
| AppointmentPayload (r : PartialAppointmentRecord.t)
| ReminderPayload (r : PartialPetReminderRecord.t)
| SettingsPayload (r : UserSettingsRecord.t).

Inductive GatewayCall :=
| Create (table : string) (record : Payload)
| Update (table : string) (id : string) (record : Payload)
| Remove (table : string) (id : string)
| Upsert (table : string) (record : Payload) (onConflict : string).

(** [{ data, error }]: a [PostgrestError] is kept as its message. *)
Record DatabaseResult (T : Type) := mkResult {
  data : option T;
  error : option string }.
Arguments mkResult {T}.
Arguments data {T}.
Arguments error {T}.

(** What a call to the gateway comes back with: the promise resolves
    with the [error] field of the result, or it rejects. *)
Inductive Outcome :=
| Resolves (error : option string)
| Rejects (e : Js.Thrown).

(** ** Environment and world *)

Record Env := mkEnv {
  (** [await getCurrentUser()] is not [null] *)
  user : bool;
  isSupabaseConfigured : bool;
  (** [Platform.OS === 'android'] *)
  android : bool;
  (** [Date.now()] *)
  now : N;
  (** [new Date().toISOString()] *)
  nowISO : string;
  (** outcome of the [k]-th call made to the gateway *)
  outcome : nat -> Outcome;
  (** [data] of the result when the [k]-th call creates a pet or a reminder *)
  petRow : nat -> option PetRecord.t;
  reminderRow : nat -> option PetReminderRecord.t }.

Record World := mkWorld {
  petStore : PetState.t;
  appointmentStore : AppointmentState.t;
  notificationStore : NotificationState.t;
  (** the requests the OS scheduler holds *)
  scheduled : list Notifications.NotificationRequest;
  (** number of identifiers the scheduler has handed out *)
  issued : nat;
  (** the calls made to the gateway, oldest first *)
  gatewayLog : list GatewayCall }.

Definition initialWorld : World :=
  mkWorld PetState.initial AppointmentState.initial NotificationState.initial
          [] 0 [].

(** Functional updates of the records above, one per key. *)

Module PetStateSet.
Import PetState.
Definition with_pets v (s : t) := mk v (loading s) (error s) (lastSyncedAt s) (pendingChanges s).
Definition with_loading v (s : t) := mk (pets s) v (error s) (lastSyncedAt s) (pendingChanges s).
Definition with_error v (s : t) := mk (pets s) (loading s) v (lastSyncedAt s) (pendingChanges s).
Definition with_lastSyncedAt v (s : t) := mk (pets s) (loading s) (error s) v (pendingChanges s).
Definition with_pendingChanges v (s : t) := mk (pets s) (loading s) (error s) (lastSyncedAt s) v.
End PetStateSet.

Module AppointmentStateSet.
Import AppointmentState.
Definition with_appointments v (s : t) := mk v (loading s) (error s) (lastSyncedAt s) (pendingChanges s).
Definition with_loading v (s : t) := mk (appointments s) v (error s) (lastSyncedAt s) (pendingChanges s).
Definition with_error v (s : t) := mk (appointments s) (loading s) v (lastSyncedAt s) (pendingChanges s).
Definition with_lastSyncedAt v (s : t) := mk (appointments s) (loading s) (error s) v (pendingChanges s).
Definition with_pendingChanges v (s : t) := mk (appointments s) (loading s) (error s) (lastSyncedAt s) v.
End AppointmentStateSet.

Module NotificationStateSet.
Import NotificationState.
Definition with_settings v (s : t) :=
  mk v (petReminders s) (isInitialized s) (permissionGranted s) (lastSyncedAt s) (pendingChanges s).
Definition with_petReminders v (s : t) :=
  mk (settings s) v (isInitialized s) (permissionGranted s) (lastSyncedAt s) (pendingChanges s).
Definition with_lastSyncedAt v (s : t) :=
  mk (settings s) (petReminders s) (isInitialized s) (permissionGranted s) v (pendingChanges s).
Definition with_pendingChanges v (s : t) :=
  mk (settings s) (petReminders s) (isInitialized s) (permissionGranted s) (lastSyncedAt s) v.
End NotificationStateSet.

Definition with_petStore v (w : World) :=
  mkWorld v (appointmentStore w) (notificationStore w) (scheduled w) (issued w) (gatewayLog w).
Definition with_appointmentStore v (w : World) :=
  mkWorld (petStore w) v (notificationStore w) (scheduled w) (issued w) (gatewayLog w).
Definition with_notificationStore v (w : World) :=
  mkWorld (petStore w) (appointmentStore w) v (scheduled w) (issued w) (gatewayLog w).
Definition with_scheduled v (w : World) :=
  mkWorld (petStore w) (appointmentStore w) (notificationStore w) v (issued w) (gatewayLog w).
Definition with_issued v (w : World) :=
  mkWorld (petStore w) (appointmentStore w) (notificationStore w) (scheduled w) v (gatewayLog w).
Definition with_gatewayLog v (w : World) :=
  mkWorld (petStore w) (appointmentStore w) (notificationStore w) (scheduled w) (issued w) v.

(* ===================================================================== *)
(** * The monad of store actions *)
(* ===================================================================== *)

(** An action ends with a value or with a thrown exception; in both
    cases what it did to the world before stays done. *)
Inductive Res (A : Type) :=
| Val (a : A)
| Exn (e : Js.Thrown).
Arguments Val {A}.
Arguments Exn {A}.

Definition M (A : Type) : Type := World -> Res A * World.

Definition ret {A : Type} (a : A) : M A := fun w => (Val a, w).

Definition bind {A B : Type} (m : M A) (k : A -> M B) : M B :=
  fun w =>
    match m w with
    | (Val a, w') => k a w'
    | (Exn e, w') => (Exn e, w')
    end.

Definition throw {A : Type} (e : Js.Thrown) : M A := fun w => (Exn e, w).

(** [try { body } catch (error) { handler }] *)
Definition tryCatch {A : Type} (body : M A) (handler : Js.Thrown -> M A) : M A :=
  fun w =>
    match body w with
    | (Val a, w') => (Val a, w')
    | (Exn e, w') => handler e w'
    end.

Definition getWorld : M World := fun w => (Val w, w).

Definition modify (f : World -> World) : M unit := fun w => (Val tt, f w).

Declare Scope action_scope.
Delimit Scope action_scope with action.
Notation "x <- m ;; k" := (bind m (fun x => k))
  (at level 61, m at next level, right associativity) : action_scope.
Notation "m ;; k" := (bind m (fun _ => k))
  (at level 61, right associativity) : action_scope.
Open Scope action_scope.

(** [for (const x of xs) { await body(x) }] *)
Fixpoint forEach {A : Type} (xs : list A) (body : A -> M unit) : M unit :=
  match xs with
  | [] => ret tt
  | x :: rest => body x ;; forEach rest body
  end.

(** The world an action leaves, and what it returns. *)
Definition exec {A : Type} (m : M A) (w : World) : World := snd (m w).
Definition eval {A : Type} (m : M A) (w : World) : Res A := fst (m w).

(* ===================================================================== *)
(** * [database.ts]: the gateway as the stores see it *)
(* ===================================================================== *)

(** The functions of [database.ts] add the tenant and user ids to the
    record and hand it to the Supabase client, which is not part of the
    repository.  The embedding keeps what the stores pass to these
    functions and what they get back. *)
Module Database.

(** One round trip: the call is logged, and the environment decides
    how it ends.  The value is the position of the call in the log and
    the [error] of the result. *)
Definition roundTrip (env : Env) (c : GatewayCall) : M (nat * option string) :=
  fun w =>
    let k := length (gatewayLog w) in
    let w' := with_gatewayLog (gatewayLog w ++ [c]) w in
    match outcome env k with
    | Resolves err => (Val (k, err), w')
    | Rejects e => (Exn e, w')
    end.

(** [create<T>(table, record)]; [row] is where the environment keeps
    the rows of type [T] that the backend sends back. *)
Definition create {T : Type} (env : Env) (table : string) (record : Payload)
           (row : nat -> option T) : M (DatabaseResult T) :=
  r <- roundTrip env (Create table record) ;;
  ret (mkResult (row (fst r)) (snd r)).

(** [update<T>(table, id, updates)]: the stores read only [error]. *)
Definition update (env : Env) (table id : string) (updates : Payload)
  : M (option string) :=
  r <- roundTrip env (Update table id updates) ;;
  ret (snd r).

(** [remove(table, id)] *)
Definition remove (env : Env) (table id : string) : M (option string) :=
  r <- roundTrip env (Remove table id) ;;
  ret (snd r).

(** [upsert(table, record, { onConflict })]: the result is not read. *)
Definition upsert (env : Env) (table : string) (record : Payload)
           (onConflict : string) : M unit :=
  roundTrip env (Upsert table record onConflict) ;;
  ret tt.

End Database.

(* ===================================================================== *)
(** * [notification.service.ts] *)
(* ===================================================================== *)

Module NotificationService.
Import Notifications.

Definition getAllScheduledNotificationsAsync : M (list NotificationRequest) :=
  w <- getWorld ;; ret (scheduled w).

Definition cancelScheduledNotificationAsync (ident : nat) : M unit :=
  modify (fun w =>
    with_scheduled
      (filter (fun n => negb (Nat.eqb (identifier n) ident)) (scheduled w)) w).

Definition cancelAllScheduledNotificationsAsync : M unit :=
  modify (with_scheduled []).

Definition scheduleNotificationAsync (c : Content) (t : Trigger) : M nat :=
  fun w =>
    let ident := issued w in
    (Val ident,
     with_issued (S ident)
       (with_scheduled (scheduled w ++ [mkRequest ident c t]) w)).

(** [notification.content.data?.reminderId === reminderId] *)
Definition isFor (reminderId : string) (n : NotificationRequest) : bool :=
  match Notifications.reminderId (content n) with
  | Some r => String.eqb r reminderId
  | None => false
  end.

Definition cancelPetReminder (reminderId : string) : M unit :=
  scheduledNotifications <- getAllScheduledNotificationsAsync ;;
  forEach scheduledNotifications (fun notification =>
    if isFor reminderId notification
    then cancelScheduledNotificationAsync (identifier notification)
    else ret tt).

Definition reminderContent (reminder : PetReminder.t) : Content :=
  mkContent ("🐾 " ++ PetReminder.title reminder)
            (PetReminder.body reminder)
            "pet-reminder"
            (Some (PetReminder.id reminder))
            (Some (PetReminder.petId reminder))
            (Some (PetReminder.type reminder))
            (Some "default").

Definition reminderTrigger (env : Env) (reminder : PetReminder.t)
           (dayOfWeek : Z) : Trigger :=
  WEEKLY dayOfWeek
         (Time.hour (PetReminder.time reminder))
         (Time.minute (PetReminder.time reminder))
         (if android env then Some "pet-reminders" else None).

(** The loop of [schedulePetReminder], with [notificationIds] as the
    accumulator. *)
Fixpoint scheduleDays (env : Env) (reminder : PetReminder.t)
         (days : list Z) (notificationIds : list nat) : M (list nat) :=
  match days with
  | [] => ret notificationIds
  | dayOfWeek :: rest =>
      notificationId <-
        scheduleNotificationAsync (reminderContent reminder)
                                  (reminderTrigger env reminder dayOfWeek) ;;
      scheduleDays env reminder rest (notificationIds ++ [notificationId])
  end.

Definition schedulePetReminder (env : Env) (reminder : PetReminder.t)
  : M (list nat) :=
  cancelPetReminder (PetReminder.id reminder) ;;
  if negb (PetReminder.enabled reminder)
     || (length (PetReminder.daysOfWeek reminder) =? 0)%nat
  then ret []
  else scheduleDays env reminder (PetReminder.daysOfWeek reminder) [].

Definition cancelAllNotifications : M unit :=
  cancelAllScheduledNotificationsAsync.

End NotificationService.

(** A record id made by the device: [id.startsWith('local_')]. *)
Definition isLocalId (id : string) : bool := Js.startsWith id "local_".

(** [`local_${Date.now()}`] *)
Definition localId (env : Env) : string := "local_" ++ Js.numberToString (now env).

(* ===================================================================== *)
(** * [petStore.ts] *)
(* ===================================================================== *)

Module PetStore.
Import PetStateSet.

Definition recordToPet (record : PetRecord.t) : Pet.t :=
  Pet.mk (PetRecord.id record)
         (PetRecord.name record)
         (PetRecord.species record)
         (Js.orEmpty (PetRecord.breed record))
         (Js.orZero (PetRecord.age record))
         (Js.orZero (PetRecord.weight record))
         (Js.orUndefined (PetRecord.image_url record))
         (PetRecord.gender record)
         (Js.orUndefined (PetRecord.color record))
         (Js.orUndefined (PetRecord.microchip_id record))
         (Js.orUndefined (PetRecord.notes record))
         (Some (PetRecord.created_at record))
         (Some (PetRecord.updated_at record)).

Definition petToRecord (pet : PartialPet.t) : PartialPetRecord.t :=
  PartialPetRecord.mk
    (PartialPet.name pet)
    (PartialPet.species pet)
    (option_map Js.orNull (PartialPet.breed pet))
    (PartialPet.age pet)
    (PartialPet.weight pet)
    (option_map Js.orNull (PartialPet.imageUrl pet))
    (option_map Some (PartialPet.gender pet))
    (option_map Js.orNull (PartialPet.color pet))
    (option_map Js.orNull (PartialPet.microchipId pet))
    (option_map Js.orNull (PartialPet.notes pet)).

(** [{ ...petData, id, createdAt, updatedAt }] *)
Definition newLocalPet (petData : NewPet.t) (id created updated : string) : Pet.t :=
  Pet.mk id (NewPet.name petData) (NewPet.species petData)
         (NewPet.breed petData) (NewPet.age petData) (NewPet.weight petData)
         (NewPet.imageUrl petData) (NewPet.gender petData)
         (NewPet.color petData) (NewPet.microchipId petData)
         (NewPet.notes petData) (Some created) (Some updated).

(** [{ ...pet, ...data, updatedAt }] *)
Definition merge (pet : Pet.t) (data : PartialPet.t) (updated : string) : Pet.t :=
  Pet.mk (Js.spread (Pet.id pet) (PartialPet.id data))
         (Js.spread (Pet.name pet) (PartialPet.name data))
         (Js.spread (Pet.species pet) (PartialPet.species data))
         (Js.spread (Pet.breed pet) (PartialPet.breed data))
         (Js.spread (Pet.age pet) (PartialPet.age data))
         (Js.spread (Pet.weight pet) (PartialPet.weight data))
         (Js.spreadOpt (Pet.imageUrl pet) (PartialPet.imageUrl data))
         (Js.spreadOpt (Pet.gender pet) (PartialPet.gender data))
         (Js.spreadOpt (Pet.color pet) (PartialPet.color data))
         (Js.spreadOpt (Pet.microchipId pet) (PartialPet.microchipId data))
         (Js.spreadOpt (Pet.notes pet) (PartialPet.notes data))
         (Js.spreadOpt (Pet.createdAt pet) (PartialPet.createdAt data))
         (Some updated).

(** zustand's [set] and [get] on this store *)
Definition set (f : PetState.t -> PetState.t) : M unit :=
  modify (fun w => with_petStore (f (petStore w)) w).
Definition get : M PetState.t :=
  w <- getWorld ;; ret (petStore w).

Definition addPet (env : Env) (petData : NewPet.t) : M (option string) :=
  set (fun s => with_loading true (with_error None s)) ;;
  tryCatch
    ((* the server branch: [Some r] is [return r], [None] falls through *)
     early <-
       (if user env && isSupabaseConfigured env then
          let record := petToRecord (PartialPet.ofNew petData) in
          res <- Database.create env "pets" (PetPayload record) (petRow env) ;;
          match error res with
          | Some _ =>
              set (fun s => with_loading false
                              (with_error (Some "Failed to save pet") s)) ;;
              ret (Some None)
          | None =>
              match data res with
              | Some d =>
                  let newPet := recordToPet d in
                  set (fun s =>
                         with_pets (newPet :: PetState.pets s)
                           (with_loading false
                              (with_lastSyncedAt (Some (nowISO env)) s))) ;;
                  ret (Some (Some (Pet.id newPet)))
              | None => ret None
              end
          end
        else ret None) ;;
     match early with
     | Some r => ret r
     | None =>
         (* Offline mode - save locally *)
         let newPet := newLocalPet petData (localId env) (nowISO env) (nowISO env) in
         set (fun s =>
                with_pets (newPet :: PetState.pets s)
                  (with_loading false (with_pendingChanges true s))) ;;
         ret (Some (Pet.id newPet))
     end)
    (fun e =>
       set (fun s => with_error (Some (Js.messageOr e "Failed to add pet"))
                       (with_loading false s)) ;;
       ret None).

Definition updatePet (env : Env) (id : string) (data : PartialPet.t) : M bool :=
  set (fun s => with_loading true (with_error None s)) ;;
  tryCatch
    (early <-
       (if user env && isSupabaseConfigured env && negb (isLocalId id) then
          let record := petToRecord data in
          err <- Database.update env "pets" id (PetPayload record) ;;
          match err with
          | Some _ =>
              set (fun s => with_loading false
                              (with_error (Some "Failed to update pet") s)) ;;
              ret (Some false)
          | None => ret None
          end
        else ret None) ;;
     match early with
     | Some r => ret r
     | None =>
         (* Update local state *)
         set (fun s =>
                with_pets
                  (map (fun pet =>
                          if String.eqb (Pet.id pet) id
                          then merge pet data (nowISO env)
                          else pet)
                       (PetState.pets s))
                  (with_loading false
                     (with_pendingChanges
                        (isLocalId id || negb (isSupabaseConfigured env)) s))) ;;
         ret true
     end)
    (fun e =>
       set (fun s => with_error (Some (Js.messageOr e "Failed to update pet"))
                       (with_loading false s)) ;;
       ret false).

Definition deletePet (env : Env) (id : string) : M bool :=
  set (fun s => with_loading true (with_error None s)) ;;
  tryCatch
    (early <-
       (if user env && isSupabaseConfigured env && negb (isLocalId id) then
          err <- Database.remove env "pets" id ;;
          match err with
          | Some _ =>
              set (fun s => with_loading false
                              (with_error (Some "Failed to delete pet") s)) ;;
              ret (Some false)
          | None => ret None
          end
        else ret None) ;;
     match early with
     | Some r => ret r
     | None =>
         (* Remove from local state *)
         set (fun s =>
                with_pets
                  (filter (fun pet => negb (String.eqb (Pet.id pet) id))
                          (PetState.pets s))
                  (with_loading false s)) ;;
         ret true
     end)
    (fun e =>
       set (fun s => with_error (Some (Js.messageOr e "Failed to delete pet"))
                       (with_loading false s)) ;;
       ret false).

Definition getPetById (id : string) (w : World) : option Pet.t :=
  Js.find (fun pet => String.eqb (Pet.id pet) id) (PetState.pets (petStore w)).

(** The body of the loop of [syncToServer]. *)
Definition syncOne (env : Env) (pet : Pet.t) : M unit :=
  let record := petToRecord (PartialPet.ofPet pet) in
  res <- Database.create env "pets" (PetPayload record) (petRow env) ;;
  match error res, data res with
  | None, Some d =>
      (* Replace local pet with server pet *)
      let serverPet := recordToPet d in
      set (fun s =>
             with_pets
               (map (fun p => if String.eqb (Pet.id p) (Pet.id pet)
                              then serverPet else p)
                    (PetState.pets s)) s)
  | _, _ => ret tt
  end.

Definition syncToServer (env : Env) : M unit :=
  st <- get ;;
  let pets := PetState.pets st in
  let pendingChanges := PetState.pendingChanges st in
  if negb pendingChanges then ret tt
  else if negb (user env) || negb (isSupabaseConfigured env) then ret tt
  else
    set (with_loading true) ;;
    tryCatch
      ((* Find local-only pets and sync them *)
       let localPets := filter (fun pet => isLocalId (Pet.id pet)) pets in
       forEach localPets (syncOne env) ;;
       set (fun s =>
              with_loading false
                (with_pendingChanges false
                   (with_lastSyncedAt (Some (nowISO env)) s))))
      (fun _ => set (with_loading false)).

End PetStore.

(* ===================================================================== *)
(** * [appointmentStore.ts]: the actions on existing appointments *)
(* ===================================================================== *)

Module AppointmentStore.
Import AppointmentStateSet.

Definition appointmentToRecord (apt : PartialAppointment.t)
  : PartialAppointmentRecord.t :=
  PartialAppointmentRecord.mk
    (PartialAppointment.petId apt)
    (PartialAppointment.type apt)
    (PartialAppointment.title apt)
    (PartialAppointment.date apt)
    (option_map Js.orNull (PartialAppointment.time apt))
    (option_map Js.orNull (PartialAppointment.veterinarian apt))
    (option_map Js.orNull (PartialAppointment.clinic apt))
    (option_map Js.orNull (PartialAppointment.location apt))
    (option_map Js.orNull (PartialAppointment.notes apt))
    (PartialAppointment.reminderEnabled apt)
    (PartialAppointment.isCompleted apt).

(** [{ ...apt, ...data, updatedAt }] *)
Definition merge (apt : Appointment.t) (data : PartialAppointment.t)
           (updated : string) : Appointment.t :=
  Appointment.mk
    (Js.spread (Appointment.id apt) (PartialAppointment.id data))
    (Js.spread (Appointment.petId apt) (PartialAppointment.petId data))
    (Js.spread (Appointment.type apt) (PartialAppointment.type data))
    (Js.spread (Appointment.title apt) (PartialAppointment.title data))
    (Js.spread (Appointment.date apt) (PartialAppointment.date data))
    (Js.spreadOpt (Appointment.time apt) (PartialAppointment.time data))
    (Js.spreadOpt (Appointment.veterinarian apt) (PartialAppointment.veterinarian data))
    (Js.spreadOpt (Appointment.clinic apt) (PartialAppointment.clinic data))
    (Js.spreadOpt (Appointment.location apt) (PartialAppointment.location data))
    (Js.spreadOpt (Appointment.notes apt) (PartialAppointment.notes data))
    (Js.spreadOpt (Appointment.reminderEnabled apt) (PartialAppointment.reminderEnabled data))
    (Js.spreadOpt (Appointment.isCompleted apt) (PartialAppointment.isCompleted data))
    (Js.spreadOpt (Appointment.createdAt apt) (PartialAppointment.createdAt data))
    (Some updated).

Definition set (f : AppointmentState.t -> AppointmentState.t) : M unit :=
  modify (fun w => with_appointmentStore (f (appointmentStore w)) w).

Definition updateAppointment (env : Env) (id : string)
           (data : PartialAppointment.t) : M bool :=
  set (fun s => with_loading true (with_error None s)) ;;
  tryCatch
    (early <-
       (if user env && isSupabaseConfigured env && negb (isLocalId id) then
          let record := appointmentToRecord data in
          err <- Database.update env "appointments" id (AppointmentPayload record) ;;
          match err with
          | Some _ =>
              set (fun s => with_loading false
                              (with_error (Some "Failed to update appointment") s)) ;;
              ret (Some false)
          | None => ret None
          end
        else ret None) ;;
     match early with
     | Some r => ret r
     | None =>
         set (fun s =>
                with_appointments
                  (map (fun apt =>
                          if String.eqb (Appointment.id apt) id
                          then merge apt data (nowISO env)
                          else apt)
                       (AppointmentState.appointments s))
                  (with_loading false
                     (with_pendingChanges
                        (isLocalId id || negb (isSupabaseConfigured env)) s))) ;;
         ret true
     end)
    (fun e =>
       set (fun s => with_error (Some (Js.messageOr e "Failed to update appointment"))
                       (with_loading false s)) ;;
       ret false).

Definition deleteAppointment (env : Env) (id : string) : M bool :=
  set (fun s => with_loading true (with_error None s)) ;;
  tryCatch
    (early <-
       (if user env && isSupabaseConfigured env && negb (isLocalId id) then
          err <- Database.remove env "appointments" id ;;
          match err with
          | Some _ =>
              set (fun s => with_loading false
                              (with_error (Some "Failed to delete appointment") s)) ;;
              ret (Some false)
          | None => ret None
          end
        else ret None) ;;
     match early with
     | Some r => ret r
     | None =>
         set (fun s =>
                with_appointments
                  (filter (fun apt => negb (String.eqb (Appointment.id apt) id))
                          (AppointmentState.appointments s))
                  (with_loading false s)) ;;
         ret true
     end)
    (fun e =>
       set (fun s => with_error (Some (Js.messageOr e "Failed to delete appointment"))
                       (with_loading false s)) ;;
       ret false).

Definition getAppointmentsByPetId (petId : string) (w : World) : list Appointment.t :=
  filter (fun apt => String.eqb (Appointment.petId apt) petId)
         (AppointmentState.appointments (appointmentStore w)).

Definition markAsCompleted (env : Env) (id : string) : M bool :=
  updateAppointment env id
    (PartialAppointment.mk None None None None None None None None None None
                           None (Some true) None None).

End AppointmentStore.

(* ===================================================================== *)
(** * [notificationStore.ts] *)
(* ===================================================================== *)

Module NotificationStore.
Import NotificationStateSet.

Definition recordToReminder (record : PetReminderRecord.t) : PetReminder.t :=
  PetReminder.mk
    (PetReminderRecord.id record)
    (PetReminderRecord.pet_id record)
    (PetReminderRecord.pet_name record)
    (PetReminderRecord.type record)
    (PetReminderRecord.title record)
    (Js.orEmpty (PetReminderRecord.body record))
    (Time.mk (PetReminderRecord.hour record) (PetReminderRecord.minute record))
    (PetReminderRecord.days_of_week record)
    (PetReminderRecord.enabled record).

Definition reminderToRecord (reminder : PartialPetReminder.t)
  : PartialPetReminderRecord.t :=
  PartialPetReminderRecord.mk
    (PartialPetReminder.petId reminder)
    (PartialPetReminder.petName reminder)
    (PartialPetReminder.type reminder)
    (PartialPetReminder.title reminder)
    (option_map Js.orNull (PartialPetReminder.body reminder))
    (option_map Time.hour (PartialPetReminder.time reminder))
    (option_map Time.minute (PartialPetReminder.time reminder))
    (PartialPetReminder.daysOfWeek reminder)
    (PartialPetReminder.enabled reminder).

Definition settingsToRecord (settings : NotificationSettings.t)
  : UserSettingsRecord.t :=
  UserSettingsRecord.mk
    (NotificationSettings.pushEnabled settings)
    (NotificationSettings.reminders settings)
    (NotificationSettings.achievements settings)
    (NotificationSettings.weeklyReport settings)
    (NotificationSettings.marketing settings)
    (NotificationSettings.appointmentReminders settings)
    (NotificationSettings.appointmentReminderMinutes settings).

(** [{ ...currentSettings, ...newSettings }] *)
Definition mergeSettings (current : NotificationSettings.t)
           (patch : PartialNotificationSettings.t) : NotificationSettings.t :=
  NotificationSettings.mk
    (Js.spread (NotificationSettings.pushEnabled current)
               (PartialNotificationSettings.pushEnabled patch))
    (Js.spread (NotificationSettings.reminders current)
               (PartialNotificationSettings.reminders patch))
    (Js.spread (NotificationSettings.achievements current)
               (PartialNotificationSettings.achievements patch))
    (Js.spread (NotificationSettings.weeklyReport current)
               (PartialNotificationSettings.weeklyReport patch))
    (Js.spread (NotificationSettings.marketing current)
               (PartialNotificationSettings.marketing patch))
    (Js.spread (NotificationSettings.appointmentReminders current)
               (PartialNotificationSettings.appointmentReminders patch))
    (Js.spread (NotificationSettings.appointmentReminderMinutes current)
               (PartialNotificationSettings.appointmentReminderMinutes patch)).

(** [{ ...reminderData, id }] *)
Definition newLocalReminder (reminderData : NewPetReminder.t) (id : string)
  : PetReminder.t :=
  PetReminder.mk id
    (NewPetReminder.petId reminderData) (NewPetReminder.petName reminderData)
    (NewPetReminder.type reminderData) (NewPetReminder.title reminderData)
    (NewPetReminder.body reminderData) (NewPetReminder.time reminderData)
    (NewPetReminder.daysOfWeek reminderData) (NewPetReminder.enabled reminderData).

(** [{ ...existingReminder, ...updates }] *)
Definition merge (existing : PetReminder.t) (updates : PartialPetReminder.t)
  : PetReminder.t :=
  PetReminder.mk
    (Js.spread (PetReminder.id existing) (PartialPetReminder.id updates))
    (Js.spread (PetReminder.petId existing) (PartialPetReminder.petId updates))
    (Js.spread (PetReminder.petName existing) (PartialPetReminder.petName updates))
    (Js.spread (PetReminder.type existing) (PartialPetReminder.type updates))
    (Js.spread (PetReminder.title existing) (PartialPetReminder.title updates))
    (Js.spread (PetReminder.body existing) (PartialPetReminder.body updates))
    (Js.spread (PetReminder.time existing) (PartialPetReminder.time updates))
    (Js.spread (PetReminder.daysOfWeek existing) (PartialPetReminder.daysOfWeek updates))
    (Js.spread (PetReminder.enabled existing) (PartialPetReminder.enabled updates)).

Definition set (f : NotificationState.t -> NotificationState.t) : M unit :=
  modify (fun w => with_notificationStore (f (notificationStore w)) w).
Definition get : M NotificationState.t :=
  w <- getWorld ;; ret (notificationStore w).

(** [settings.pushEnabled && settings.reminders] *)
Definition gate (settings : NotificationSettings.t) : bool :=
  NotificationSettings.pushEnabled settings
  && NotificationSettings.reminders settings.

Definition cancelAllReminders : M unit :=
  NotificationService.cancelAllNotifications.

Definition scheduleAllReminders (env : Env) : M unit :=
  st <- get ;;
  let petReminders := NotificationState.petReminders st in
  let settings := NotificationState.settings st in
  if negb (NotificationSettings.pushEnabled settings)
     || negb (NotificationSettings.reminders settings)
  then ret tt
  else
    forEach petReminders (fun reminder =>
      if PetReminder.enabled reminder
      then NotificationService.schedulePetReminder env reminder ;; ret tt
      else ret tt).

Definition updateSettings (env : Env) (newSettings : PartialNotificationSettings.t)
  : M unit :=
  st <- get ;;
  let currentSettings := NotificationState.settings st in
  let updatedSettings := mergeSettings currentSettings newSettings in
  set (with_settings updatedSettings) ;;
  (* Sync to server *)
  (if user env && isSupabaseConfigured env then
     let record := settingsToRecord updatedSettings in
     Database.upsert env "user_settings" (SettingsPayload record) "app_id,user_id"
   else ret tt) ;;
  (* Handle push notification state changes *)
  (if NotificationSettings.pushEnabled currentSettings
      && negb (NotificationSettings.pushEnabled updatedSettings)
   then cancelAllReminders else ret tt) ;;
  (if negb (NotificationSettings.pushEnabled currentSettings)
      && NotificationSettings.pushEnabled updatedSettings
   then scheduleAllReminders env else ret tt).

(** [if (get().settings.pushEnabled && get().settings.reminders &&
    newReminder.enabled) await schedulePetReminder(newReminder)] *)
Definition scheduleIfAllowed (env : Env) (newReminder : PetReminder.t) : M unit :=
  st <- get ;;
  if gate (NotificationState.settings st) && PetReminder.enabled newReminder
  then NotificationService.schedulePetReminder env newReminder ;; ret tt
  else ret tt.

Definition addPetReminder (env : Env) (reminderData : NewPetReminder.t)
  : M (option string) :=
  tryCatch
    (early <-
       (if user env && isSupabaseConfigured env then
          let record := reminderToRecord (PartialPetReminder.ofNew reminderData) in
          res <- Database.create env "pet_reminders" (ReminderPayload record)
                                 (reminderRow env) ;;
          match error res with
          | Some _ => ret (Some None)
          | None =>
              match data res with
              | Some d =>
                  let newReminder := recordToReminder d in
                  set (fun s =>
                         with_petReminders
                           (NotificationState.petReminders s ++ [newReminder]) s) ;;
                  scheduleIfAllowed env newReminder ;;
                  ret (Some (Some (PetReminder.id newReminder)))
              | None => ret None
              end
          end
        else ret None) ;;
     match early with
     | Some r => ret r
     | None =>
         (* Offline mode *)
         let newReminder := newLocalReminder reminderData (localId env) in
         set (fun s =>
                with_petReminders
                  (NotificationState.petReminders s ++ [newReminder])
                  (with_pendingChanges true s)) ;;
         scheduleIfAllowed env newReminder ;;
         ret (Some (PetReminder.id newReminder))
     end)
    (fun _ => ret None).

Definition updatePetReminder (env : Env) (id : string)
           (updates : PartialPetReminder.t) : M bool :=
  tryCatch
    (st <- get ;;
     let petReminders := NotificationState.petReminders st in
     let settings := NotificationState.settings st in
     match Js.find (fun r => String.eqb (PetReminder.id r) id) petReminders with
     | None => ret false
     | Some existingReminder =>
         let updatedReminder := merge existingReminder updates in
         early <-
           (if user env && isSupabaseConfigured env && negb (isLocalId id) then
              let record := reminderToRecord updates in
              err <- Database.update env "pet_reminders" id (ReminderPayload record) ;;
              match err with
              | Some _ => ret (Some false)
              | None => ret None
              end
            else ret None) ;;
         match early with
         | Some r => ret r
         | None =>
             set (fun s =>
                    with_petReminders
                      (map (fun r => if String.eqb (PetReminder.id r) id
                                     then updatedReminder else r)
                           (NotificationState.petReminders s))
                      (with_pendingChanges
                         (isLocalId id || negb (isSupabaseConfigured env)) s)) ;;
             (* Update scheduled notification *)
             (if gate settings then
                if PetReminder.enabled updatedReminder
                then NotificationService.schedulePetReminder env updatedReminder ;; ret tt
                else NotificationService.cancelPetReminder id
              else ret tt) ;;
             ret true
         end
     end)
    (fun _ => ret false).

Definition deletePetReminder (env : Env) (id : string) : M bool :=
  tryCatch
    (NotificationService.cancelPetReminder id ;;
     early <-
       (if user env && isSupabaseConfigured env && negb (isLocalId id) then
          err <- Database.remove env "pet_reminders" id ;;
          match err with
          | Some _ => ret (Some false)
          | None => ret None
          end
        else ret None) ;;
     match early with
     | Some r => ret r
     | None =>
         set (fun s =>
                with_petReminders
                  (filter (fun r => negb (String.eqb (PetReminder.id r) id))
                          (NotificationState.petReminders s)) s) ;;
         ret true
     end)
    (fun _ => ret false).

Definition togglePetReminder (env : Env) (id : string) : M unit :=
  st <- get ;;
  match Js.find (fun r => String.eqb (PetReminder.id r) id)
                (NotificationState.petReminders st) with
  | Some reminder =>
      updatePetReminder env id
        (PartialPetReminder.mk None None None None None None None None
                               (Some (negb (PetReminder.enabled reminder)))) ;;
      ret tt
  | None => ret tt
  end.

Definition getPetReminders (petId : string) (w : World) : list PetReminder.t :=
  filter (fun r => String.eqb (PetReminder.petId r) petId)
         (NotificationState.petReminders (notificationStore w)).

(** The body of the loop of [syncToServer]. *)
Definition syncOne (env : Env) (reminder : PetReminder.t) : M unit :=
  let record := reminderToRecord (PartialPetReminder.ofReminder reminder) in
  res <- Database.create env "pet_reminders" (ReminderPayload record)
                         (reminderRow env) ;;
  match error res, data res with
  | None, Some d =>
      let serverReminder := recordToReminder d in
      set (fun s =>
             with_petReminders
               (map (fun r => if String.eqb (PetReminder.id r) (PetReminder.id reminder)
                              then serverReminder else r)
                    (NotificationState.petReminders s)) s)
  | _, _ => ret tt
  end.

Definition syncToServer (env : Env) : M unit :=
  st <- get ;;
  let petReminders := NotificationState.petReminders st in
  let settings := NotificationState.settings st in
  let pendingChanges := NotificationState.pendingChanges st in
  if negb pendingChanges then ret tt
  else if negb (user env) || negb (isSupabaseConfigured env) then ret tt
  else
    tryCatch
      ((* Sync settings *)
       let settingsRecord := settingsToRecord settings in
       Database.upsert env "user_settings" (SettingsPayload settingsRecord)
                       "app_id,user_id" ;;
       (* Sync local reminders *)
       let localReminders :=
         filter (fun r => isLocalId (PetReminder.id r)) petReminders in
       forEach localReminders (syncOne env) ;;
       set (fun s => with_pendingChanges false
                       (with_lastSyncedAt (Some (nowISO env)) s)))
      (fun _ => ret tt).

End NotificationStore.

(* ===================================================================== *)
(** * More of the program: loading, reconciling appointments, start-up,
      and the helpers of the reminder forms *)
(* ===================================================================== *)

(** ** More JavaScript helpers *)

Module JsText.

(** [String(n)], [n.toString()] and [`${n}`] on an integer. *)
Definition toString (n : Z) : string :=
  NilEmpty.string_of_int (Z.to_int n).

(** The first [n] characters of [pad] repeated, [rest] being what is
    left of the copy of [pad] under way. *)
Fixpoint cycle (pad rest : string) (n : nat) : string :=
  match n with
  | O => ""
  | S k =>
      match rest with
      | String c rest' => String c (cycle pad rest' k)
      | EmptyString =>
          match pad with
          | String c pad' => String c (cycle pad pad' k)
          | EmptyString => ""
          end
      end
  end.

(** [s.padStart(targetLength, padString)] *)
Definition padStart (s : string) (targetLength : nat) (padString : string) : string :=
  if (targetLength <=? String.length s)%nat then s
  else if String.eqb padString "" then s
  else cycle padString padString (targetLength - String.length s) ++ s.

(** The place of [x] in an array sorted by [arr.sort()]: before the
    first element whose string is greater. *)
Fixpoint insertSorted (x : Z) (sorted : list Z) : list Z :=
  match sorted with
  | [] => [x]
  | y :: rest =>
      if String.ltb (toString x) (toString y)
      then x :: y :: rest
      else y :: insertSorted x rest
  end.

(** [arr.sort()] on numbers, with no comparator: a stable sort by the
    strings of the elements, compared code unit by code unit. *)
Definition sort (arr : list Z) : list Z :=
  fold_left (fun sorted x => insertSorted x sorted) arr [].

End JsText.

(** ** The notification settings screen: [formatTime] *)

Module NotificationsScreenTime.

Definition formatTime (hour minute : Z) : string :=
  let period := if (12 <=? hour)%Z then "PM" else "AM" in
  let displayHour :=
    if (Z.rem hour 12 =? 0)%Z then 12%Z else Z.rem hour 12 in
  let displayMinute := JsText.padStart (JsText.toString minute) 2 "0" in
  JsText.toString displayHour ++ ":" ++ displayMinute ++ " " ++ period.

End NotificationsScreenTime.

(** ** The form that adds a reminder ([app/reminder/add.tsx]) *)

Module AddReminderScreen.

(** The initial value of [selectedDays]. *)
Definition initialDays : list Z := [0; 1; 2; 3; 4; 5; 6]%Z.

(** The updater that [toggleDay day] passes to [setSelectedDays]. *)
Definition toggleDay (day : Z) (prev : list Z) : list Z :=
  if Js.includes prev day then
    if (length prev =? 1)%nat then prev
    else filter (fun d => negb (Z.eqb d day)) prev
  else JsText.sort (prev ++ [day]).

End AddReminderScreen.

(** ** Lists read from the gateway *)

(** What [fetchAll] comes back with: [{ data, error }] where [data] is a
    list of rows, or a rejected promise. *)
Inductive ListOutcome (T : Type) :=
| ListResolves (rows : option (list T)) (err : option string)
| ListRejects (e : Js.Thrown).
Arguments ListResolves {T}.
Arguments ListRejects {T}.

(** [await fetchAll<T>(table, options)]: a read, which leaves the world
    as it is; [reply] is the answer of the backend. *)
Definition fetchAll {T : Type} (reply : ListOutcome T)
  : M (option (list T) * option string) :=
  match reply with
  | ListResolves rows err => ret (rows, err)
  | ListRejects e => throw e
  end.

(** ** [petStore.ts]: loading and clearing *)

Module PetStoreLoad.
Import PetStateSet.

Definition fetchPets (env : Env) (reply : ListOutcome PetRecord.t) : M unit :=
  PetStore.set (fun s => with_loading true (with_error None s)) ;;
  tryCatch
    ((* [Some tt] is [return], [None] falls through *)
     early <-
       (if user env && isSupabaseConfigured env then
          res <- fetchAll reply ;;
          match snd res with
          | Some _ =>
              (* Fall back to local data *)
              PetStore.set (with_loading false) ;;
              ret (Some tt)
          | None =>
              match fst res with
              | Some rows =>
                  let pets := map PetStore.recordToPet rows in
                  PetStore.set (fun s =>
                    with_pets pets
                      (with_loading false
                         (with_lastSyncedAt (Some (nowISO env))
                            (with_pendingChanges false s)))) ;;
                  ret (Some tt)
              | None => ret None
              end
          end
        else ret None) ;;
     match early with
     | Some _ => ret tt
     | None =>
         (* Not authenticated or no Supabase - use local data *)
         PetStore.set (with_loading false)
     end)
    (fun e =>
       PetStore.set (fun s =>
         with_error (Some (Js.messageOr e "Failed to load pets"))
                    (with_loading false s))).

Definition clearPets : M unit :=
  PetStore.set (fun s =>
    with_pets [] (with_loading false (with_error None (with_pendingChanges false s)))).

End PetStoreLoad.

(** ** [appointmentStore.ts]: loading, clearing and reconciling *)

(** The database row, [AppointmentRecord]. *)
Module AppointmentRecord.
Record t := mk {
  id : string;
  pet_id : string;
  type : AppointmentType;
  title : string;
  date : string;
  time : option string;
  veterinarian : option string;
  clinic : option string;
  location : option string;
  notes : option string;
  reminder_enabled : bool;
  is_completed : bool;
  created_at : string;
  updated_at : string }.
End AppointmentRecord.

Module AppointmentStoreSync.
Import AppointmentStateSet.

Definition recordToAppointment (record : AppointmentRecord.t) : Appointment.t :=
  Appointment.mk
    (AppointmentRecord.id record)
    (AppointmentRecord.pet_id record)
    (AppointmentRecord.type record)
    (AppointmentRecord.title record)
    (AppointmentRecord.date record)
    (Js.orUndefined (AppointmentRecord.time record))
    (Js.orUndefined (AppointmentRecord.veterinarian record))
    (Js.orUndefined (AppointmentRecord.clinic record))
    (Js.orUndefined (AppointmentRecord.location record))
    (Js.orUndefined (AppointmentRecord.notes record))
    (Some (AppointmentRecord.reminder_enabled record))
    (Some (AppointmentRecord.is_completed record))
    (Some (AppointmentRecord.created_at record))
    (Some (AppointmentRecord.updated_at record)).

(** An appointment read as a [Partial<Appointment>]. *)
Definition asPartial (apt : Appointment.t) : PartialAppointment.t :=
  PartialAppointment.mk
    (Some (Appointment.id apt)) (Some (Appointment.petId apt))
    (Some (Appointment.type apt)) (Some (Appointment.title apt))
    (Some (Appointment.date apt)) (Appointment.time apt)
    (Appointment.veterinarian apt) (Appointment.clinic apt)
    (Appointment.location apt) (Appointment.notes apt)
    (Appointment.reminderEnabled apt) (Appointment.isCompleted apt)
    (Appointment.createdAt apt) (Appointment.updatedAt apt).

Definition get : M AppointmentState.t :=
  w <- getWorld ;; ret (appointmentStore w).

Definition fetchAppointments (env : Env) (reply : ListOutcome AppointmentRecord.t)
  : M unit :=
  AppointmentStore.set (fun s => with_loading true (with_error None s)) ;;
  tryCatch
    (early <-
       (if user env && isSupabaseConfigured env then
          res <- fetchAll reply ;;
          match snd res with
          | Some _ =>
              AppointmentStore.set (with_loading false) ;;
              ret (Some tt)
          | None =>
              match fst res with
              | Some rows =>
                  let appointments := map recordToAppointment rows in
                  AppointmentStore.set (fun s =>
                    with_appointments appointments
                      (with_loading false
                         (with_lastSyncedAt (Some (nowISO env))
                            (with_pendingChanges false s)))) ;;
                  ret (Some tt)
              | None => ret None
              end
          end
        else ret None) ;;
     match early with
     | Some _ => ret tt
     | None => AppointmentStore.set (with_loading false)
     end)
    (fun e =>
       AppointmentStore.set (fun s =>
         with_error (Some (Js.messageOr e "Failed to load appointments"))
                    (with_loading false s))).

Definition getAppointmentById (id : string) (w : World) : option Appointment.t :=
  Js.find (fun apt => String.eqb (Appointment.id apt) id)
          (AppointmentState.appointments (appointmentStore w)).

(** The body of the loop of [syncToServer]; [rows] is where the
    environment keeps the appointment rows the backend sends back. *)
Definition syncOne (env : Env) (rows : nat -> option AppointmentRecord.t)
           (apt : Appointment.t) : M unit :=
  let record := AppointmentStore.appointmentToRecord (asPartial apt) in
  res <- Database.create env "appointments" (AppointmentPayload record) rows ;;
  match error res, data res with
  | None, Some d =>
      let serverAppointment := recordToAppointment d in
      AppointmentStore.set (fun s =>
        with_appointments
          (map (fun a => if String.eqb (Appointment.id a) (Appointment.id apt)
                         then serverAppointment else a)
               (AppointmentState.appointments s)) s)
  | _, _ => ret tt
  end.

Definition syncToServer (env : Env) (rows : nat -> option AppointmentRecord.t)
  : M unit :=
  st <- get ;;
  let appointments := AppointmentState.appointments st in
  let pendingChanges := AppointmentState.pendingChanges st in
  if negb pendingChanges then ret tt
  else if negb (user env) || negb (isSupabaseConfigured env) then ret tt
  else
    AppointmentStore.set (with_loading true) ;;
    tryCatch
      (let localAppointments :=
         filter (fun apt => isLocalId (Appointment.id apt)) appointments in
       forEach localAppointments (syncOne env rows) ;;
       AppointmentStore.set (fun s =>
         with_loading false
           (with_pendingChanges false
              (with_lastSyncedAt (Some (nowISO env)) s))))
      (fun _ => AppointmentStore.set (with_loading false)).

Definition clearAppointments : M unit :=
  AppointmentStore.set (fun s =>
    with_appointments []
      (with_loading false (with_error None (with_pendingChanges false s)))).

End AppointmentStoreSync.

(** ** Start-up of the notification store *)

(** The permission status of [expo-notifications]. *)
Inductive PermissionStatus := granted | denied | undetermined.

(** What the device answers to the permission calls. *)
Record Device := mkDevice {
  (** [Device.isDevice] *)
  isDevice : bool;
  (** [status] of [getPermissionsAsync()] *)
  existingStatus : PermissionStatus;
  (** [status] of [requestPermissionsAsync()] *)
  requestedStatus : PermissionStatus }.

Definition isGranted (s : PermissionStatus) : bool :=
  match s with granted => true | _ => false end.

(** The row of [user_settings], [UserSettingsRecord]. *)
Module UserSettingsRow.
Record t := mk {
  id : string;
  push_enabled : bool;
  reminders_enabled : bool;
  achievements_enabled : bool;
  weekly_report_enabled : bool;
  marketing_enabled : bool;
  appointment_reminders_enabled : bool;
  appointment_reminder_minutes : Z }.
End UserSettingsRow.

Module NotificationStoreInit.

(** [notificationService.requestPermissions()] *)
Definition requestPermissions (device : Device) : bool :=
  if negb (isDevice device) then false
  else
    let finalStatus :=
      if negb (isGranted (existingStatus device))
      then requestedStatus device
      else existingStatus device in
    if negb (isGranted finalStatus) then false else true.

Definition recordToSettings (record : UserSettingsRow.t) : NotificationSettings.t :=
  NotificationSettings.mk
    (UserSettingsRow.push_enabled record)
    (UserSettingsRow.reminders_enabled record)
    (UserSettingsRow.achievements_enabled record)
    (UserSettingsRow.weekly_report_enabled record)
    (UserSettingsRow.marketing_enabled record)
    (UserSettingsRow.appointment_reminders_enabled record)
    (UserSettingsRow.appointment_reminder_minutes record).

Definition with_isInitialized (v : bool) (s : NotificationState.t) : NotificationState.t :=
  NotificationState.mk
    (NotificationState.settings s) (NotificationState.petReminders s) v
    (NotificationState.permissionGranted s) (NotificationState.lastSyncedAt s)
    (NotificationState.pendingChanges s).

Definition with_permissionGranted (v : bool) (s : NotificationState.t) : NotificationState.t :=
  NotificationState.mk
    (NotificationState.settings s) (NotificationState.petReminders s)
    (NotificationState.isInitialized s) v (NotificationState.lastSyncedAt s)
    (NotificationState.pendingChanges s).

(** [initialize]; the set-up of the Android channels by
    [notificationService.initialize()] touches nothing of the world,
    and the calls to the notification API resolve, as everywhere in
    this model of the scheduler. *)
Definition initialize (env : Env) (device : Device)
           (settingsReply : ListOutcome UserSettingsRow.t)
           (remindersReply : ListOutcome PetReminderRecord.t) : M unit :=
  tryCatch
    (let permissionGranted := requestPermissions device in
     NotificationStore.set (with_permissionGranted permissionGranted) ;;
     (* Fetch from server if authenticated *)
     (if user env && isSupabaseConfigured env then
        settingsRes <- fetchAll settingsReply ;;
        (match fst settingsRes with
         | Some (first :: _) =>
             NotificationStore.set
               (NotificationStateSet.with_settings (recordToSettings first))
         | _ => ret tt
         end) ;;
        remindersRes <- fetchAll remindersReply ;;
        match fst remindersRes with
        | Some rows =>
            NotificationStore.set (fun s =>
              NotificationStateSet.with_petReminders
                (map NotificationStore.recordToReminder rows)
                (NotificationStateSet.with_lastSyncedAt (Some (nowISO env)) s))
        | None => ret tt
        end
      else ret tt) ;;
     NotificationStore.set (with_isInitialized true) ;;
     (* Re-schedule all enabled reminders *)
     st <- NotificationStore.get ;;
     if permissionGranted
        && NotificationSettings.pushEnabled (NotificationState.settings st)
     then NotificationStore.scheduleAllReminders env
     else ret tt)
    (fun _ =>
       NotificationStore.set (fun s =>
         with_isInitialized true (with_permissionGranted false s))).

End NotificationStoreInit.

(* ===================================================================== *)
(** * Vocabulary of the properties *)
(* ===================================================================== *)

(** ** Weekday sets *)

(** A weekday set as the data model has it: no day twice, every day
    between 0 (Sunday) and 6 (Saturday). *)
Definition weekdaySet (days : list Z) : Prop :=
  NoDup days /\ forall d, In d days -> (0 <= d <= 6)%Z.

Definition allWeek (days : list Z) : Prop :=
  forall d, (0 <= d <= 6)%Z -> In d days.
Definition mondayToFriday (days : list Z) : Prop :=
  forall d, In d days <-> (1 <= d <= 5)%Z.
Definition sundayAndSaturday (days : list Z) : Prop :=
  forall d, In d days <-> d = 0%Z \/ d = 6%Z.

(** The abbreviations of the days in the order of the list. *)
Definition abbreviations (days : list Z) : string :=
  Js.join ", " (map (fun d => Js.index RemindersScreen.DAYS_SHORT d) days).

(** The list is in ascending order. *)
Definition ascending (days : list Z) : Prop := StronglySorted Z.lt days.

(** The specification's rendering of a set that has no name: the days of
    the set in the canonical order, Sunday first. *)
Definition canonicalOrder (days : list Z) : list Z :=
  filter (Js.includes days) [0; 1; 2; 3; 4; 5; 6]%Z.

(** ** Environments *)

(** No gateway call is attempted: nobody is signed in, or Supabase is
    not configured. *)
Definition offline (env : Env) : Prop :=
  user env && isSupabaseConfigured env = false.

(** The next call to the gateway does not succeed: its result carries an
    error, or the promise rejects. *)
Definition nextCallFails (env : Env) (w : World) : Prop :=
  match outcome env (length (gatewayLog w)) with
  | Resolves (Some _) => True
  | Resolves None => False
  | Rejects _ => True
  end.

(** ** The table of the scheduler *)

(** What [cancelPetReminder reminderId] leaves of a table: a request
    goes when it carries the identifier of a request of the reminder. *)
Definition cancelledBy (victims table : list Notifications.NotificationRequest)
  : list Notifications.NotificationRequest :=
  filter (fun n =>
            negb (existsb (fun m => Nat.eqb (Notifications.identifier n)
                                            (Notifications.identifier m))
                          victims))
         table.

Definition afterCancel (reminderId : string)
           (table : list Notifications.NotificationRequest)
  : list Notifications.NotificationRequest :=
  cancelledBy (filter (NotificationService.isFor reminderId) table) table.

(** The requests [schedulePetReminder] registers: one per entry of
    [days], with consecutive identifiers. *)
Fixpoint newRequests (env : Env) (reminder : PetReminder.t) (start : nat)
         (days : list Z) : list Notifications.NotificationRequest :=
  match days with
  | [] => []
  | dayOfWeek :: rest =>
      Notifications.mkRequest start
        (NotificationService.reminderContent reminder)
        (NotificationService.reminderTrigger env reminder dayOfWeek)
        :: newRequests env reminder (S start) rest
  end.

(** The days [schedulePetReminder] goes through. *)
Definition liveDays (reminder : PetReminder.t) : list Z :=
  if PetReminder.enabled reminder then PetReminder.daysOfWeek reminder else [].

(** The world after [schedulePetReminder env reminder]. *)
Definition afterSchedule (env : Env) (reminder : PetReminder.t) (w : World) : World :=
  with_issued (issued w + length (liveDays reminder))
    (with_scheduled
       (afterCancel (PetReminder.id reminder) (scheduled w)
          ++ newRequests env reminder (issued w) (liveDays reminder))%list w).

(** The scheduler hands out each identifier once: the requests of the
    table carry different identifiers, all of them already issued. *)
Definition schedulerOk (w : World) : Prop :=
  NoDup (map Notifications.identifier (scheduled w))
  /\ Forall (fun n => Notifications.identifier n < issued w) (scheduled w).

(** One turn of the loop of [scheduleAllReminders]. *)
Definition scheduleStep (env : Env) (w : World) (reminder : PetReminder.t) : World :=
  if PetReminder.enabled reminder then afterSchedule env reminder w else w.

(** ** Calls to the gateway *)

(** The action talks to the gateway for this id. *)
Definition remoteCall (env : Env) (id : string) : bool :=
  user env && isSupabaseConfigured env && negb (isLocalId id).

(** The promise of every gateway call resolves (with or without an
    error in the result); none rejects. *)
Definition neverRejects (env : Env) : Prop :=
  forall k, exists err, outcome env k = Resolves err.

(** The call that replays a pet, and the one that replays a reminder. *)
Definition petCreate (pet : Pet.t) : GatewayCall :=
  Create "pets" (PetPayload (PetStore.petToRecord (PartialPet.ofPet pet))).

Definition reminderCreate (reminder : PetReminder.t) : GatewayCall :=
  Create "pet_reminders"
         (ReminderPayload
            (NotificationStore.reminderToRecord
               (PartialPetReminder.ofReminder reminder))).

Definition settingsUpsert (settings : NotificationSettings.t) : GatewayCall :=
  Upsert "user_settings"
         (SettingsPayload (NotificationStore.settingsToRecord settings))
         "app_id,user_id".

Definition localPets (w : World) : list Pet.t :=
  filter (fun pet => isLocalId (Pet.id pet)) (PetState.pets (petStore w)).

Definition localReminders (w : World) : list PetReminder.t :=
  filter (fun r => isLocalId (PetReminder.id r))
         (NotificationState.petReminders (notificationStore w)).

(** ** Reminders and the settings gate *)

Definition findReminder (id : string) (w : World) : option PetReminder.t :=
  Js.find (fun r => String.eqb (PetReminder.id r) id)
          (NotificationState.petReminders (notificationStore w)).

Definition gateOf (w : World) : bool :=
  NotificationStore.gate (NotificationState.settings (notificationStore w)).

(** The update is not refused by the gateway. *)
Definition accepted (env : Env) (id : string) (w : World) : Prop :=
  remoteCall env id = false
  \/ outcome env (length (gatewayLog w)) = Resolves None.

(** ** Sample data *)

Module Sample.

Definition clock : N := 1700000000000.
Definition stamp : string := "2023-11-14T22:13:20.000Z".

(** Nobody is signed in. *)
Definition envOffline : Env :=
  mkEnv false false false clock stamp
        (fun _ => Resolves None) (fun _ => None) (fun _ => None).

(** Signed in, and every call to the gateway is answered with an error. *)
Definition envFailing : Env :=
  mkEnv true true false clock stamp
        (fun _ => Resolves (Some "network request failed"))
        (fun _ => None) (fun _ => None).

(** Signed in, and the first call to the gateway rejects. *)
Definition envRejecting : Env :=
  mkEnv true true false clock stamp
        (fun k => match k with
                  | 0 => Rejects (Js.mkThrown (Some "timeout"))
                  | _ => Resolves None
                  end)
        (fun _ => None) (fun _ => None).

Definition serverPet (k : nat) : PetRecord.t :=
  PetRecord.mk ("7d1c-" ++ Js.numberToString (N.of_nat k)) "Rex" "dog"
               (Some "Beagle") (Some 3%Z) (Some 12%Z) None (Some male)
               None None None stamp stamp.

(** Signed in, and the gateway accepts everything. *)
Definition envOnline : Env :=
  mkEnv true true false clock stamp
        (fun _ => Resolves None) (fun k => Some (serverPet k)) (fun _ => None).

Definition rex : NewPet.t :=
  NewPet.mk "Rex" "dog" "Beagle" 3 12 None (Some male) None None None.
Definition tom : NewPet.t :=
  NewPet.mk "Tom" "cat" "" 5 4 None (Some male) None None None.

Definition rexPet : Pet.t :=
  Pet.mk "7d1c" "Rex" "dog" "Beagle" 3 12 None (Some male) None None None
         (Some stamp) (Some stamp).

Definition checkupOfRex : Appointment.t :=
  Appointment.mk "a-1" "7d1c" checkup "Yearly checkup" "2024-01-10" None None
                 None None None (Some true) (Some false) (Some stamp) (Some stamp).

(** A walk at 8:00 from Monday to Friday. *)
Definition morningWalk : NewPetReminder.t :=
  NewPetReminder.mk "7d1c" "Rex" walk "Morning walk" "Time to walk Rex!"
                    (Time.mk 8 0) [1; 2; 3; 4; 5]%Z true.
Definition dinner : NewPetReminder.t :=
  NewPetReminder.mk "7d1c" "Rex" feeding "Dinner" "Time to feed Rex!"
                    (Time.mk 18 30) [0; 1; 2; 3; 4; 5; 6]%Z true.

(** The edit of the hour of a reminder to 9:00. *)
Definition atNine : PartialPetReminder.t :=
  PartialPetReminder.mk None None None None None None (Some (Time.mk 9 0)) None None.

Definition remindersOff : PartialNotificationSettings.t :=
  PartialNotificationSettings.mk None (Some false) None None None None None.
Definition remindersOn : PartialNotificationSettings.t :=
  PartialNotificationSettings.mk None (Some true) None None None None None.
Definition pushOff : PartialNotificationSettings.t :=
  PartialNotificationSettings.mk (Some false) None None None None None None.
Definition pushOn : PartialNotificationSettings.t :=
  PartialNotificationSettings.mk (Some true) None None None None None None.

End Sample.

(** ** Sample worlds *)

(** Rex (server id ["7d1c"]) and his yearly checkup. *)
Definition worldWithRex : World :=
  with_appointmentStore
    (AppointmentStateSet.with_appointments [Sample.checkupOfRex]
                                           AppointmentState.initial)
    (with_petStore (PetStateSet.with_pets [Sample.rexPet] PetState.initial)
                   initialWorld).

(** The edit of the name of a pet. *)
Definition renamed : PartialPet.t :=
  PartialPet.mk None (Some "Max") None None None None None None None None None
                None None.

(** Rex with a checkup, and a walk reminder whose five triggers are
    registered. *)
Definition worldWithReminder : World :=
  exec (NotificationStore.addPetReminder Sample.envOffline Sample.morningWalk)
       worldWithRex.

Definition petIdOf (n : Notifications.NotificationRequest) : option string :=
  Notifications.petId (Notifications.content n).

(** The reminders setting is turned off, the walk reminder is added,
    and the setting is turned on again. *)
Definition afterRemindersToggle : World :=
  exec (NotificationStore.updateSettings Sample.envOffline Sample.remindersOn)
    (exec (NotificationStore.addPetReminder Sample.envOffline Sample.morningWalk)
       (exec (NotificationStore.updateSettings Sample.envOffline Sample.remindersOff)
          initialWorld)).

(** The same with the push setting. *)
Definition afterPushToggle : World :=
  exec (NotificationStore.updateSettings Sample.envOffline Sample.pushOn)
    (exec (NotificationStore.addPetReminder Sample.envOffline Sample.morningWalk)
       (exec (NotificationStore.updateSettings Sample.envOffline Sample.pushOff)
          initialWorld)).

(** The reminder is added with the gate on, and the reminders setting is
    turned off afterwards. *)
Definition afterRemindersOff : World :=
  exec (NotificationStore.updateSettings Sample.envOffline Sample.remindersOff)
    (exec (NotificationStore.addPetReminder Sample.envOffline Sample.morningWalk)
       initialWorld).

(** The walk reminder is added with the gate on (five triggers at 8:00),
    the reminders setting is turned off, and the hour is edited to 9. *)
Definition afterEditWithGateOff : World :=
  exec (NotificationStore.updatePetReminder Sample.envOffline "local_1700000000000"
                                            Sample.atNine)
       afterRemindersOff.

(** The walk reminder is added while push notifications are off, and
    its hour is edited to 9. *)
Definition afterEditWithPushOff : World :=
  exec (NotificationStore.updatePetReminder Sample.envOffline "local_1700000000000"
                                            Sample.atNine)
    (exec (NotificationStore.addPetReminder Sample.envOffline Sample.morningWalk)
       (exec (NotificationStore.updateSettings Sample.envOffline Sample.pushOff)
          initialWorld)).

(** One pet created offline and waiting to be replayed. *)
Definition worldWithLocalRex : World :=
  exec (PetStore.addPet Sample.envOffline Sample.rex) initialWorld.

(** Rex and Tom created offline, one millisecond apart. *)
Definition envOfflineLater : Env :=
  mkEnv false false false (Sample.clock + 1) Sample.stamp
        (fun _ => Resolves None) (fun _ => None) (fun _ => None).

Definition worldWithTwoLocalPets : World :=
  exec (PetStore.addPet envOfflineLater Sample.tom) worldWithLocalRex.

(** ** More environments and worlds *)

(** The gateway accepts every call: no error, no rejection. *)
Definition alwaysAccepts (env : Env) : Prop :=
  forall k, outcome env k = Resolves None.

(** Every create of a pet comes back with a row under a server id. *)
Definition createsPets (env : Env) : Prop :=
  forall k,
    outcome env k = Resolves None
    /\ exists d, petRow env k = Some d /\ isLocalId (PetRecord.id d) = false.

(** The same for the appointment rows [rows]. *)
Definition createsAppointments (env : Env)
           (rows : nat -> option AppointmentRecord.t) : Prop :=
  forall k,
    outcome env k = Resolves None
    /\ exists d, rows k = Some d /\ isLocalId (AppointmentRecord.id d) = false.

Definition localAppointments (w : World) : list Appointment.t :=
  filter (fun apt => isLocalId (Appointment.id apt))
         (AppointmentState.appointments (appointmentStore w)).

(** The call that replays an appointment. *)
Definition appointmentCreate (apt : Appointment.t) : GatewayCall :=
  Create "appointments"
         (AppointmentPayload
            (AppointmentStore.appointmentToRecord
               (AppointmentStoreSync.asPartial apt))).

(** A time of day as the reminders carry it. *)
Definition timeOfDay (hour minute : Z) : Prop :=
  (0 <= hour <= 23)%Z /\ (0 <= minute <= 59)%Z.

(** The edit that [togglePetReminder] sends for a reminder. *)
Definition toggled (reminder : PetReminder.t) : PartialPetReminder.t :=
  PartialPetReminder.mk None None None None None None None None
                        (Some (negb (PetReminder.enabled reminder))).

(** The edit that [markAsCompleted] sends. *)
Definition completed : PartialAppointment.t :=
  PartialAppointment.mk None None None None None None None None None None
                        None (Some true) None None.

Module Sample2.

Definition serverAppointment (k : nat) : AppointmentRecord.t :=
  AppointmentRecord.mk ("9e2f-" ++ Js.numberToString (N.of_nat k)) "7d1c" checkup
                       "Yearly checkup" "2024-01-10" None None None None None
                       true false Sample.stamp Sample.stamp.

Definition localCheckup : Appointment.t :=
  Appointment.mk "local_1700000000005" "7d1c" checkup "Yearly checkup"
                 "2024-01-10" None None None None None (Some true) (Some false)
                 (Some Sample.stamp) (Some Sample.stamp).

Definition rexRow : PetRecord.t := Sample.serverPet 0.

Definition walkRow : PetReminderRecord.t :=
  PetReminderRecord.mk "5b0a" "7d1c" "Rex" walk "Morning walk"
                       (Some "Time to walk Rex!") 8 0 [1; 2; 3; 4; 5]%Z true
                       Sample.stamp Sample.stamp.


End Sample2.

(** Rex under his server id, and Tom waiting under a local id. *)
Definition worldWithRexAndLocalTom : World :=
  exec (PetStore.addPet envOfflineLater Sample.tom) worldWithRex.

(** Rex's checkup under its server id, and one more waiting under a
    local id, with the pending flag on. *)
Definition worldWithLocalCheckup : World :=
  with_appointmentStore
    (AppointmentStateSet.with_pendingChanges true
       (AppointmentStateSet.with_appointments
          [Sample2.localCheckup; Sample.checkupOfRex] AppointmentState.initial))
    initialWorld.

(** ** Reading and rewriting a collection by id *)

(** [arr.find(x => x.id === id)] *)
Definition findById {A : Type} (idOf : A -> string) (id : string) (arr : list A)
  : option A :=
  Js.find (fun x => String.eqb (idOf x) id) arr.

(** [arr.map(x => x.id === id ? f(x) : x)] *)
Definition replaceById {A : Type} (idOf : A -> string) (id : string) (f : A -> A)
           (arr : list A) : list A :=
  map (fun x => if String.eqb (idOf x) id then f x else x) arr.

(** [arr.filter(x => x.id !== id)] *)
Definition removeById {A : Type} (idOf : A -> string) (id : string) (arr : list A)
  : list A :=
  filter (fun x => negb (String.eqb (idOf x) id)) arr.

(** ** Reminders *)

(** Every create of a reminder comes back with a row under a server id. *)
Definition createsReminders (env : Env) : Prop :=
  forall k,
    outcome env k = Resolves None
    /\ exists d, reminderRow env k = Some d
                 /\ isLocalId (PetReminderRecord.id d) = false.

(** The requests that do not belong to the reminder. *)
Definition othersOf (reminderId : string)
           (table : list Notifications.NotificationRequest)
  : list Notifications.NotificationRequest :=
  filter (fun n => negb (NotificationService.isFor reminderId n)) table.

(** The triggers registered for the reminder. *)
Definition triggersOf (reminderId : string) (w : World)
  : list Notifications.Trigger :=
  map Notifications.trigger
      (filter (NotificationService.isFor reminderId) (scheduled w)).

(** The world after an [updatePetReminder env id updates] that went
    through, [existing] being the reminder found under [id]. *)
Definition afterUpdateReminder (env : Env) (id : string)
           (updates : PartialPetReminder.t) (existing : PetReminder.t)
           (w : World) : World :=
  let updated := NotificationStore.merge existing updates in
  let w0 :=
    if remoteCall env id
    then with_gatewayLog
           (gatewayLog w
              ++ [Update "pet_reminders" id
                    (ReminderPayload (NotificationStore.reminderToRecord updates))])%list
           w
    else w in
  let w1 :=
    with_notificationStore
      (NotificationStateSet.with_petReminders
         (replaceById PetReminder.id id (fun _ => updated)
                      (NotificationState.petReminders (notificationStore w)))
         (NotificationStateSet.with_pendingChanges
            (isLocalId id || negb (isSupabaseConfigured env))
            (notificationStore w)))
      w0 in
  if gateOf w then
    if PetReminder.enabled updated then afterSchedule env updated w1
    else with_scheduled (afterCancel id (scheduled w1)) w1
  else w1.

(** Signed in, the gateway accepts everything and answers the create of
    a reminder with the row of the walk. *)
Definition envOnlineWalk : Env :=
  mkEnv true true false Sample.clock Sample.stamp
        (fun _ => Resolves None) (fun k => Some (Sample.serverPet k))
        (fun _ => Some Sample2.walkRow).

(** Rex and his walk, stored under the server id ["5b0a"], with its five
    triggers registered. *)
Definition worldWithServerWalk : World :=
  exec (NotificationStore.addPetReminder envOnlineWalk Sample.morningWalk)
       worldWithRex.

(** The walk of Rex as the store holds it in [worldWithReminder]. *)
Definition localWalk : PetReminder.t :=
  NotificationStore.newLocalReminder Sample.morningWalk "local_1700000000000".

(** ** Start-up *)

(** One of the two reads that [initialize] makes when signed in is
    rejected. *)
Definition fetchRejects {S R : Type} (env : Env)
           (settingsReply : ListOutcome S) (remindersReply : ListOutcome R) : bool :=
  user env && isSupabaseConfigured env
  && match settingsReply, remindersReply with
     | ListRejects _, _ => true
     | _, ListRejects _ => true
     | _, _ => false
     end.



(** ** The forms *)

(** Every time of day, hour by hour and minute by minute. *)
Definition timesOfDay : list (Z * Z) :=
  list_prod (map Z.of_nat (seq 0 24)) (map Z.of_nat (seq 0 60)).

(** No label occurs twice in the list. *)
Fixpoint allDistinct (labels : list string) : bool :=
  match labels with
  | [] => true
  | label :: rest => negb (existsb (String.eqb label) rest) && allDistinct rest
  end.

(** A selection of days as the form keeps it. *)
Definition selection (days : list Z) : Prop :=
  days <> [] /\ ascending days /\ forall d, In d days -> (0 <= d <= 6)%Z.

(** Signed in; the first call to the gateway comes back with an error
    and the second one rejects. *)
Definition envRejectingSecond : Env :=
  mkEnv true true false Sample.clock Sample.stamp
        (fun k => match k with
                  | 0 => Resolves (Some "network request failed")
                  | 1 => Rejects (Js.mkThrown (Some "timeout"))
                  | _ => Resolves None
                  end)
        (fun _ => None) (fun _ => None).

(* ===================================================================== *)
(** * Properties *)
(* ===================================================================== *)

(** ** Weekday summaries *)

Section WeekdaySets.

Import RemindersScreen.

Lemma includes_In days d : Js.includes days d = true <-> In d days.
Proof.
  unfold Js.includes. rewrite existsb_exists. split.
  - intros [x [Hx Heq]]. apply Z.eqb_eq in Heq. now subst.
  - intros H. exists d. split; [assumption | apply Z.eqb_refl].
Qed.

Lemma includes_notIn days d : Js.includes days d = false <-> ~ In d days.
Proof.
  rewrite <- includes_In. destruct (Js.includes days d); split; congruence.
Qed.

Lemma In_week d : (0 <= d <= 6)%Z <-> In d [0; 1; 2; 3; 4; 5; 6]%Z.
Proof. simpl. lia. Qed.

Lemma In_workdays d : (1 <= d <= 5)%Z <-> In d [1; 2; 3; 4; 5]%Z.
Proof. simpl. lia. Qed.

Lemma NoDup_week : NoDup [0; 1; 2; 3; 4; 5; 6]%Z.
Proof. repeat constructor; simpl; lia. Qed.

Lemma NoDup_workdays : NoDup [1; 2; 3; 4; 5]%Z.
Proof. repeat constructor; simpl; lia. Qed.

Lemma NoDup_weekend : NoDup [0; 6]%Z.
Proof. repeat constructor; simpl; lia. Qed.

(** Seven different days are the whole week. *)
Lemma seven_days_allWeek days :
  weekdaySet days -> length days = 7 -> allWeek days.
Proof.
  intros [Hnd Hrange] Hlen d Hd.
  apply (NoDup_length_incl Hnd (l' := [0; 1; 2; 3; 4; 5; 6]%Z)).
  - rewrite Hlen. simpl. lia.
  - intros x Hx. apply In_week. auto.
  - now apply In_week.
Qed.

Lemma allWeek_seven_days days :
  weekdaySet days -> allWeek days -> length days = 7.
Proof.
  intros [Hnd Hrange] Hall.
  change 7 with (length [0; 1; 2; 3; 4; 5; 6]%Z).
  apply Permutation_length.
  apply NoDup_Permutation; [assumption | apply NoDup_week |].
  intros x. rewrite <- In_week. split; auto.
Qed.

Lemma workdays_iff days :
  weekdaySet days ->
  (length days = 5 /\ ~ In 0%Z days /\ ~ In 6%Z days) <-> mondayToFriday days.
Proof.
  intros [Hnd Hrange]. split.
  - intros (Hlen & H0 & H6) d. split.
    + intros Hd. specialize (Hrange d Hd).
      assert (d <> 0%Z) by (intros ->; contradiction).
      assert (d <> 6%Z) by (intros ->; contradiction). lia.
    + intros Hd.
      apply (NoDup_length_incl Hnd (l' := [1; 2; 3; 4; 5]%Z)).
      * rewrite Hlen. simpl. lia.
      * intros x Hx. apply In_workdays. specialize (Hrange x Hx).
        assert (x <> 0%Z) by (intros ->; contradiction).
        assert (x <> 6%Z) by (intros ->; contradiction). lia.
      * now apply In_workdays.
  - intros Hset. repeat split.
    + change 5 with (length [1; 2; 3; 4; 5]%Z).
      apply Permutation_length.
      apply NoDup_Permutation; [assumption | apply NoDup_workdays |].
      intros x. rewrite <- In_workdays. apply Hset.
    + intros H. apply Hset in H. lia.
    + intros H. apply Hset in H. lia.
Qed.

Lemma weekend_iff days :
  weekdaySet days ->
  (length days = 2 /\ In 0%Z days /\ In 6%Z days) <-> sundayAndSaturday days.
Proof.
  intros [Hnd Hrange]. split.
  - intros (Hlen & H0 & H6) d. split.
    + intros Hd.
      assert (Hin : In d [0; 6]%Z).
      { apply (NoDup_length_incl NoDup_weekend (l' := days)).
        - rewrite Hlen. simpl. lia.
        - intros x [<- | [<- | []]]; assumption.
        - assumption. }
      simpl in Hin. intuition.
    + intros [-> | ->]; assumption.
  - intros Hset. repeat split.
    + change 2 with (length [0; 6]%Z).
      apply Permutation_length.
      apply NoDup_Permutation; [assumption | apply NoDup_weekend |].
      intros x. specialize (Hset x). simpl.
      split; intros H; [apply Hset in H | apply Hset]; intuition auto.
    + apply Hset. now left.
    + apply Hset. now right.
Qed.

(** The three tests of [formatDays], read on a weekday set. *)
Lemma test_everyDay days :
  weekdaySet days -> (length days =? 7)%nat = true <-> allWeek days.
Proof.
  intros Hset. rewrite Nat.eqb_eq. split.
  - now apply seven_days_allWeek.
  - now apply allWeek_seven_days.
Qed.

Lemma test_weekdays days :
  weekdaySet days ->
  (length days =? 5)%nat && negb (Js.includes days 0)
    && negb (Js.includes days 6) = true <-> mondayToFriday days.
Proof.
  intros Hset. rewrite <- (workdays_iff days Hset).
  rewrite !andb_true_iff, !negb_true_iff, !includes_notIn, Nat.eqb_eq.
  tauto.
Qed.

Lemma test_weekends days :
  weekdaySet days ->
  (length days =? 2)%nat && Js.includes days 0 && Js.includes days 6 = true
  <-> sundayAndSaturday days.
Proof.
  intros Hset. rewrite <- (weekend_iff days Hset).
  rewrite !andb_true_iff, !includes_In, Nat.eqb_eq.
  tauto.
Qed.

Lemma formatDays_cases days :
  weekdaySet days ->
  (allWeek days /\ formatDays days = "Every day")
  \/ (~ allWeek days /\ mondayToFriday days /\ formatDays days = "Weekdays")
  \/ (~ allWeek days /\ ~ mondayToFriday days /\ sundayAndSaturday days
      /\ formatDays days = "Weekends")
  \/ (~ allWeek days /\ ~ mondayToFriday days /\ ~ sundayAndSaturday days
      /\ formatDays days = abbreviations days).
Proof.
  intros Hset. unfold formatDays, abbreviations.
  pose proof (test_everyDay days Hset) as T7.
  pose proof (test_weekdays days Hset) as T5.
  pose proof (test_weekends days Hset) as T2.
  destruct (length days =? 7)%nat.
  { left. split; [now apply T7 | reflexivity]. }
  assert (Hn7 : ~ allWeek days) by (intros A; apply T7 in A; discriminate).
  right.
  destruct ((length days =? 5)%nat && negb (Js.includes days 0)
            && negb (Js.includes days 6)).
  { left. split; [assumption | split; [now apply T5 | reflexivity]]. }
  assert (Hn5 : ~ mondayToFriday days) by (intros A; apply T5 in A; discriminate).
  right.
  destruct ((length days =? 2)%nat && Js.includes days 0 && Js.includes days 6).
  { left. split; [assumption | split; [assumption | split; [now apply T2 | reflexivity]]]. }
  assert (Hn2 : ~ sundayAndSaturday days) by (intros A; apply T2 in A; discriminate).
  right. split; [assumption | split; [assumption | split; [assumption | reflexivity]]].
Qed.

(** Two ascending lists with the same elements are the same list. *)
Lemma ascending_unique (l1 l2 : list Z) :
  ascending l1 -> ascending l2 -> (forall x, In x l1 <-> In x l2) -> l1 = l2.
Proof.
  unfold ascending. revert l2.
  induction l1 as [| a l1 IH]; intros [| b l2] H1 H2 Hsame.
  - reflexivity.
  - exfalso. apply (proj2 (Hsame b)). now left.
  - exfalso. apply (proj1 (Hsame a)). now left.
  - apply StronglySorted_inv in H1 as [H1 Ha].
    apply StronglySorted_inv in H2 as [H2 Hb].
    rewrite Forall_forall in Ha, Hb.
    assert (Hab : a = b).
    { destruct (proj1 (Hsame a) (or_introl eq_refl)) as [Hba | Hin];
        [now symmetry |].
      destruct (proj2 (Hsame b) (or_introl eq_refl)) as [Heq | Hin'];
        [assumption |].
      specialize (Ha b Hin'). specialize (Hb a Hin). lia. }
    subst b. f_equal. apply IH; try assumption.
    intros x. split; intros Hx.
    + destruct (proj1 (Hsame x) (or_intror Hx)) as [Heq | Hin]; [| assumption].
      specialize (Ha x Hx). lia.
    + destruct (proj2 (Hsame x) (or_intror Hx)) as [Heq | Hin]; [| assumption].
      specialize (Hb x Hx). lia.
Qed.

Lemma ascending_filter (f : Z -> bool) (l : list Z) :
  ascending l -> ascending (filter f l).
Proof.
  unfold ascending. induction l as [| a l IH]; intros H; simpl; [constructor |].
  apply StronglySorted_inv in H as [H Ha]. destruct (f a); [| now apply IH].
  constructor; [now apply IH |].
  rewrite Forall_forall in *. intros x Hx. apply filter_In in Hx. now apply Ha.
Qed.

Lemma ascending_week : ascending [0; 1; 2; 3; 4; 5; 6]%Z.
Proof. unfold ascending. repeat constructor; lia. Qed.

(** An ascending list of days is in canonical order. *)
Lemma ascending_canonicalOrder (days : list Z) :
  (forall d, In d days -> (0 <= d <= 6)%Z) ->
  ascending days -> canonicalOrder days = days.
Proof.
  intros Hrange Hasc. apply ascending_unique; [| assumption |].
  - apply ascending_filter, ascending_week.
  - intros x. unfold canonicalOrder. rewrite filter_In, includes_In, <- In_week.
    split; [tauto | intros Hx; split; [now apply Hrange | assumption]].
Qed.

End WeekdaySets.


(** ** Running store actions *)

Ltac run_step :=
  unfold exec, eval, tryCatch, bind, ret, modify, getWorld, throw,
    PetStore.set, PetStore.get, AppointmentStore.set,
    NotificationStore.set, NotificationStore.get,
    Database.create, Database.update, Database.remove, Database.upsert,
    Database.roundTrip,
    with_petStore, with_appointmentStore, with_notificationStore,
    with_scheduled, with_issued, with_gatewayLog;
  cbn [fst snd negb andb orb data error petStore appointmentStore
       notificationStore scheduled issued gatewayLog].
Ltac run_action := repeat progress run_step.

(** *** The scheduler *)

Section Scheduler.

Import Notifications NotificationService.

Lemma filter_none {A : Type} (f : A -> bool) (l : list A) :
  (forall x, In x l -> f x = false) -> filter f l = [].
Proof.
  induction l as [| a l IH]; intros H; simpl; [reflexivity |].
  rewrite (H a (or_introl eq_refl)). apply IH. intros x Hx. apply H. now right.
Qed.

Lemma filter_all {A : Type} (f : A -> bool) (l : list A) :
  (forall x, In x l -> f x = true) -> filter f l = l.
Proof.
  induction l as [| a l IH]; intros H; simpl; [reflexivity |].
  rewrite (H a (or_introl eq_refl)). f_equal. apply IH. intros x Hx. apply H. now right.
Qed.

Lemma filter_twice {A : Type} (f g : A -> bool) (l : list A) :
  filter f (filter g l) = filter (fun x => g x && f x) l.
Proof.
  induction l as [| a l IH]; simpl; [reflexivity |].
  destruct (g a); simpl; [destruct (f a) |]; rewrite IH; reflexivity.
Qed.

Lemma cancel_loop reminderId ns w :
  forEach ns (fun notification =>
    if isFor reminderId notification
    then cancelScheduledNotificationAsync (identifier notification)
    else ret tt) w
  = (Val tt,
     with_scheduled (cancelledBy (filter (isFor reminderId) ns) (scheduled w)) w).
Proof.
  revert w. induction ns as [| x rest IH]; intros w.
  - simpl. unfold ret, cancelledBy. simpl. rewrite filter_true.
    destruct w; reflexivity.
  - simpl. unfold bind at 1. destruct (isFor reminderId x) eqn:Hx.
    + unfold cancelScheduledNotificationAsync, modify. rewrite IH.
      f_equal. unfold with_scheduled, cancelledBy. cbn [scheduled petStore
        appointmentStore notificationStore issued gatewayLog].
      f_equal. rewrite filter_twice. apply filter_ext. intros n. simpl.
      rewrite negb_orb. reflexivity.
    + unfold ret at 1. apply IH.
Qed.

Lemma cancelPetReminder_run reminderId w :
  cancelPetReminder reminderId w
  = (Val tt, with_scheduled (afterCancel reminderId (scheduled w)) w).
Proof.
  unfold cancelPetReminder, getAllScheduledNotificationsAsync.
  run_action. apply cancel_loop.
Qed.

(** Cancelling leaves no request of the reminder. *)
Lemma afterCancel_none reminderId table :
  filter (isFor reminderId) (afterCancel reminderId table) = [].
Proof.
  unfold afterCancel, cancelledBy. rewrite filter_twice.
  apply filter_none. intros n Hn.
  destruct (isFor reminderId n) eqn:Hfor; [| apply andb_false_r].
  rewrite andb_true_r, negb_false_iff, existsb_exists.
  exists n. split; [| apply Nat.eqb_refl].
  apply filter_In. now split.
Qed.

(** Cancelling a reminder that has no request is a no-op. *)
Lemma afterCancel_absent reminderId table :
  filter (isFor reminderId) table = [] -> afterCancel reminderId table = table.
Proof.
  intros H. unfold afterCancel, cancelledBy. rewrite H. simpl.
  apply filter_true.
Qed.

Lemma afterCancel_incl reminderId table n :
  In n (afterCancel reminderId table) -> In n table.
Proof. unfold afterCancel, cancelledBy. intros H. now apply filter_In in H. Qed.

Lemma newRequests_isFor env reminder start days :
  filter (isFor (PetReminder.id reminder)) (newRequests env reminder start days)
  = newRequests env reminder start days.
Proof.
  apply filter_all. revert start.
  induction days as [| d rest IH]; intros start n Hn; simpl in Hn; [easy |].
  destruct Hn as [<- | Hn]; [| now apply (IH (S start))].
  unfold isFor. simpl. apply String.eqb_refl.
Qed.

Lemma newRequests_length env reminder start days :
  length (newRequests env reminder start days) = length days.
Proof.
  revert start. induction days as [| d rest IH]; intros start; simpl;
    [reflexivity | now rewrite IH].
Qed.

Lemma scheduleDays_run env reminder days acc w :
  scheduleDays env reminder days acc w
  = (Val (acc ++ seq (issued w) (length days))%list,
     with_issued (issued w + length days)
       (with_scheduled (scheduled w ++ newRequests env reminder (issued w) days)%list w)).
Proof.
  revert acc w. induction days as [| d rest IH]; intros acc w.
  - simpl. unfold ret. rewrite !app_nil_r, Nat.add_0_r. destruct w; reflexivity.
  - simpl. unfold bind at 1, scheduleNotificationAsync. rewrite IH.
    destruct w; unfold with_issued, with_scheduled; simpl.
    rewrite <- !app_assoc. simpl. repeat f_equal. lia.
Qed.

Lemma schedulePetReminder_run env reminder w :
  exists ids,
    schedulePetReminder env reminder w
    = (Val ids,
       with_issued (issued w + length (liveDays reminder))
         (with_scheduled
            (afterCancel (PetReminder.id reminder) (scheduled w)
               ++ newRequests env reminder (issued w) (liveDays reminder))%list w)).
Proof.
  unfold schedulePetReminder, liveDays. unfold bind at 1.
  rewrite cancelPetReminder_run.
  destruct (PetReminder.enabled reminder); simpl.
  - destruct (PetReminder.daysOfWeek reminder) as [| d rest] eqn:Hdays.
    + simpl. exists []. unfold ret. rewrite app_nil_r, Nat.add_0_r.
      destruct w; reflexivity.
    + cbn [length Nat.eqb]. rewrite scheduleDays_run. eexists.
      destruct w; reflexivity.
  - exists []. unfold ret. rewrite app_nil_r, Nat.add_0_r.
    destruct w; reflexivity.
Qed.

End Scheduler.


(** *** Creating a record *)

Arguments localId : simpl never.

Section Create.

Import Notifications NotificationService.

Lemma scheduleIfAllowed_run env reminder w :
  NotificationStore.scheduleIfAllowed env reminder w
  = (Val tt,
     if NotificationStore.gate (NotificationState.settings (notificationStore w))
        && PetReminder.enabled reminder
     then afterSchedule env reminder w else w).
Proof.
  unfold NotificationStore.scheduleIfAllowed. run_action.
  destruct (NotificationStore.gate _ && PetReminder.enabled reminder);
    [| reflexivity].
  destruct (schedulePetReminder_run env reminder w) as [ids ->]. reflexivity.
Qed.

Lemma addPet_offline env petData w :
  offline env ->
  PetStore.addPet env petData w =
  (Val (Some (localId env)),
   with_petStore
     (PetState.mk
        (PetStore.newLocalPet petData (localId env) (nowISO env) (nowISO env)
           :: PetState.pets (petStore w))
        false None (PetState.lastSyncedAt (petStore w)) true) w).
Proof.
  intros Hoff. unfold PetStore.addPet. run_action. red in Hoff. rewrite Hoff.
  reflexivity.
Qed.

Lemma addPetReminder_offline env reminderData w :
  offline env ->
  exists w',
    NotificationStore.addPetReminder env reminderData w
    = (Val (Some (localId env)), w')
    /\ NotificationState.petReminders (notificationStore w')
       = (NotificationState.petReminders (notificationStore w)
            ++ [NotificationStore.newLocalReminder reminderData (localId env)])%list
    /\ NotificationState.pendingChanges (notificationStore w') = true.
Proof.
  intros Hoff. unfold NotificationStore.addPetReminder. run_action.
  red in Hoff. rewrite Hoff. rewrite scheduleIfAllowed_run.
  eexists. split; [reflexivity |].
  unfold afterSchedule.
  destruct (NotificationStore.gate _ && _); cbn; split; reflexivity.
Qed.

Lemma addPet_gateway_failure env petData w :
  user env && isSupabaseConfigured env = true ->
  nextCallFails env w ->
  let w' := exec (PetStore.addPet env petData) w in
  eval (PetStore.addPet env petData) w = Val None
  /\ PetState.pets (petStore w') = PetState.pets (petStore w)
  /\ PetState.pendingChanges (petStore w') = PetState.pendingChanges (petStore w)
  /\ PetState.error (petStore w') <> None.
Proof.
  intros Hon Hfail. unfold PetStore.addPet. run_action. rewrite Hon.
  run_action. red in Hfail.
  destruct (outcome env (length (gatewayLog w))) as [[msg |] | e];
    [| contradiction |]; cbn; repeat split; discriminate || reflexivity.
Qed.

Lemma addPetReminder_gateway_failure env reminderData w :
  user env && isSupabaseConfigured env = true ->
  nextCallFails env w ->
  let w' := exec (NotificationStore.addPetReminder env reminderData) w in
  eval (NotificationStore.addPetReminder env reminderData) w = Val None
  /\ notificationStore w' = notificationStore w
  /\ scheduled w' = scheduled w.
Proof.
  intros Hon Hfail. unfold NotificationStore.addPetReminder. run_action.
  rewrite Hon. run_action. red in Hfail.
  destruct (outcome env (length (gatewayLog w))) as [[msg |] | e];
    [| contradiction |]; cbn; repeat split.
Qed.

End Create.


(** *** Updating and removing through the gateway *)

Section UpdateRemove.

Ltac fail_case Hremote Hfail :=
  run_action; unfold remoteCall in Hremote; rewrite Hremote; run_action;
  red in Hfail;
  match goal with
  | |- context [outcome ?e ?k] =>
      destruct (outcome e k) as [[msg |] | thrown]; [| contradiction |]
  end; cbn; repeat split; discriminate || reflexivity.

Lemma updatePet_gateway_failure env id data w :
  remoteCall env id = true ->
  nextCallFails env w ->
  let w' := exec (PetStore.updatePet env id data) w in
  eval (PetStore.updatePet env id data) w = Val false
  /\ PetState.pets (petStore w') = PetState.pets (petStore w)
  /\ PetState.pendingChanges (petStore w') = PetState.pendingChanges (petStore w)
  /\ PetState.error (petStore w') <> None.
Proof.
  intros Hremote Hfail. unfold PetStore.updatePet. fail_case Hremote Hfail.
Qed.

Lemma deletePet_gateway_failure env id w :
  remoteCall env id = true ->
  nextCallFails env w ->
  let w' := exec (PetStore.deletePet env id) w in
  eval (PetStore.deletePet env id) w = Val false
  /\ PetState.pets (petStore w') = PetState.pets (petStore w)
  /\ PetState.pendingChanges (petStore w') = PetState.pendingChanges (petStore w)
  /\ PetState.error (petStore w') <> None.
Proof.
  intros Hremote Hfail. unfold PetStore.deletePet. fail_case Hremote Hfail.
Qed.

Lemma updateAppointment_gateway_failure env id data w :
  remoteCall env id = true ->
  nextCallFails env w ->
  let w' := exec (AppointmentStore.updateAppointment env id data) w in
  eval (AppointmentStore.updateAppointment env id data) w = Val false
  /\ AppointmentState.appointments (appointmentStore w')
     = AppointmentState.appointments (appointmentStore w)
  /\ AppointmentState.pendingChanges (appointmentStore w')
     = AppointmentState.pendingChanges (appointmentStore w)
  /\ AppointmentState.error (appointmentStore w') <> None.
Proof.
  intros Hremote Hfail. unfold AppointmentStore.updateAppointment.
  fail_case Hremote Hfail.
Qed.

Lemma deleteAppointment_gateway_failure env id w :
  remoteCall env id = true ->
  nextCallFails env w ->
  let w' := exec (AppointmentStore.deleteAppointment env id) w in
  eval (AppointmentStore.deleteAppointment env id) w = Val false
  /\ AppointmentState.appointments (appointmentStore w')
     = AppointmentState.appointments (appointmentStore w)
  /\ AppointmentState.pendingChanges (appointmentStore w')
     = AppointmentState.pendingChanges (appointmentStore w)
  /\ AppointmentState.error (appointmentStore w') <> None.
Proof.
  intros Hremote Hfail. unfold AppointmentStore.deleteAppointment.
  fail_case Hremote Hfail.
Qed.

(** The local mutation is what happens when the gateway is not asked,
    or when it accepts. *)
Lemma updatePet_applied env id data w :
  remoteCall env id = false
  \/ outcome env (length (gatewayLog w)) = Resolves None ->
  let w' := exec (PetStore.updatePet env id data) w in
  eval (PetStore.updatePet env id data) w = Val true
  /\ PetState.pets (petStore w')
     = map (fun pet => if String.eqb (Pet.id pet) id
                       then PetStore.merge pet data (nowISO env) else pet)
           (PetState.pets (petStore w))
  /\ PetState.pendingChanges (petStore w')
     = isLocalId id || negb (isSupabaseConfigured env).
Proof.
  intros H. unfold PetStore.updatePet. run_action.
  fold (remoteCall env id).
  destruct (remoteCall env id) eqn:Hremote; run_action.
  - destruct H as [H | H]; [discriminate |]. rewrite H. cbn. repeat split.
  - cbn. repeat split.
Qed.

(** [deletePet] works on the pet store and on the gateway, and on
    nothing else. *)
Lemma deletePet_frame env id w :
  let w' := exec (PetStore.deletePet env id) w in
  appointmentStore w' = appointmentStore w
  /\ notificationStore w' = notificationStore w
  /\ scheduled w' = scheduled w.
Proof.
  unfold PetStore.deletePet. run_action.
  destruct (user env && isSupabaseConfigured env && negb (isLocalId id));
    run_action; [| cbn; repeat split].
  destruct (outcome env (length (gatewayLog w))) as [[msg |] | thrown];
    cbn; repeat split.
Qed.

(** [updatePetReminder] looks the reminder up before anything else. *)
Lemma updatePetReminder_unknown env id updates w :
  Js.find (fun r => String.eqb (PetReminder.id r) id)
          (NotificationState.petReminders (notificationStore w)) = None ->
  NotificationStore.updatePetReminder env id updates w = (Val false, w).
Proof.
  intros Hfind. unfold NotificationStore.updatePetReminder. run_action.
  rewrite Hfind. reflexivity.
Qed.

End UpdateRemove.


(** *** Reconciliation *)

Section Reconciliation.

(** **** Pets *)

(** An item whose call comes back with an error changes nothing but
    the log of calls. *)
Lemma pet_syncOne_failure env pet w msg :
  outcome env (length (gatewayLog w)) = Resolves (Some msg) ->
  PetStore.syncOne env pet w
  = (Val tt, with_gatewayLog (gatewayLog w ++ [petCreate pet]) w).
Proof.
  intros H. unfold PetStore.syncOne. run_action. rewrite H. reflexivity.
Qed.

(** What an item leaves alone, however its call ends. *)
Lemma pet_syncOne_frame env pet w :
  let w' := exec (PetStore.syncOne env pet) w in
  gatewayLog w' = (gatewayLog w ++ [petCreate pet])%list
  /\ PetState.pendingChanges (petStore w') = PetState.pendingChanges (petStore w)
  /\ PetState.lastSyncedAt (petStore w') = PetState.lastSyncedAt (petStore w)
  /\ PetState.loading (petStore w') = PetState.loading (petStore w)
  /\ PetState.error (petStore w') = PetState.error (petStore w).
Proof.
  unfold PetStore.syncOne. run_action.
  destruct (outcome env (length (gatewayLog w))) as [[msg |] | thrown]; cbn;
    [repeat split | | repeat split].
  destruct (petRow env (length (gatewayLog w))); cbn; repeat split.
Qed.

Lemma pet_syncOne_value env pet w :
  neverRejects env -> eval (PetStore.syncOne env pet) w = Val tt.
Proof.
  intros Hnr. unfold PetStore.syncOne. run_action.
  destruct (Hnr (length (gatewayLog w))) as [err ->]. cbn.
  destruct err; [reflexivity |].
  destruct (petRow env (length (gatewayLog w))); reflexivity.
Qed.

(** The loop goes through every item when no call rejects. *)
Lemma pet_loop env items :
  neverRejects env ->
  forall w,
    let w' := exec (forEach items (PetStore.syncOne env)) w in
    eval (forEach items (PetStore.syncOne env)) w = Val tt
    /\ gatewayLog w' = (gatewayLog w ++ map petCreate items)%list
    /\ PetState.pendingChanges (petStore w') = PetState.pendingChanges (petStore w)
    /\ PetState.lastSyncedAt (petStore w') = PetState.lastSyncedAt (petStore w).
Proof.
  intros Hnr. induction items as [| pet rest IH]; intros w.
  - cbn. rewrite app_nil_r. repeat split.
  - cbn [forEach map]. unfold exec, eval, bind.
    pose proof (pet_syncOne_value env pet w Hnr) as Hv.
    pose proof (pet_syncOne_frame env pet w) as (Hlog & Hp & Hl & _).
    unfold exec, eval in Hv, Hlog, Hp, Hl.
    destruct (PetStore.syncOne env pet w) as [r w1]. cbn in Hv, Hlog, Hp, Hl.
    subst r. specialize (IH w1). unfold exec, eval in IH.
    destruct IH as (IHv & IHlog & IHp & IHl).
    rewrite IHlog, IHp, IHl, Hlog, Hp, Hl, <- app_assoc.
    repeat split. exact IHv.
Qed.

(** Whatever the gateway does, the calls of the loop are replays of
    the items, in order, up to the point where it stops. *)
Lemma pet_loop_calls env items :
  forall w, exists n,
    gatewayLog (exec (forEach items (PetStore.syncOne env)) w)
    = (gatewayLog w ++ firstn n (map petCreate items))%list.
Proof.
  induction items as [| pet rest IH]; intros w.
  - exists 0. cbn. now rewrite app_nil_r.
  - cbn [forEach map]. unfold exec, bind.
    pose proof (pet_syncOne_frame env pet w) as (Hlog & _).
    unfold exec in Hlog.
    destruct (PetStore.syncOne env pet w) as [[[] | thrown] w1]; cbn in Hlog |- *.
    + destruct (IH w1) as [n Hn]. unfold exec in Hn. exists (S n).
      rewrite Hn, Hlog, <- app_assoc. reflexivity.
    + exists 1. cbn. exact Hlog.
Qed.

Lemma pet_sync_noop env w :
  PetState.pendingChanges (petStore w) = false ->
  PetStore.syncToServer env w = (Val tt, w).
Proof.
  intros H. unfold PetStore.syncToServer. run_action. rewrite H. reflexivity.
Qed.

Lemma pet_sync_offline env w :
  negb (user env) || negb (isSupabaseConfigured env) = true ->
  PetStore.syncToServer env w = (Val tt, w).
Proof.
  intros H. unfold PetStore.syncToServer. run_action. rewrite H.
  destruct (PetState.pendingChanges (petStore w)); reflexivity.
Qed.

(** A pass that runs to its end. *)
Lemma pet_sync_completed env w :
  user env = true -> isSupabaseConfigured env = true -> neverRejects env ->
  PetState.pendingChanges (petStore w) = true ->
  let w' := exec (PetStore.syncToServer env) w in
  eval (PetStore.syncToServer env) w = Val tt
  /\ gatewayLog w' = (gatewayLog w ++ map petCreate (localPets w))%list
  /\ PetState.pendingChanges (petStore w') = false
  /\ PetState.lastSyncedAt (petStore w') = Some (nowISO env).
Proof.
  intros Hu Hc Hnr Hp. unfold PetStore.syncToServer. run_action.
  rewrite Hp, Hu, Hc. run_action. fold (localPets w).
  match goal with
  | |- context [forEach _ _ ?x] => set (w0 := x)
  end.
  pose proof (pet_loop env (localPets w) Hnr w0) as (Hv & Hlog & _).
  unfold exec, eval in Hv, Hlog.
  destruct (forEach (localPets w) (PetStore.syncOne env) w0) as [r w1].
  cbn in Hv, Hlog. subst r. cbn. rewrite Hlog. repeat split.
Qed.

(** Whatever the gateway does, a pass only replays records that carry
    a local id when it starts. *)
Lemma pet_sync_calls env w :
  exists n,
    gatewayLog (exec (PetStore.syncToServer env) w)
    = (gatewayLog w ++ firstn n (map petCreate (localPets w)))%list.
Proof.
  unfold PetStore.syncToServer. run_action.
  destruct (PetState.pendingChanges (petStore w)); cbn [negb];
    [| exists 0; cbn; now rewrite app_nil_r].
  destruct (negb (user env) || negb (isSupabaseConfigured env));
    [exists 0; cbn; now rewrite app_nil_r |].
  run_action. fold (localPets w).
  match goal with
  | |- context [forEach _ _ ?x] => set (w0 := x)
  end.
  destruct (pet_loop_calls env (localPets w) w0) as [n Hn].
  exists n. unfold exec in Hn.
  destruct (forEach (localPets w) (PetStore.syncOne env) w0) as [[[] | thrown] w1];
    cbn in Hn |- *; exact Hn.
Qed.

(** **** Reminders *)

Lemma reminder_syncOne_failure env reminder w msg :
  outcome env (length (gatewayLog w)) = Resolves (Some msg) ->
  NotificationStore.syncOne env reminder w
  = (Val tt, with_gatewayLog (gatewayLog w ++ [reminderCreate reminder]) w).
Proof.
  intros H. unfold NotificationStore.syncOne. run_action. rewrite H. reflexivity.
Qed.

Lemma reminder_syncOne_frame env reminder w :
  let w' := exec (NotificationStore.syncOne env reminder) w in
  gatewayLog w' = (gatewayLog w ++ [reminderCreate reminder])%list
  /\ NotificationState.pendingChanges (notificationStore w')
     = NotificationState.pendingChanges (notificationStore w)
  /\ NotificationState.lastSyncedAt (notificationStore w')
     = NotificationState.lastSyncedAt (notificationStore w).
Proof.
  unfold NotificationStore.syncOne. run_action.
  destruct (outcome env (length (gatewayLog w))) as [[msg |] | thrown]; cbn;
    [repeat split | | repeat split].
  destruct (reminderRow env (length (gatewayLog w))); cbn; repeat split.
Qed.

Lemma reminder_syncOne_value env reminder w :
  neverRejects env -> eval (NotificationStore.syncOne env reminder) w = Val tt.
Proof.
  intros Hnr. unfold NotificationStore.syncOne. run_action.
  destruct (Hnr (length (gatewayLog w))) as [err ->]. cbn.
  destruct err; [reflexivity |].
  destruct (reminderRow env (length (gatewayLog w))); reflexivity.
Qed.

Lemma reminder_loop env items :
  neverRejects env ->
  forall w,
    let w' := exec (forEach items (NotificationStore.syncOne env)) w in
    eval (forEach items (NotificationStore.syncOne env)) w = Val tt
    /\ gatewayLog w' = (gatewayLog w ++ map reminderCreate items)%list
    /\ NotificationState.pendingChanges (notificationStore w')
       = NotificationState.pendingChanges (notificationStore w)
    /\ NotificationState.lastSyncedAt (notificationStore w')
       = NotificationState.lastSyncedAt (notificationStore w).
Proof.
  intros Hnr. induction items as [| reminder rest IH]; intros w.
  - cbn. rewrite app_nil_r. repeat split.
  - cbn [forEach map]. unfold exec, eval, bind.
    pose proof (reminder_syncOne_value env reminder w Hnr) as Hv.
    pose proof (reminder_syncOne_frame env reminder w) as (Hlog & Hp & Hl).
    unfold exec, eval in Hv, Hlog, Hp, Hl.
    destruct (NotificationStore.syncOne env reminder w) as [r w1].
    cbn in Hv, Hlog, Hp, Hl.
    subst r. specialize (IH w1). unfold exec, eval in IH.
    destruct IH as (IHv & IHlog & IHp & IHl).
    rewrite IHlog, IHp, IHl, Hlog, Hp, Hl, <- app_assoc.
    repeat split. exact IHv.
Qed.

Lemma reminder_loop_calls env items :
  forall w, exists n,
    gatewayLog (exec (forEach items (NotificationStore.syncOne env)) w)
    = (gatewayLog w ++ firstn n (map reminderCreate items))%list.
Proof.
  induction items as [| reminder rest IH]; intros w.
  - exists 0. cbn. now rewrite app_nil_r.
  - cbn [forEach map]. unfold exec, bind.
    pose proof (reminder_syncOne_frame env reminder w) as (Hlog & _).
    unfold exec in Hlog.
    destruct (NotificationStore.syncOne env reminder w) as [[[] | thrown] w1];
      cbn in Hlog |- *.
    + destruct (IH w1) as [n Hn]. unfold exec in Hn. exists (S n).
      rewrite Hn, Hlog, <- app_assoc. reflexivity.
    + exists 1. cbn. exact Hlog.
Qed.

Lemma reminder_sync_noop env w :
  NotificationState.pendingChanges (notificationStore w) = false ->
  NotificationStore.syncToServer env w = (Val tt, w).
Proof.
  intros H. unfold NotificationStore.syncToServer. run_action. rewrite H.
  reflexivity.
Qed.

Lemma reminder_sync_completed env w :
  user env = true -> isSupabaseConfigured env = true -> neverRejects env ->
  NotificationState.pendingChanges (notificationStore w) = true ->
  let w' := exec (NotificationStore.syncToServer env) w in
  eval (NotificationStore.syncToServer env) w = Val tt
  /\ gatewayLog w'
     = (gatewayLog w
          ++ settingsUpsert (NotificationState.settings (notificationStore w))
          :: map reminderCreate (localReminders w))%list
  /\ NotificationState.pendingChanges (notificationStore w') = false
  /\ NotificationState.lastSyncedAt (notificationStore w') = Some (nowISO env).
Proof.
  intros Hu Hc Hnr Hp. unfold NotificationStore.syncToServer. run_action.
  rewrite Hp, Hu, Hc. run_action. fold (localReminders w).
  destruct (Hnr (length (gatewayLog w))) as [err ->]. run_action.
  match goal with
  | |- context [forEach _ _ ?x] => set (w0 := x)
  end.
  pose proof (reminder_loop env (localReminders w) Hnr w0) as (Hv & Hlog & _).
  unfold exec, eval in Hv, Hlog.
  destruct (forEach (localReminders w) (NotificationStore.syncOne env) w0) as [r w1].
  cbn in Hv, Hlog. subst r. cbn. rewrite Hlog. subst w0. cbn.
  rewrite <- app_assoc. repeat split.
Qed.

Lemma reminder_sync_calls env w :
  exists n,
    gatewayLog (exec (NotificationStore.syncToServer env) w)
    = (gatewayLog w
         ++ firstn n
              (settingsUpsert (NotificationState.settings (notificationStore w))
                 :: map reminderCreate (localReminders w)))%list.
Proof.
  unfold NotificationStore.syncToServer. run_action.
  destruct (NotificationState.pendingChanges (notificationStore w)); cbn [negb];
    [| exists 0; cbn; now rewrite app_nil_r].
  destruct (negb (user env) || negb (isSupabaseConfigured env));
    [exists 0; cbn; now rewrite app_nil_r |].
  run_action. fold (localReminders w).
  destruct (outcome env (length (gatewayLog w))) as [err | thrown]; run_action.
  - match goal with
    | |- context [forEach _ _ ?x] => set (w0 := x)
    end.
    destruct (reminder_loop_calls env (localReminders w) w0) as [n Hn].
    exists (S n). unfold exec in Hn.
    destruct (forEach (localReminders w) (NotificationStore.syncOne env) w0)
      as [[[] | thrown] w1];
      cbn in Hn |- *; rewrite Hn; subst w0; cbn; rewrite <- app_assoc;
      reflexivity.
  - exists 1. reflexivity.
Qed.

End Reconciliation.


(** *** Reminder edits and the scheduler *)

Section ReminderEdits.

Import Notifications NotificationService.

Lemma findReminder_id id w r : findReminder id w = Some r -> PetReminder.id r = id.
Proof.
  unfold findReminder, Js.find. intros H. apply find_some in H.
  now apply String.eqb_eq.
Qed.

Lemma merge_id existing updates :
  PartialPetReminder.id updates = None ->
  PetReminder.id (NotificationStore.merge existing updates)
  = PetReminder.id existing.
Proof. intros H. unfold NotificationStore.merge. cbn. now rewrite H. Qed.

Lemma liveDays_enabled reminder :
  PetReminder.enabled reminder = true ->
  liveDays reminder = PetReminder.daysOfWeek reminder.
Proof. unfold liveDays. now intros ->. Qed.

Lemma liveDays_disabled reminder :
  PetReminder.enabled reminder = false -> liveDays reminder = [].
Proof. unfold liveDays. now intros ->. Qed.

Lemma newRequests_triggers env reminder start days :
  map Notifications.trigger (newRequests env reminder start days)
  = map (NotificationService.reminderTrigger env reminder) days.
Proof.
  revert start. induction days as [| d rest IH]; intros start; simpl;
    [reflexivity | now rewrite IH].
Qed.

Ltac scheduled_step Hdays :=
  match goal with
  | |- context [schedulePetReminder ?e ?u ?x] =>
      destruct (schedulePetReminder_run e u x) as [ids ->];
      rewrite (Hdays eq_refl); cbn; repeat split
  end.

(** The table of the scheduler after an update that went through. *)
Lemma updatePetReminder_applied env id updates existing w :
  findReminder id w = Some existing ->
  accepted env id w ->
  let updated := NotificationStore.merge existing updates in
  let w' := exec (NotificationStore.updatePetReminder env id updates) w in
  eval (NotificationStore.updatePetReminder env id updates) w = Val true
  /\ NotificationState.petReminders (notificationStore w')
     = map (fun r => if String.eqb (PetReminder.id r) id then updated else r)
           (NotificationState.petReminders (notificationStore w))
  /\ scheduled w'
     = (if gateOf w
        then if PetReminder.enabled updated
             then afterCancel (PetReminder.id updated) (scheduled w)
                    ++ newRequests env updated (issued w)
                                   (PetReminder.daysOfWeek updated)
             else afterCancel id (scheduled w)
        else scheduled w)%list.
Proof.
  intros Hfind Hacc updated w'. subst w'.
  unfold NotificationStore.updatePetReminder. run_action.
  unfold findReminder in Hfind. rewrite Hfind. fold updated.
  fold (remoteCall env id). unfold gateOf.
  assert (Hdays : PetReminder.enabled updated = true ->
                  liveDays updated = PetReminder.daysOfWeek updated)
    by apply liveDays_enabled.
  destruct (remoteCall env id) eqn:Hremote; run_action;
    [destruct Hacc as [Hacc | Hacc]; [congruence |]; rewrite Hacc; run_action |].
  - destruct (NotificationStore.gate _); run_action; [| cbn; repeat split].
    destruct (PetReminder.enabled updated) eqn:Hen; run_action.
    + scheduled_step Hdays.
    + rewrite cancelPetReminder_run; cbn; repeat split.
  - destruct (NotificationStore.gate _); run_action; [| cbn; repeat split].
    destruct (PetReminder.enabled updated) eqn:Hen; run_action.
    + scheduled_step Hdays.
    + rewrite cancelPetReminder_run; cbn; repeat split.
Qed.

End ReminderEdits.


(** *** The live trigger set *)

Section LiveSet.

Import Notifications NotificationService.

Lemma identifier_injective (table : list NotificationRequest) a b :
  NoDup (map identifier table) -> In a table -> In b table ->
  identifier a = identifier b -> a = b.
Proof.
  induction table as [| x rest IH]; intros Hnd Ha Hb Heq; [easy |].
  cbn in Hnd. apply NoDup_cons_iff in Hnd as [Hx Hnd].
  destruct Ha as [-> | Ha], Hb as [-> | Hb].
  - reflexivity.
  - exfalso. apply Hx. rewrite Heq. now apply in_map.
  - exfalso. apply Hx. rewrite <- Heq. now apply in_map.
  - now apply IH.
Qed.

(** With distinct identifiers, cancelling a reminder removes its
    requests and no other. *)
Lemma afterCancel_filter reminderId table :
  NoDup (map identifier table) ->
  afterCancel reminderId table
  = filter (fun n => negb (isFor reminderId n)) table.
Proof.
  intros Hnd. unfold afterCancel, cancelledBy. apply filter_ext_in.
  intros n Hn. f_equal.
  destruct (isFor reminderId n) eqn:Hfor.
  - apply existsb_exists. exists n. split; [| apply Nat.eqb_refl].
    apply filter_In. now split.
  - destruct (existsb _ _) eqn:Hex; [| reflexivity].
    apply existsb_exists in Hex as (m & Hm & Heq).
    apply filter_In in Hm as [Hm Hmfor]. apply Nat.eqb_eq in Heq.
    rewrite (identifier_injective table n m Hnd Hn Hm Heq) in Hfor. congruence.
Qed.

Lemma isFor_unique x y n : isFor x n = true -> isFor y n = true -> x = y.
Proof.
  unfold isFor. destruct (Notifications.reminderId (content n)); [| discriminate].
  intros Hx Hy. apply String.eqb_eq in Hx, Hy. congruence.
Qed.

Lemma newRequests_identifiers env reminder start days :
  map identifier (newRequests env reminder start days) = seq start (length days).
Proof.
  revert start. induction days as [| d rest IH]; intros start; simpl;
    [reflexivity | now rewrite IH].
Qed.

Lemma newRequests_other env reminder start days x :
  x <> PetReminder.id reminder ->
  filter (isFor x) (newRequests env reminder start days) = [].
Proof.
  intros Hx. apply filter_none. intros n Hn.
  destruct (isFor x n) eqn:Hfor; [| reflexivity].
  exfalso. apply Hx. apply (isFor_unique _ _ n Hfor).
  pose proof (newRequests_isFor env reminder start days) as Hall.
  rewrite <- Hall in Hn. now apply filter_In in Hn.
Qed.

(** Dropping requests from a table keeps its identifiers distinct. *)
Lemma identifiers_after_filter (keep : NotificationRequest -> bool)
      (table : list NotificationRequest) :
  NoDup (map identifier table) -> NoDup (map identifier (filter keep table)).
Proof.
  induction table as [| n rest IH]; cbn; intros Hnd; [constructor |].
  apply NoDup_cons_iff in Hnd as [Hfresh Hrest].
  destruct (keep n); cbn; [constructor |]; auto.
  intros Hin. apply Hfresh.
  apply in_map_iff in Hin as (m & Hid & Hm). rewrite <- Hid.
  apply in_map. now apply filter_In in Hm.
Qed.

(** Scheduling a reminder keeps the identifiers distinct. *)
Lemma afterSchedule_ok env reminder w :
  schedulerOk w -> schedulerOk (afterSchedule env reminder w).
Proof.
  intros [Hnd Hlt]. unfold schedulerOk, afterSchedule. cbn.
  rewrite (afterCancel_filter _ _ Hnd).
  rewrite Forall_forall in Hlt. split.
  - rewrite map_app, newRequests_identifiers. apply NoDup_app.
    + now apply identifiers_after_filter.
    + apply seq_NoDup.
    + intros k Hk Hseq. apply in_seq in Hseq.
      apply in_map_iff in Hk as (n & <- & Hn). apply filter_In in Hn as [Hn _].
      specialize (Hlt n Hn). lia.
  - apply Forall_forall. intros n Hn. apply in_app_or in Hn as [Hn | Hn].
    + apply filter_In in Hn as [Hn _]. specialize (Hlt n Hn). lia.
    + assert (Hid : In (identifier n)
                       (seq (issued w) (length (liveDays reminder)))).
      { rewrite <- (newRequests_identifiers env reminder). now apply in_map. }
      apply in_seq in Hid. lia.
Qed.

(** The requests of the reminder after it has been scheduled, and the
    requests of the others. *)
Lemma afterSchedule_own env reminder w :
  filter (isFor (PetReminder.id reminder)) (scheduled (afterSchedule env reminder w))
  = newRequests env reminder (issued w) (liveDays reminder).
Proof.
  unfold afterSchedule. cbn.
  rewrite filter_app, afterCancel_none. apply newRequests_isFor.
Qed.

Lemma afterSchedule_other env reminder w x :
  schedulerOk w -> x <> PetReminder.id reminder ->
  filter (isFor x) (scheduled (afterSchedule env reminder w))
  = filter (isFor x) (scheduled w).
Proof.
  intros [Hnd _] Hx. unfold afterSchedule. cbn.
  rewrite filter_app, (newRequests_other _ _ _ _ _ Hx), app_nil_r.
  rewrite (afterCancel_filter _ _ Hnd), filter_twice.
  apply filter_ext. intros n.
  destruct (isFor x n) eqn:Hfor; [| apply andb_false_r].
  rewrite andb_true_r. apply negb_true_iff.
  destruct (isFor (PetReminder.id reminder) n) eqn:Hown; [| reflexivity].
  exfalso. apply Hx. exact (isFor_unique _ _ n Hfor Hown).
Qed.

Lemma scheduleStep_ok env w reminder :
  schedulerOk w -> schedulerOk (scheduleStep env w reminder).
Proof.
  intros H. unfold scheduleStep.
  destruct (PetReminder.enabled reminder); [now apply afterSchedule_ok | exact H].
Qed.

Lemma scheduleStep_other env w reminder x :
  schedulerOk w -> x <> PetReminder.id reminder ->
  filter (isFor x) (scheduled (scheduleStep env w reminder))
  = filter (isFor x) (scheduled w).
Proof.
  intros H Hx. unfold scheduleStep.
  destruct (PetReminder.enabled reminder);
    [now apply afterSchedule_other | reflexivity].
Qed.

Lemma scheduleSteps_ok env reminders :
  forall w, schedulerOk w -> schedulerOk (fold_left (scheduleStep env) reminders w).
Proof.
  induction reminders as [| r rest IH]; intros w H; [exact H |].
  cbn. apply IH. now apply scheduleStep_ok.
Qed.

Lemma scheduleSteps_other env reminders x :
  ~ In x (map PetReminder.id reminders) ->
  forall w, schedulerOk w ->
    filter (isFor x) (scheduled (fold_left (scheduleStep env) reminders w))
    = filter (isFor x) (scheduled w).
Proof.
  induction reminders as [| r rest IH]; intros Hx w H; [reflexivity |].
  cbn in Hx |- *. rewrite IH.
  - apply scheduleStep_other; [exact H |]. intros ->. apply Hx. now left.
  - intros Hin. apply Hx. now right.
  - now apply scheduleStep_ok.
Qed.

(** The loop of [scheduleAllReminders] is the iteration of its step. *)
Lemma scheduleAll_loop env reminders :
  forall w,
    forEach reminders (fun reminder =>
      if PetReminder.enabled reminder
      then schedulePetReminder env reminder ;; ret tt
      else ret tt) w
    = (Val tt, fold_left (scheduleStep env) reminders w).
Proof.
  induction reminders as [| r rest IH]; intros w; [reflexivity |].
  cbn [forEach fold_left]. unfold bind at 1. unfold scheduleStep at 2.
  destruct (PetReminder.enabled r).
  - unfold bind at 1. destruct (schedulePetReminder_run env r w) as [ids ->].
    unfold ret at 1. apply IH.
  - unfold ret at 1. apply IH.
Qed.

Lemma scheduleAllReminders_run env w :
  gateOf w = true ->
  NotificationStore.scheduleAllReminders env w
  = (Val tt,
     fold_left (scheduleStep env)
               (NotificationState.petReminders (notificationStore w)) w).
Proof.
  intros Hgate. unfold gateOf, NotificationStore.gate in Hgate.
  apply andb_true_iff in Hgate as [Hpush Hrem].
  change (NotificationStore.scheduleAllReminders env w)
    with ((if negb (NotificationSettings.pushEnabled
                      (NotificationState.settings (notificationStore w)))
              || negb (NotificationSettings.reminders
                         (NotificationState.settings (notificationStore w)))
           then ret tt
           else forEach (NotificationState.petReminders (notificationStore w))
                  (fun reminder =>
                     if PetReminder.enabled reminder
                     then schedulePetReminder env reminder ;; ret tt
                     else ret tt)) w).
  rewrite Hpush, Hrem. cbn [negb orb]. apply scheduleAll_loop.
Qed.

(** After the loop every enabled reminder has exactly its triggers,
    provided the reminders have different ids. *)
Lemma scheduleSteps_live env reminders :
  NoDup (map PetReminder.id reminders) ->
  forall w, schedulerOk w ->
  forall r, In r reminders -> PetReminder.enabled r = true ->
    map trigger
        (filter (isFor (PetReminder.id r))
                (scheduled (fold_left (scheduleStep env) reminders w)))
    = map (reminderTrigger env r) (PetReminder.daysOfWeek r).
Proof.
  induction reminders as [| a rest IH]; intros Hnd w Hok r Hin Hen; [easy |].
  cbn in Hnd. apply NoDup_cons_iff in Hnd as [Ha Hnd]. cbn [fold_left].
  destruct Hin as [-> | Hin].
  - rewrite (scheduleSteps_other env rest _ Ha);
      [| now apply scheduleStep_ok].
    unfold scheduleStep. rewrite Hen, afterSchedule_own.
    rewrite (liveDays_enabled _ Hen). apply newRequests_triggers.
  - apply IH; try assumption. now apply scheduleStep_ok.
Qed.

End LiveSet.

(** *** A pass of the pets item by item *)

Section PetPass.

(** One item of the loop, by the answer of the gateway. *)
Lemma pet_syncOne_cases env pet w :
  let k := length (gatewayLog w) in
  let w1 := with_gatewayLog (gatewayLog w ++ [petCreate pet]) w in
  PetStore.syncOne env pet w
  = match outcome env k with
    | Rejects e => (Exn e, w1)
    | Resolves (Some _) => (Val tt, w1)
    | Resolves None =>
        match petRow env k with
        | None => (Val tt, w1)
        | Some d =>
            (Val tt,
             with_petStore
               (PetStateSet.with_pets
                  (replaceById Pet.id (Pet.id pet) (fun _ => PetStore.recordToPet d)
                               (PetState.pets (petStore w)))
                  (petStore w))
               w1)
        end
    end.
Proof.
  unfold PetStore.syncOne. run_action.
  destruct (outcome env (length (gatewayLog w))) as [[msg |] | thrown]; cbn;
    try reflexivity.
  destruct (petRow env (length (gatewayLog w))); reflexivity.
Qed.

(** A pet stays in the collection as it is when every replay of a
    record under its id comes back with an error. *)
Lemma pet_loop_keeps_failed env pet items :
  neverRejects env ->
  forall w,
    In pet (PetState.pets (petStore w)) ->
    (forall j item, nth_error items j = Some item -> Pet.id item = Pet.id pet ->
       exists msg, outcome env (length (gatewayLog w) + j) = Resolves (Some msg)) ->
    In pet (PetState.pets (petStore (exec (forEach items (PetStore.syncOne env)) w))).
Proof.
  intros Hnr. induction items as [| a rest IH]; intros w Hin Hfail; [exact Hin |].
  cbn [forEach]. unfold exec, bind. rewrite pet_syncOne_cases.
  assert (Hshift : forall u,
    gatewayLog u = (gatewayLog w ++ [petCreate a])%list ->
    forall j item, nth_error rest j = Some item -> Pet.id item = Pet.id pet ->
      exists msg, outcome env (length (gatewayLog u) + j) = Resolves (Some msg)).
  { intros u Hu j item Hj Hid. rewrite Hu, length_app. cbn [length].
    replace (length (gatewayLog w) + 1 + j) with (length (gatewayLog w) + S j) by lia.
    now apply (Hfail (S j) item). }
  destruct (outcome env (length (gatewayLog w))) as [[msg |] | thrown] eqn:Hout.
  - apply (IH (with_gatewayLog (gatewayLog w ++ [petCreate a]) w)).
    + destruct w; exact Hin.
    + apply Hshift. destruct w; reflexivity.
  - destruct (petRow env (length (gatewayLog w))) as [d |].
    + match goal with
      | |- context [forEach rest _ ?x] => set (w1 := x)
      end.
      apply (IH w1).
      * assert (Hne : Pet.id a <> Pet.id pet).
        { intros Heq. destruct (Hfail 0 a eq_refl Heq) as [msg Hmsg].
          rewrite Nat.add_0_r in Hmsg. congruence. }
        subst w1. destruct w; cbn. unfold replaceById. apply in_map_iff.
        exists pet. split; [| exact Hin].
        destruct (String.eqb_spec (Pet.id pet) (Pet.id a)); [congruence | reflexivity].
      * apply Hshift. subst w1. destruct w; reflexivity.
    + apply (IH (with_gatewayLog (gatewayLog w ++ [petCreate a]) w)).
      * destruct w; exact Hin.
      * apply Hshift. destruct w; reflexivity.
  - destruct (Hnr (length (gatewayLog w))) as [err Herr]. congruence.
Qed.

(** The loop when the call of the item at position [i] is the first
    one that throws. *)
Lemma pet_loop_rejected env thrown items :
  forall i w,
    i < length items ->
    (forall k, k < i ->
       exists err, outcome env (length (gatewayLog w) + k) = Resolves err) ->
    outcome env (length (gatewayLog w) + i) = Rejects thrown ->
    let w' := exec (forEach items (PetStore.syncOne env)) w in
    eval (forEach items (PetStore.syncOne env)) w = Exn thrown
    /\ gatewayLog w' = (gatewayLog w ++ firstn (S i) (map petCreate items))%list
    /\ PetState.pendingChanges (petStore w') = PetState.pendingChanges (petStore w)
    /\ PetState.lastSyncedAt (petStore w') = PetState.lastSyncedAt (petStore w).
Proof.
  induction items as [| a rest IH]; intros i w Hi Hbefore Hrej; [cbn in Hi; lia |].
  cbn [forEach]. unfold exec, eval, bind.
  pose proof (pet_syncOne_frame env a w) as (Hlog & Hp & Hl & _).
  unfold exec in Hlog, Hp, Hl.
  pose proof (pet_syncOne_cases env a w) as Hcases. cbv zeta in Hcases.
  destruct i as [| i].
  - rewrite Nat.add_0_r in Hrej. rewrite Hrej in Hcases.
    rewrite Hcases in Hlog, Hp, Hl |- *. cbn [fst snd] in *.
    repeat split; assumption.
  - destruct (Hbefore 0 ltac:(lia)) as [err Herr]. rewrite Nat.add_0_r in Herr.
    assert (Hval : fst (PetStore.syncOne env a w) = Val tt).
    { rewrite Hcases, Herr. destruct err; [reflexivity |].
      destruct (petRow env (length (gatewayLog w))); reflexivity. }
    destruct (PetStore.syncOne env a w) as [r w1]. cbn [fst snd] in *. subst r.
    assert (Hlen : forall k, length (gatewayLog w1) + k = length (gatewayLog w) + S k).
    { intros k. rewrite Hlog, length_app. cbn [length]. lia. }
    destruct (IH i w1) as (Hv & Hlog' & Hp' & Hl').
    + cbn in Hi. lia.
    + intros k Hk. rewrite Hlen. apply Hbefore. lia.
    + rewrite Hlen. exact Hrej.
    + unfold exec, eval in Hv, Hlog', Hp', Hl'.
      split; [exact Hv |]. rewrite Hlog', Hp', Hl', Hlog, Hp, Hl.
      rewrite <- app_assoc. repeat split.
Qed.

End PetPass.

(* ===================================================================== *)
(** * The claims of the specification *)
(* ===================================================================== *)

(** ** Weekday-set summarization (C9) *)

(** The order of the days, in support of C9.  The claim says that a set
    that is none of the
    three named ones is rendered Sunday-first whatever the order of the
    input list, so that [formatDays [4;2]] is ["Tue, Thu"].  The code
    renders the list as it comes: [formatDays [4;2]] is ["Thu, Tue"],
    which differs from [formatDays [2;4]]. *)
Lemma formatDays_keeps_input_order :
  weekdaySet [4; 2]%Z
  /\ RemindersScreen.formatDays [4; 2]%Z = "Thu, Tue"
  /\ abbreviations (canonicalOrder [4; 2]%Z) = "Tue, Thu"
  /\ RemindersScreen.formatDays [2; 4]%Z = "Tue, Thu"
  /\ RemindersScreen.formatDays [4; 2]%Z <> RemindersScreen.formatDays [2; 4]%Z.
Proof.
  split; [split; [repeat constructor; simpl; lia | simpl; intros d Hd; lia] |].
  repeat split. vm_compute. discriminate.
Qed.

(** What holds of the claim C9 for [formatDays].  On a duplicate-free
    list of days between 0 and 6:
    the seven days give "Every day"; exactly Monday to Friday gives
    "Weekdays"; exactly Sunday and Saturday gives "Weekends"; any other
    set gives the abbreviations of its days joined by [", "] in the order
    of the input list, which is the canonical Sunday-first order when
    the list is ascending (as in [formatDays [2;4] = "Tue, Thu"]). *)
Theorem formatDays_summary (days : list Z) :
  weekdaySet days ->
  (allWeek days -> RemindersScreen.formatDays days = "Every day")
  /\ (mondayToFriday days -> RemindersScreen.formatDays days = "Weekdays")
  /\ (sundayAndSaturday days -> RemindersScreen.formatDays days = "Weekends")
  /\ (~ allWeek days -> ~ mondayToFriday days -> ~ sundayAndSaturday days ->
      RemindersScreen.formatDays days = abbreviations days)
  /\ (ascending days -> abbreviations days = abbreviations (canonicalOrder days)).
Proof.
  intros Hset.
  assert (Hcanon : ascending days ->
                   abbreviations days = abbreviations (canonicalOrder days)).
  { intros Hasc. rewrite ascending_canonicalOrder; [reflexivity | apply Hset | exact Hasc]. }
  assert (Hex1 : allWeek days -> mondayToFriday days -> False).
  { intros Ha Hm. assert (H0 : In 0%Z days) by (apply Ha; lia).
    apply Hm in H0. lia. }
  assert (Hex2 : allWeek days -> sundayAndSaturday days -> False).
  { intros Ha Hs. assert (H1 : In 1%Z days) by (apply Ha; lia).
    apply Hs in H1. lia. }
  assert (Hex3 : mondayToFriday days -> sundayAndSaturday days -> False).
  { intros Hm Hs. assert (H1 : In 1%Z days) by (apply Hm; lia).
    apply Hs in H1. lia. }
  destruct (formatDays_cases days Hset)
    as [(Ha & ->) | [(Hna & Hm & ->) | [(Hna & Hnm & Hs & ->) | (Hna & Hnm & Hns & ->)]]];
    repeat split; intros; solve [reflexivity | tauto | auto].
Qed.

Lemma formatDays_summary_witness :
  weekdaySet [2; 4]%Z
  /\ (~ allWeek [2; 4]%Z -> ~ mondayToFriday [2; 4]%Z ->
      ~ sundayAndSaturday [2; 4]%Z ->
      RemindersScreen.formatDays [2; 4]%Z = abbreviations [2; 4]%Z)
  /\ abbreviations [2; 4]%Z = "Tue, Thu".
Proof.
  assert (Hset : weekdaySet [2; 4]%Z).
  { split; [repeat constructor; simpl; lia | simpl; intros d Hd; lia]. }
  split; [exact Hset |].
  split; [apply (formatDays_summary [2; 4]%Z Hset) | reflexivity].
Defined.

(** [getDayLabels] is [formatDays] on days numbered from 1. *)
Lemma getDayLabels_shift (days : list Z) :
  NotificationsScreen.getDayLabels days
  = RemindersScreen.formatDays (map (fun d => d - 1)%Z days).
Proof.
  unfold NotificationsScreen.getDayLabels, RemindersScreen.formatDays.
  rewrite length_map, map_map.
  assert (Hinc : forall k, Js.includes (map (fun d => d - 1)%Z days) k
                           = Js.includes days (k + 1)%Z).
  { intros k. unfold Js.includes. induction days as [| d rest IH]; simpl;
      [reflexivity |]. rewrite IH. f_equal.
    destruct (Z.eqb_spec k (d - 1)), (Z.eqb_spec (k + 1) d); lia || reflexivity. }
  rewrite !Hinc. reflexivity.
Qed.

(** C9.  The claim is made of the two summaries of the app, [formatDays]
    of the reminders screen and [getDayLabels] of the notification
    settings screen, which render the [daysOfWeek] of the same stored
    reminders; the form that creates them numbers the days from 0
    (Sunday) to 6 (Saturday), as the examples of the claim do.
    [formatDays] gives the three names on these lists: on every
    duplicate-free list of days 0..6, the seven days give "Every day",
    exactly Monday to Friday gives "Weekdays" and exactly Sunday and
    Saturday gives "Weekends".  [getDayLabels] reads every day as the
    day before: it is [formatDays] on the days minus one.  So on Monday
    to Friday it answers "Sun, Mon, Tue, Wed, Thu" and not "Weekdays",
    on Sunday and Saturday ", Fri" and not "Weekends", on Tuesday to
    Saturday "Weekdays", and on Tuesday and Thursday "Mon, Wed".
    Neither of them puts the days in order: [4;2] is rendered Thursday
    first. *)
Theorem getDayLabels_reads_days_from_one :
  (forall days,
     NotificationsScreen.getDayLabels days
     = RemindersScreen.formatDays (map (fun d => d - 1)%Z days))
  /\ (forall days, weekdaySet days ->
        (allWeek days -> RemindersScreen.formatDays days = "Every day")
        /\ (mondayToFriday days -> RemindersScreen.formatDays days = "Weekdays")
        /\ (sundayAndSaturday days -> RemindersScreen.formatDays days = "Weekends"))
  /\ (RemindersScreen.formatDays [1; 2; 3; 4; 5]%Z = "Weekdays"
      /\ NotificationsScreen.getDayLabels [1; 2; 3; 4; 5]%Z
         = "Sun, Mon, Tue, Wed, Thu")
  /\ (RemindersScreen.formatDays [0; 6]%Z = "Weekends"
      /\ NotificationsScreen.getDayLabels [0; 6]%Z = ", Fri")
  /\ (RemindersScreen.formatDays [2; 3; 4; 5; 6]%Z = "Tue, Wed, Thu, Fri, Sat"
      /\ NotificationsScreen.getDayLabels [2; 3; 4; 5; 6]%Z = "Weekdays")
  /\ (RemindersScreen.formatDays [2; 4]%Z = "Tue, Thu"
      /\ NotificationsScreen.getDayLabels [2; 4]%Z = "Mon, Wed")
  /\ (RemindersScreen.formatDays [4; 2]%Z = "Thu, Tue"
      /\ NotificationsScreen.getDayLabels [4; 2]%Z = "Wed, Mon").
Proof.
  split; [exact getDayLabels_shift |].
  split; [| vm_compute; repeat split].
  intros days Hset.
  destruct (formatDays_summary days Hset) as (Hall & Hwork & Hend & _).
  repeat split; assumption.
Qed.


(** ** Local ids (C10) *)

Lemma newLocalPet_injective d1 d2 id created updated :
  PetStore.newLocalPet d1 id created updated
  = PetStore.newLocalPet d2 id created updated -> d1 = d2.
Proof.
  destruct d1, d2. unfold PetStore.newLocalPet. cbn. intros H.
  injection H as -> -> -> -> -> -> -> -> -> ->. reflexivity.
Qed.

Lemma newLocalReminder_injective d1 d2 id :
  NotificationStore.newLocalReminder d1 id
  = NotificationStore.newLocalReminder d2 id -> d1 = d2.
Proof.
  destruct d1, d2. unfold NotificationStore.newLocalReminder. cbn. intros H.
  injection H as -> -> -> -> -> -> -> ->. reflexivity.
Qed.

(** C10.  A create made offline returns the id ["local_"] followed by
    the decimal reading of [Date.now()].  Two creates of different
    records made offline at the same clock reading therefore return the
    same id, and the store then holds two different records under that
    id; this holds for pets and for reminders. *)
Theorem offline_creates_share_the_id
        (env : Env) (w : World) (pet1 pet2 : NewPet.t)
        (reminder1 reminder2 : NewPetReminder.t) :
  offline env -> pet1 <> pet2 -> reminder1 <> reminder2 ->
  let id := "local_" ++ Js.numberToString (now env) in
  (let w1 := exec (PetStore.addPet env pet1) w in
   let w2 := exec (PetStore.addPet env pet2) w1 in
   eval (PetStore.addPet env pet1) w = Val (Some id)
   /\ eval (PetStore.addPet env pet2) w1 = Val (Some id)
   /\ exists p1 p2,
       PetState.pets (petStore w2) = p2 :: p1 :: PetState.pets (petStore w)
       /\ p1 <> p2 /\ Pet.id p1 = id /\ Pet.id p2 = id)
  /\
  (let w1 := exec (NotificationStore.addPetReminder env reminder1) w in
   let w2 := exec (NotificationStore.addPetReminder env reminder2) w1 in
   eval (NotificationStore.addPetReminder env reminder1) w = Val (Some id)
   /\ eval (NotificationStore.addPetReminder env reminder2) w1 = Val (Some id)
   /\ exists r1 r2,
       NotificationState.petReminders (notificationStore w2)
       = (NotificationState.petReminders (notificationStore w) ++ [r1; r2])%list
       /\ r1 <> r2 /\ PetReminder.id r1 = id /\ PetReminder.id r2 = id).
Proof.
  intros Hoff Hpets Hrems id. fold (localId env) in id. subst id. split.
  - cbv zeta. unfold exec, eval. rewrite !(addPet_offline env _ _ Hoff).
    cbn [fst snd]. repeat split.
    exists (PetStore.newLocalPet pet1 (localId env) (nowISO env) (nowISO env)),
           (PetStore.newLocalPet pet2 (localId env) (nowISO env) (nowISO env)).
    repeat split.
    intros Heq. apply Hpets. symmetry. symmetry in Heq.
    now apply newLocalPet_injective in Heq.
  - cbv zeta. unfold exec, eval.
    destruct (addPetReminder_offline env reminder1 w Hoff) as (w1 & -> & Hr1 & _).
    cbn [fst snd].
    destruct (addPetReminder_offline env reminder2 w1 Hoff) as (w2 & -> & Hr2 & _).
    cbn [fst snd]. repeat split.
    exists (NotificationStore.newLocalReminder reminder1 (localId env)),
           (NotificationStore.newLocalReminder reminder2 (localId env)).
    rewrite Hr2, Hr1, <- app_assoc. repeat split.
    intros Heq. apply Hrems. now apply newLocalReminder_injective in Heq.
Qed.

Lemma offline_creates_share_the_id_witness :
  offline Sample.envOffline
  /\ Sample.rex <> Sample.tom
  /\ Sample.morningWalk <> Sample.dinner
  /\ eval (PetStore.addPet Sample.envOffline Sample.rex) initialWorld
     = Val (Some "local_1700000000000")
  /\ eval (PetStore.addPet Sample.envOffline Sample.tom)
          (exec (PetStore.addPet Sample.envOffline Sample.rex) initialWorld)
     = Val (Some "local_1700000000000").
Proof.
  assert (H1 : offline Sample.envOffline) by reflexivity.
  assert (H2 : Sample.rex <> Sample.tom) by discriminate.
  assert (H3 : Sample.morningWalk <> Sample.dinner) by discriminate.
  repeat (split; [assumption |]).
  pose proof (offline_creates_share_the_id Sample.envOffline initialWorld
                Sample.rex Sample.tom Sample.morningWalk Sample.dinner H1 H2 H3)
    as [(Ha & Hb & _) _].
  split; [exact Ha | exact Hb].
Defined.


(** ** A create that the gateway refuses (C3) *)

(** C3, counterexample.  A signed-in user adds a pet and the gateway
    answers with a network error.  The claim says that the pet is stored
    under a local id with the pending flag set and that the caller gets
    an id; the code returns [null], stores nothing, leaves the pending
    flag off and records the message "Failed to save pet".  The same
    happens to a reminder. *)
Lemma create_failure_counterexample :
  let w := exec (PetStore.addPet Sample.envFailing Sample.rex) initialWorld in
  eval (PetStore.addPet Sample.envFailing Sample.rex) initialWorld = Val None
  /\ PetState.pets (petStore w) = []
  /\ PetState.pendingChanges (petStore w) = false
  /\ PetState.error (petStore w) = Some "Failed to save pet"
  /\ eval (NotificationStore.addPetReminder Sample.envFailing Sample.morningWalk)
          initialWorld = Val None
  /\ NotificationState.petReminders
       (notificationStore
          (exec (NotificationStore.addPetReminder Sample.envFailing Sample.morningWalk)
                initialWorld)) = [].
Proof. vm_compute. repeat split. Qed.

(** C3, amended.  When the write to the gateway fails (the result
    carries an error, or the call throws), [addPet] and [addPetReminder]
    return [null], store no record and leave the pending flag as it was:
    the failure is surfaced to the caller ([addPet] also records an error
    message).  A record is stored under a fresh local id with the pending
    flag set when no write is attempted, that is when nobody is signed in
    or Supabase is not configured. *)
Theorem create_failure_is_surfaced
        (env : Env) (w : World) (pet : NewPet.t) (reminder : NewPetReminder.t) :
  user env && isSupabaseConfigured env = true ->
  nextCallFails env w ->
  (let w' := exec (PetStore.addPet env pet) w in
   eval (PetStore.addPet env pet) w = Val None
   /\ PetState.pets (petStore w') = PetState.pets (petStore w)
   /\ PetState.pendingChanges (petStore w') = PetState.pendingChanges (petStore w)
   /\ PetState.error (petStore w') <> None)
  /\
  (let w' := exec (NotificationStore.addPetReminder env reminder) w in
   eval (NotificationStore.addPetReminder env reminder) w = Val None
   /\ notificationStore w' = notificationStore w
   /\ scheduled w' = scheduled w)
  /\
  (forall env', offline env' ->
     let w' := exec (PetStore.addPet env' pet) w in
     let w'' := exec (NotificationStore.addPetReminder env' reminder) w in
     eval (PetStore.addPet env' pet) w = Val (Some (localId env'))
     /\ PetState.pets (petStore w')
        = PetStore.newLocalPet pet (localId env') (nowISO env') (nowISO env')
            :: PetState.pets (petStore w)
     /\ PetState.pendingChanges (petStore w') = true
     /\ eval (NotificationStore.addPetReminder env' reminder) w
        = Val (Some (localId env'))
     /\ NotificationState.petReminders (notificationStore w'')
        = (NotificationState.petReminders (notificationStore w)
             ++ [NotificationStore.newLocalReminder reminder (localId env')])%list
     /\ NotificationState.pendingChanges (notificationStore w'') = true).
Proof.
  intros Hon Hfail. split; [| split].
  - now apply addPet_gateway_failure.
  - now apply addPetReminder_gateway_failure.
  - intros env' Hoff. cbv zeta. unfold exec, eval.
    rewrite (addPet_offline env' pet w Hoff).
    destruct (addPetReminder_offline env' reminder w Hoff) as (w'' & -> & Hr & Hp).
    cbn [fst snd]. repeat split; assumption.
Qed.

Lemma create_failure_is_surfaced_witness :
  user Sample.envFailing && isSupabaseConfigured Sample.envFailing = true
  /\ nextCallFails Sample.envFailing initialWorld
  /\ eval (PetStore.addPet Sample.envFailing Sample.rex) initialWorld = Val None.
Proof.
  assert (H1 : user Sample.envFailing && isSupabaseConfigured Sample.envFailing = true)
    by reflexivity.
  assert (H2 : nextCallFails Sample.envFailing initialWorld) by exact I.
  repeat (split; [assumption |]).
  apply (create_failure_is_surfaced Sample.envFailing initialWorld
           Sample.rex Sample.morningWalk H1 H2).
Defined.

(** ** An update or a removal that the gateway refuses (C5) *)

(** C5, counterexample.  A signed-in user renames a pet that has a
    server id, then removes it, and the gateway answers each call with
    an error.  The claim says that the local mutation still applies and
    that the pending flag is set; the code returns [false] and leaves
    the pet and the flag as they were. *)
Lemma update_failure_counterexample :
  eval (PetStore.updatePet Sample.envFailing "7d1c" renamed) worldWithRex = Val false
  /\ PetState.pets
       (petStore (exec (PetStore.updatePet Sample.envFailing "7d1c" renamed) worldWithRex))
     = [Sample.rexPet]
  /\ PetState.pendingChanges
       (petStore (exec (PetStore.updatePet Sample.envFailing "7d1c" renamed) worldWithRex))
     = false
  /\ eval (PetStore.deletePet Sample.envFailing "7d1c") worldWithRex = Val false
  /\ PetState.pets
       (petStore (exec (PetStore.deletePet Sample.envFailing "7d1c") worldWithRex))
     = [Sample.rexPet].
Proof. vm_compute. repeat split. Qed.

(** C5, amended.  For an update or a removal of a record with a server
    id by a signed-in user, if the call to the gateway fails (error in
    the result, or thrown), the action returns [false], the in-memory
    collection and the pending flag are left as they were, and the store
    records an error message; this holds for pets and for appointments.
    The local mutation is applied when the gateway accepts the call or is
    not called. *)
Theorem update_failure_leaves_store
        (env : Env) (w : World) (id : string)
        (petData : PartialPet.t) (aptData : PartialAppointment.t) :
  remoteCall env id = true ->
  nextCallFails env w ->
  (let w' := exec (PetStore.updatePet env id petData) w in
   eval (PetStore.updatePet env id petData) w = Val false
   /\ PetState.pets (petStore w') = PetState.pets (petStore w)
   /\ PetState.pendingChanges (petStore w') = PetState.pendingChanges (petStore w)
   /\ PetState.error (petStore w') <> None)
  /\
  (let w' := exec (PetStore.deletePet env id) w in
   eval (PetStore.deletePet env id) w = Val false
   /\ PetState.pets (petStore w') = PetState.pets (petStore w)
   /\ PetState.pendingChanges (petStore w') = PetState.pendingChanges (petStore w)
   /\ PetState.error (petStore w') <> None)
  /\
  (let w' := exec (AppointmentStore.updateAppointment env id aptData) w in
   eval (AppointmentStore.updateAppointment env id aptData) w = Val false
   /\ AppointmentState.appointments (appointmentStore w')
      = AppointmentState.appointments (appointmentStore w)
   /\ AppointmentState.pendingChanges (appointmentStore w')
      = AppointmentState.pendingChanges (appointmentStore w)
   /\ AppointmentState.error (appointmentStore w') <> None)
  /\
  (let w' := exec (AppointmentStore.deleteAppointment env id) w in
   eval (AppointmentStore.deleteAppointment env id) w = Val false
   /\ AppointmentState.appointments (appointmentStore w')
      = AppointmentState.appointments (appointmentStore w)
   /\ AppointmentState.pendingChanges (appointmentStore w')
      = AppointmentState.pendingChanges (appointmentStore w)
   /\ AppointmentState.error (appointmentStore w') <> None)
  /\
  (forall env',
     remoteCall env' id = false
     \/ outcome env' (length (gatewayLog w)) = Resolves None ->
     let w' := exec (PetStore.updatePet env' id petData) w in
     eval (PetStore.updatePet env' id petData) w = Val true
     /\ PetState.pets (petStore w')
        = map (fun pet => if String.eqb (Pet.id pet) id
                          then PetStore.merge pet petData (nowISO env') else pet)
              (PetState.pets (petStore w))).
Proof.
  intros Hremote Hfail. split; [| split; [| split; [| split]]].
  - now apply updatePet_gateway_failure.
  - now apply deletePet_gateway_failure.
  - now apply updateAppointment_gateway_failure.
  - now apply deleteAppointment_gateway_failure.
  - intros env' Hacc.
    destruct (updatePet_applied env' id petData w Hacc) as (Hv & Hp & _).
    split; assumption.
Qed.

Lemma update_failure_leaves_store_witness :
  remoteCall Sample.envFailing "7d1c" = true
  /\ nextCallFails Sample.envFailing worldWithRex
  /\ eval (PetStore.updatePet Sample.envFailing "7d1c" renamed) worldWithRex
     = Val false.
Proof.
  assert (H1 : remoteCall Sample.envFailing "7d1c" = true) by reflexivity.
  assert (H2 : nextCallFails Sample.envFailing worldWithRex) by exact I.
  repeat (split; [assumption |]).
  apply (update_failure_leaves_store Sample.envFailing worldWithRex "7d1c"
           renamed PartialAppointment.empty H1 H2).
Defined.


(** ** Unknown ids (C8) *)

(** What [updatePetReminder] does on an id that is not in the store is
    what the specification asks for: it returns [false] and nothing at
    all changes, whoever is signed in. *)
Lemma updatePetReminder_unknown_id (env : Env) (w : World) (id : string)
      (updates : PartialPetReminder.t) :
  findReminder id w = None ->
  eval (NotificationStore.updatePetReminder env id updates) w = Val false
  /\ exec (NotificationStore.updatePetReminder env id updates) w = w.
Proof.
  intros H. unfold eval, exec.
  rewrite (updatePetReminder_unknown env id updates w H). split; reflexivity.
Qed.

(** C8, the code at the failing input.  No pet has the id ["ghost"].
    Offline, [updatePet] and [deletePet] on that id return [true], and
    [updatePet] turns the pending flag on; signed in, [updatePet] sends
    the update of ["ghost"] to the gateway and returns [true] when the
    gateway reports no error.  The pets themselves are not touched. *)
Theorem unknown_id_reported_as_success :
  PetStore.getPetById "ghost" worldWithRex = None
  /\ PetState.pendingChanges (petStore worldWithRex) = false
  /\ eval (PetStore.updatePet Sample.envOffline "ghost" renamed) worldWithRex
     = Val true
  /\ PetState.pendingChanges
       (petStore (exec (PetStore.updatePet Sample.envOffline "ghost" renamed)
                       worldWithRex)) = true
  /\ PetState.pets
       (petStore (exec (PetStore.updatePet Sample.envOffline "ghost" renamed)
                       worldWithRex)) = [Sample.rexPet]
  /\ eval (PetStore.deletePet Sample.envOffline "ghost") worldWithRex = Val true
  /\ eval (PetStore.updatePet Sample.envOnline "ghost" renamed) worldWithRex
     = Val true
  /\ gatewayLog (exec (PetStore.updatePet Sample.envOnline "ghost" renamed)
                      worldWithRex)
     = [Update "pets" "ghost" (PetPayload (PetStore.petToRecord renamed))].
Proof. vm_compute. repeat split. Qed.

(** ** Deleting a pet (C1) *)

(** [deletePet] never touches the appointments, the reminders or the
    scheduler. *)
Lemma deletePet_does_not_cascade (env : Env) (w : World) (id : string) :
  let w' := exec (PetStore.deletePet env id) w in
  AppointmentStore.getAppointmentsByPetId id w'
  = AppointmentStore.getAppointmentsByPetId id w
  /\ NotificationStore.getPetReminders id w' = NotificationStore.getPetReminders id w
  /\ scheduled w' = scheduled w.
Proof.
  destruct (deletePet_frame env id w) as (Ha & Hn & Hs). cbv zeta.
  unfold AppointmentStore.getAppointmentsByPetId, NotificationStore.getPetReminders.
  rewrite Ha, Hn, Hs. repeat split.
Qed.

(** C1, the code at the failing input.  Rex (id ["7d1c"]) has one
    appointment and one reminder with five registered triggers.
    [deletePet "7d1c"] succeeds, offline as well as through the gateway,
    and removes the pet; the appointment, the reminder and the five
    triggers that reference the pet are all still there. *)
Theorem deletePet_leaves_children :
  let w := worldWithReminder in
  let w' := exec (PetStore.deletePet Sample.envOnline "7d1c") w in
  eval (PetStore.deletePet Sample.envOnline "7d1c") w = Val true
  /\ eval (PetStore.deletePet Sample.envOffline "7d1c") w = Val true
  /\ PetStore.getPetById "7d1c" w' = None
  /\ AppointmentStore.getAppointmentsByPetId "7d1c" w' = [Sample.checkupOfRex]
  /\ map PetReminder.id (NotificationStore.getPetReminders "7d1c" w')
     = ["local_1700000000000"]
  /\ map petIdOf (scheduled w')
     = [Some "7d1c"; Some "7d1c"; Some "7d1c"; Some "7d1c"; Some "7d1c"].
Proof. vm_compute. repeat split. Qed.

(** ** The settings gate (C6) *)

(** With the gate off, adding or editing a reminder registers nothing,
    and the reminder is recorded all the same. *)
Lemma gate_off_add_registers_nothing (env : Env) (w : World)
      (reminderData : NewPetReminder.t) :
  gateOf w = false ->
  scheduled (exec (NotificationStore.addPetReminder env reminderData) w)
  = scheduled w.
Proof.
  intros Hgate. unfold gateOf in Hgate.
  unfold NotificationStore.addPetReminder. run_action.
  destruct (user env && isSupabaseConfigured env); run_action.
  - destruct (outcome env (length (gatewayLog w))) as [[msg |] | thrown];
      run_action; try reflexivity.
    destruct (reminderRow env (length (gatewayLog w))); run_action;
      rewrite scheduleIfAllowed_run; cbn; rewrite Hgate; reflexivity.
  - rewrite scheduleIfAllowed_run. cbn. rewrite Hgate. reflexivity.
Qed.

Lemma gate_off_update_registers_nothing (env : Env) (w : World) (id : string)
      (updates : PartialPetReminder.t) :
  gateOf w = false ->
  scheduled (exec (NotificationStore.updatePetReminder env id updates) w)
  = scheduled w.
Proof.
  intros Hgate. unfold gateOf in Hgate.
  unfold NotificationStore.updatePetReminder. run_action.
  destruct (Js.find _ _); [| reflexivity].
  destruct (user env && isSupabaseConfigured env && negb (isLocalId id));
    run_action.
  - destruct (outcome env (length (gatewayLog w))) as [[msg |] | thrown];
      run_action; try reflexivity.
    rewrite Hgate. reflexivity.
  - rewrite Hgate. reflexivity.
Qed.

Lemma gate_off_scheduleAll_registers_nothing (env : Env) (w : World) :
  gateOf w = false ->
  NotificationStore.scheduleAllReminders env w = (Val tt, w).
Proof.
  intros Hgate. unfold gateOf, NotificationStore.gate in Hgate.
  unfold NotificationStore.scheduleAllReminders. run_action.
  destruct (NotificationSettings.pushEnabled _);
    destruct (NotificationSettings.reminders _); try discriminate; reflexivity.
Qed.

(** When [pushEnabled] goes from off to on with the reminders setting
    on, every enabled reminder gets exactly its triggers, one per entry
    of [daysOfWeek] at its hour and minute (the reminders have different
    ids, and no call to the gateway throws). *)
Lemma push_on_registers_live_set (env : Env) (w : World)
      (newSettings : PartialNotificationSettings.t) :
  let current := NotificationState.settings (notificationStore w) in
  let updated := NotificationStore.mergeSettings current newSettings in
  let w' := exec (NotificationStore.updateSettings env newSettings) w in
  neverRejects env ->
  NotificationSettings.pushEnabled current = false ->
  NotificationSettings.pushEnabled updated = true ->
  NotificationSettings.reminders updated = true ->
  schedulerOk w ->
  NoDup (map PetReminder.id (NotificationState.petReminders (notificationStore w))) ->
  forall r,
    In r (NotificationState.petReminders (notificationStore w)) ->
    PetReminder.enabled r = true ->
    map Notifications.trigger
        (filter (NotificationService.isFor (PetReminder.id r)) (scheduled w'))
    = map (NotificationService.reminderTrigger env r) (PetReminder.daysOfWeek r).
Proof.
  intros current updated w' Hnr Hoff Hon Hrem Hok Hnd r Hin Hen.
  subst w' updated current.
  assert (Hgo : forall w0 : World,
    scheduled w0 = scheduled w -> issued w0 = issued w ->
    NotificationState.petReminders (notificationStore w0)
    = NotificationState.petReminders (notificationStore w) ->
    gateOf w0 = true ->
    map Notifications.trigger
      (filter (NotificationService.isFor (PetReminder.id r))
         (scheduled (snd (NotificationStore.scheduleAllReminders env w0))))
    = map (NotificationService.reminderTrigger env r) (PetReminder.daysOfWeek r)).
  { intros w0 Hs Hi Hr Hgate. rewrite (scheduleAllReminders_run env w0 Hgate).
    cbn [snd]. rewrite Hr. apply scheduleSteps_live; try assumption.
    destruct Hok as [Hok1 Hok2]. split; rewrite Hs; [| rewrite Hi]; assumption. }
  assert (Hgate : NotificationStore.gate
                    (NotificationStore.mergeSettings
                       (NotificationState.settings (notificationStore w))
                       newSettings) = true).
  { unfold NotificationStore.gate. now rewrite Hon, Hrem. }
  unfold NotificationStore.updateSettings, NotificationStore.cancelAllReminders.
  run_action.
  destruct (user env && isSupabaseConfigured env); run_action;
    [destruct (Hnr (length (gatewayLog w))) as [err ->]; run_action |].
  all: rewrite Hoff, Hon; run_action;
    match goal with
    | |- context [NotificationStore.scheduleAllReminders ?e ?x] =>
        specialize (Hgo x eq_refl eq_refl eq_refl Hgate);
        destruct (NotificationStore.scheduleAllReminders e x) as [[[] | thrown] w1]
    end; exact Hgo.
Qed.

(** [updateSettings] leaves the scheduler alone unless [pushEnabled]
    changes, whatever happens to the reminders setting. *)
Lemma updateSettings_without_push_change (env : Env) (w : World)
      (newSettings : PartialNotificationSettings.t) :
  NotificationSettings.pushEnabled
    (NotificationStore.mergeSettings
       (NotificationState.settings (notificationStore w)) newSettings)
  = NotificationSettings.pushEnabled
      (NotificationState.settings (notificationStore w)) ->
  scheduled (exec (NotificationStore.updateSettings env newSettings) w)
  = scheduled w.
Proof.
  intros Hsame.
  unfold NotificationStore.updateSettings, NotificationStore.cancelAllReminders.
  run_action.
  destruct (user env && isSupabaseConfigured env); run_action;
    [destruct (outcome env (length (gatewayLog w))) as [err | thrown];
     run_action; [| reflexivity] |].
  all: rewrite Hsame;
    destruct (NotificationSettings.pushEnabled
                (NotificationState.settings (notificationStore w)));
    reflexivity.
Qed.

(** C6, the code at the failing input.  [pushEnabled] stays true, the
    reminders setting goes from off to on while the store holds one
    enabled reminder for Monday to Friday: the gate is on again, and no
    trigger is registered (the claim asks for five).  The same scenario
    played with [pushEnabled] registers the five triggers.  In the other
    direction, turning the reminders setting off leaves the five
    triggers registered. *)
Theorem reminders_toggle_registers_nothing :
  gateOf afterRemindersToggle = true
  /\ map PetReminder.enabled
         (NotificationState.petReminders (notificationStore afterRemindersToggle))
     = [true]
  /\ scheduled afterRemindersToggle = []
  /\ gateOf afterPushToggle = true
  /\ map Notifications.trigger (scheduled afterPushToggle)
     = [Notifications.WEEKLY 1 8 0 None; Notifications.WEEKLY 2 8 0 None;
        Notifications.WEEKLY 3 8 0 None; Notifications.WEEKLY 4 8 0 None;
        Notifications.WEEKLY 5 8 0 None]
  /\ gateOf afterRemindersOff = false
  /\ length (scheduled afterRemindersOff) = 5.
Proof. vm_compute. repeat split. Qed.


(** ** Editing a reminder (C2) *)

(** Edits on sample data with the gate off, in support of C2.  The
    claim says that an update always cancels
    the triggers of the reminder first and registers the new set when
    the reminder is enabled, so that after the edit of the hour from 8
    to 9 there are five triggers and none at 8.  With the reminders
    setting off the edit succeeds, the stored reminder is at 9:00, and
    the five triggers registered before are still there, all at 8:00.
    With push notifications off the edit of the enabled reminder
    succeeds and there is no trigger at all. *)
Lemma update_with_gate_off_counterexample :
  eval (NotificationStore.updatePetReminder Sample.envOffline "local_1700000000000"
                                            Sample.atNine)
       afterRemindersOff = Val true
  /\ map PetReminder.time
         (NotificationState.petReminders (notificationStore afterEditWithGateOff))
     = [Time.mk 9 0]
  /\ map Notifications.trigger
         (filter (NotificationService.isFor "local_1700000000000")
                 (scheduled afterEditWithGateOff))
     = [Notifications.WEEKLY 1 8 0 None; Notifications.WEEKLY 2 8 0 None;
        Notifications.WEEKLY 3 8 0 None; Notifications.WEEKLY 4 8 0 None;
        Notifications.WEEKLY 5 8 0 None]
  /\ map PetReminder.enabled
         (NotificationState.petReminders (notificationStore afterEditWithPushOff))
     = [true]
  /\ scheduled afterEditWithPushOff = [].
Proof. vm_compute. repeat split. Qed.

(** What holds of the claim C2.  For a reminder [r] of the store and an
    update that
    does not change its id and that the gateway does not refuse: when
    the settings gate ([pushEnabled && reminders]) is on, the update
    cancels every registered trigger keyed by [r.id] and then, if the
    updated reminder is enabled, registers one trigger per entry of the
    new [daysOfWeek] with the new hour and minute, so that afterwards
    the triggers keyed by [r.id] are exactly these (none when the
    reminder is disabled); when the gate is off the update leaves the
    scheduler as it was. *)
Theorem update_reschedules
        (env : Env) (w : World) (id : string)
        (updates : PartialPetReminder.t) (existing : PetReminder.t) :
  findReminder id w = Some existing ->
  PartialPetReminder.id updates = None ->
  accepted env id w ->
  let updated := NotificationStore.merge existing updates in
  let w' := exec (NotificationStore.updatePetReminder env id updates) w in
  eval (NotificationStore.updatePetReminder env id updates) w = Val true
  /\ (gateOf w = true ->
      filter (NotificationService.isFor id) (scheduled w')
      = newRequests env updated (issued w) (liveDays updated)
      /\ map Notifications.trigger
             (filter (NotificationService.isFor id) (scheduled w'))
         = map (NotificationService.reminderTrigger env updated) (liveDays updated))
  /\ (gateOf w = false -> scheduled w' = scheduled w).
Proof.
  intros Hfind Hid Hacc updated w'.
  destruct (updatePetReminder_applied env id updates existing w Hfind Hacc)
    as (Hval & _ & Hsched).
  fold updated in Hsched. fold w' in Hsched.
  assert (Hupd : PetReminder.id updated = id).
  { unfold updated. rewrite (merge_id _ _ Hid). now apply findReminder_id with w. }
  split; [exact Hval |]. split.
  - intros Hgate. rewrite Hgate in Hsched.
    assert (Hfilter : filter (NotificationService.isFor id) (scheduled w')
                      = newRequests env updated (issued w) (liveDays updated)).
    { rewrite Hsched. destruct (PetReminder.enabled updated) eqn:Hen.
      - rewrite filter_app, Hupd, afterCancel_none, (liveDays_enabled _ Hen).
        rewrite <- Hupd at 1. apply newRequests_isFor.
      - rewrite afterCancel_none, (liveDays_disabled _ Hen). reflexivity. }
    split; [exact Hfilter |]. rewrite Hfilter. apply newRequests_triggers.
  - intros Hgate. rewrite Hgate in Hsched. exact Hsched.
Qed.

Lemma update_reschedules_witness :
  let w := exec (NotificationStore.addPetReminder Sample.envOffline Sample.morningWalk)
                initialWorld in
  let id := "local_1700000000000" in
  let w' := exec (NotificationStore.updatePetReminder Sample.envOffline id Sample.atNine)
                 w in
  findReminder id w = Some (NotificationStore.newLocalReminder Sample.morningWalk id)
  /\ PartialPetReminder.id Sample.atNine = None
  /\ accepted Sample.envOffline id w
  /\ gateOf w = true
  /\ map Notifications.trigger (filter (NotificationService.isFor id) (scheduled w))
     = [Notifications.WEEKLY 1 8 0 None; Notifications.WEEKLY 2 8 0 None;
        Notifications.WEEKLY 3 8 0 None; Notifications.WEEKLY 4 8 0 None;
        Notifications.WEEKLY 5 8 0 None]
  /\ map Notifications.trigger (filter (NotificationService.isFor id) (scheduled w'))
     = [Notifications.WEEKLY 1 9 0 None; Notifications.WEEKLY 2 9 0 None;
        Notifications.WEEKLY 3 9 0 None; Notifications.WEEKLY 4 9 0 None;
        Notifications.WEEKLY 5 9 0 None].
Proof.
  intros w id w'.
  assert (H1 : findReminder id w
               = Some (NotificationStore.newLocalReminder Sample.morningWalk id))
    by reflexivity.
  assert (H2 : PartialPetReminder.id Sample.atNine = None) by reflexivity.
  assert (H3 : accepted Sample.envOffline id w) by (left; reflexivity).
  assert (H4 : gateOf w = true) by reflexivity.
  repeat (split; [assumption |]).
  split; [reflexivity |].
  destruct (update_reschedules Sample.envOffline w id Sample.atNine _ H1 H2 H3)
    as (_ & Hon & _).
  destruct (Hon H4) as (_ & Htriggers). exact Htriggers.
Defined.

(** C2.  The claim says that an update always cancels the triggers of
    the reminder first and then registers the new set when the updated
    reminder is enabled.  [updatePetReminder] does both only inside
    [if (settings.pushEnabled && settings.reminders)].  The walk of Rex
    is added with the gate on (five triggers at 8:00) and the reminders
    setting is then turned off, which leaves the triggers registered.
    In that world:

    - the edit of the hour to 9 answers [true] and is recorded, and the
      five triggers are still those of 8:00, none at 9:00;
    - the edit that disables the reminder answers [true] and is
      recorded, and the five triggers are still registered;
    - [deletePetReminder] and [schedulePetReminder], which do not look
      at the settings, cancel these triggers.

    With the gate on the same edit of the hour gives the five triggers
    of 9:00.  With the gate off no update ever changes the scheduler. *)
Theorem update_with_gate_off_keeps_triggers :
  let id := "local_1700000000000" in
  let w := afterRemindersOff in
  let eight := [Notifications.WEEKLY 1 8 0 None; Notifications.WEEKLY 2 8 0 None;
                Notifications.WEEKLY 3 8 0 None; Notifications.WEEKLY 4 8 0 None;
                Notifications.WEEKLY 5 8 0 None] in
  let nine := [Notifications.WEEKLY 1 9 0 None; Notifications.WEEKLY 2 9 0 None;
               Notifications.WEEKLY 3 9 0 None; Notifications.WEEKLY 4 9 0 None;
               Notifications.WEEKLY 5 9 0 None] in
  let edited := exec (NotificationStore.updatePetReminder Sample.envOffline id
                        Sample.atNine) w in
  let disabled := exec (NotificationStore.updatePetReminder Sample.envOffline id
                          (toggled localWalk)) w in
  (gateOf w = false /\ findReminder id w = Some localWalk /\ triggersOf id w = eight)
  /\ (eval (NotificationStore.updatePetReminder Sample.envOffline id Sample.atNine) w
      = Val true
      /\ option_map PetReminder.time (findReminder id edited) = Some (Time.mk 9 0)
      /\ triggersOf id edited = eight)
  /\ (eval (NotificationStore.updatePetReminder Sample.envOffline id
              (toggled localWalk)) w = Val true
      /\ option_map PetReminder.enabled (findReminder id disabled) = Some false
      /\ triggersOf id disabled = eight)
  /\ triggersOf id (exec (NotificationStore.deletePetReminder Sample.envOffline id) w)
     = []
  /\ triggersOf id
       (exec (NotificationService.schedulePetReminder Sample.envOffline
                (NotificationStore.merge localWalk Sample.atNine)) w)
     = nine
  /\ triggersOf id
       (exec (NotificationStore.updatePetReminder Sample.envOffline id Sample.atNine)
             (exec (NotificationStore.addPetReminder Sample.envOffline
                      Sample.morningWalk) initialWorld))
     = nine
  /\ (forall env u anyId updates,
        gateOf u = false ->
        scheduled (exec (NotificationStore.updatePetReminder env anyId updates) u)
        = scheduled u).
Proof.
  cbv zeta. split; [| split; [| split; [| split; [| split; [| split]]]]].
  - vm_compute. repeat split.
  - vm_compute. repeat split.
  - vm_compute. repeat split.
  - vm_compute. reflexivity.
  - vm_compute. reflexivity.
  - vm_compute. reflexivity.
  - intros env u anyId updates Hgate.
    now apply gate_off_update_registers_nothing.
Qed.

(** ** Reconciliation passes (C4, C7) *)

(** C4.  After a pass of [syncToServer] that ran to its end (the user
    is signed in, Supabase is configured, no call throws) the pending
    flag is off, and a second pass, whatever its environment, returns
    at once: it leaves the world as it is, so it makes no call to the
    gateway.  This holds for the pet store and for the notification
    store.  In any pass the creates sent are replays, in order, of
    records whose id is local when the pass starts, so a record whose id
    was replaced by a server id is not replayed. *)
Theorem second_pass_makes_no_call (env1 env2 : Env) (w : World) :
  user env1 = true -> isSupabaseConfigured env1 = true -> neverRejects env1 ->
  (let w1 := exec (PetStore.syncToServer env1) w in
   PetState.pendingChanges (petStore w1) = false
   /\ exec (PetStore.syncToServer env2) w1 = w1
   /\ gatewayLog (exec (PetStore.syncToServer env2) w1) = gatewayLog w1)
  /\
  (let w1 := exec (NotificationStore.syncToServer env1) w in
   NotificationState.pendingChanges (notificationStore w1) = false
   /\ exec (NotificationStore.syncToServer env2) w1 = w1
   /\ gatewayLog (exec (NotificationStore.syncToServer env2) w1) = gatewayLog w1)
  /\
  (forall env w0, exists n,
      gatewayLog (exec (PetStore.syncToServer env) w0)
      = (gatewayLog w0 ++ firstn n (map petCreate (localPets w0)))%list)
  /\
  (forall env w0, exists n,
      gatewayLog (exec (NotificationStore.syncToServer env) w0)
      = (gatewayLog w0
           ++ firstn n
                (settingsUpsert (NotificationState.settings (notificationStore w0))
                   :: map reminderCreate (localReminders w0)))%list).
Proof.
  intros Hu Hc Hnr. split; [| split; [| split]].
  - cbv zeta.
    assert (Hoff : PetState.pendingChanges
                     (petStore (exec (PetStore.syncToServer env1) w)) = false).
    { destruct (PetState.pendingChanges (petStore w)) eqn:Hp.
      - now destruct (pet_sync_completed env1 w Hu Hc Hnr Hp) as (_ & _ & H & _).
      - unfold exec. rewrite (pet_sync_noop env1 w Hp). exact Hp. }
    split; [exact Hoff |].
    set (w1 := exec (PetStore.syncToServer env1) w) in *.
    assert (Hsame : exec (PetStore.syncToServer env2) w1 = w1)
      by (unfold exec; now rewrite (pet_sync_noop env2 w1 Hoff)).
    split; [exact Hsame | now rewrite Hsame].
  - cbv zeta.
    assert (Hoff : NotificationState.pendingChanges
                     (notificationStore (exec (NotificationStore.syncToServer env1) w))
                   = false).
    { destruct (NotificationState.pendingChanges (notificationStore w)) eqn:Hp.
      - now destruct (reminder_sync_completed env1 w Hu Hc Hnr Hp) as (_ & _ & H & _).
      - unfold exec. rewrite (reminder_sync_noop env1 w Hp). exact Hp. }
    split; [exact Hoff |].
    set (w1 := exec (NotificationStore.syncToServer env1) w) in *.
    assert (Hsame : exec (NotificationStore.syncToServer env2) w1 = w1)
      by (unfold exec; now rewrite (reminder_sync_noop env2 w1 Hoff)).
    split; [exact Hsame | now rewrite Hsame].
  - intros env w0. apply pet_sync_calls.
  - intros env w0. apply reminder_sync_calls.
Qed.

Lemma envOnline_neverRejects : neverRejects Sample.envOnline.
Proof. intros k. exists None. reflexivity. Qed.

Lemma second_pass_makes_no_call_witness :
  user Sample.envOnline = true
  /\ isSupabaseConfigured Sample.envOnline = true
  /\ neverRejects Sample.envOnline
  /\ (let w1 := exec (PetStore.syncToServer Sample.envOnline) worldWithLocalRex in
      PetState.pendingChanges (petStore w1) = false
      /\ exec (PetStore.syncToServer Sample.envOnline) w1 = w1
      /\ gatewayLog (exec (PetStore.syncToServer Sample.envOnline) w1) = gatewayLog w1).
Proof.
  assert (H1 : user Sample.envOnline = true) by reflexivity.
  assert (H2 : isSupabaseConfigured Sample.envOnline = true) by reflexivity.
  assert (H3 : neverRejects Sample.envOnline) by exact envOnline_neverRejects.
  repeat (split; [assumption |]).
  apply (second_pass_makes_no_call Sample.envOnline Sample.envOnline
           worldWithLocalRex H1 H2 H3).
Defined.

(** Two passes on sample data, in support of C7.  (1) One pet waits
    under a local id and the
    gateway answers the replay with an error.  The pet keeps its local
    id, but the pass turns the pending flag off, so the next pass,
    against a gateway that would accept the pet, returns at once and
    sends nothing: the record is not retried on the next pass.  (2) Two
    pets wait and the first replay throws.  The pass stops there: the
    second pet is not sent, [lastSyncedAt] is not written, and the
    pending flag stays on. *)
Lemma failed_item_counterexample :
  (let w1 := exec (PetStore.syncToServer Sample.envFailing) worldWithLocalRex in
   let w2 := exec (PetStore.syncToServer Sample.envOnline) w1 in
   map Pet.id (PetState.pets (petStore w1)) = ["local_1700000000000"]
   /\ length (gatewayLog w1) = 1
   /\ PetState.pendingChanges (petStore w1) = false
   /\ gatewayLog w2 = gatewayLog w1
   /\ map Pet.id (PetState.pets (petStore w2)) = ["local_1700000000000"])
  /\
  (let w1 := exec (PetStore.syncToServer Sample.envRejecting) worldWithTwoLocalPets in
   map Pet.id (localPets worldWithTwoLocalPets)
   = ["local_1700000000001"; "local_1700000000000"]
   /\ length (gatewayLog w1) = 1
   /\ PetState.lastSyncedAt (petStore w1) = None
   /\ PetState.pendingChanges (petStore w1) = true).
Proof. vm_compute. repeat split. Qed.

(** When every call comes back with an error, the loop leaves the pets
    as they were. *)
Lemma pet_loop_all_fail env items :
  (forall k, exists msg, outcome env k = Resolves (Some msg)) ->
  forall w,
    PetState.pets (petStore (exec (forEach items (PetStore.syncOne env)) w))
    = PetState.pets (petStore w).
Proof.
  intros Hall. induction items as [| pet rest IH]; intros w; [reflexivity |].
  cbn [forEach]. unfold exec, bind.
  destruct (Hall (length (gatewayLog w))) as [msg Hmsg].
  rewrite (pet_syncOne_failure env pet w msg Hmsg).
  unfold exec in IH. rewrite IH. reflexivity.
Qed.

(** What holds of the claim C7 in a pass over the pending pets in
    which no call throws: a create is sent for every pet that has a
    local id, in order, whatever the earlier items came back with (no abort on a
    failure); an item whose call comes back with an error leaves the
    store exactly as it was, so the record stays in the collection under
    its local id; [lastSyncedAt] is not written by the loop and is set
    to the current time after it, whether the items succeeded or not.
    (A call that throws ends the pass: the remaining items are not sent
    and [lastSyncedAt] is not written.) *)
Theorem sync_goes_through_failures (env : Env) (w : World) :
  user env = true -> isSupabaseConfigured env = true -> neverRejects env ->
  PetState.pendingChanges (petStore w) = true ->
  let w' := exec (PetStore.syncToServer env) w in
  gatewayLog w' = (gatewayLog w ++ map petCreate (localPets w))%list
  /\ (forall pet w0 msg,
        outcome env (length (gatewayLog w0)) = Resolves (Some msg) ->
        PetStore.syncOne env pet w0
        = (Val tt, with_gatewayLog (gatewayLog w0 ++ [petCreate pet]) w0))
  /\ (forall items w0,
        PetState.lastSyncedAt
          (petStore (exec (forEach items (PetStore.syncOne env)) w0))
        = PetState.lastSyncedAt (petStore w0))
  /\ PetState.lastSyncedAt (petStore w') = Some (nowISO env)
  /\ ((forall k, exists msg, outcome env k = Resolves (Some msg)) ->
      PetState.pets (petStore w') = PetState.pets (petStore w)).
Proof.
  intros Hu Hc Hnr Hp w'. subst w'.
  destruct (pet_sync_completed env w Hu Hc Hnr Hp) as (_ & Hlog & _ & Hlast).
  split; [exact Hlog |]. split; [| split; [| split; [exact Hlast |]]].
  - intros pet w0 msg H. now apply pet_syncOne_failure with msg.
  - intros items w0. now destruct (pet_loop env items Hnr w0) as (_ & _ & _ & H).
  - intros Hall. unfold PetStore.syncToServer. run_action.
    rewrite Hp, Hu, Hc. run_action.
    match goal with
    | |- context [forEach ?l _ ?x] =>
        pose proof (pet_loop_all_fail env l Hall x) as Hpets;
        pose proof (pet_loop env l Hnr x) as (Hv & _);
        unfold exec, eval in Hpets, Hv;
        destruct (forEach l (PetStore.syncOne env) x) as [r w1]
    end.
    cbn in Hpets, Hv. subst r. cbn. exact Hpets.
Qed.

Lemma envFailing_neverRejects : neverRejects Sample.envFailing.
Proof. intros k. exists (Some "network request failed"). reflexivity. Qed.

Lemma sync_goes_through_failures_witness :
  user Sample.envFailing = true
  /\ isSupabaseConfigured Sample.envFailing = true
  /\ neverRejects Sample.envFailing
  /\ PetState.pendingChanges (petStore worldWithTwoLocalPets) = true
  /\ gatewayLog (exec (PetStore.syncToServer Sample.envFailing) worldWithTwoLocalPets)
     = (gatewayLog worldWithTwoLocalPets
          ++ map petCreate (localPets worldWithTwoLocalPets))%list
  /\ length (map petCreate (localPets worldWithTwoLocalPets)) = 2.
Proof.
  assert (H1 : user Sample.envFailing = true) by reflexivity.
  assert (H2 : isSupabaseConfigured Sample.envFailing = true) by reflexivity.
  assert (H3 : neverRejects Sample.envFailing) by exact envFailing_neverRejects.
  assert (H4 : PetState.pendingChanges (petStore worldWithTwoLocalPets) = true)
    by reflexivity.
  repeat (split; [assumption |]).
  split; [| reflexivity].
  apply (sync_goes_through_failures Sample.envFailing worldWithTwoLocalPets
           H1 H2 H3 H4).
Defined.

(** C7.  The claim says that an item whose call fails stays marked for
    retry on the next pass, that the pass goes on with the other items,
    and that [lastSyncedAt] is written once the queue is done whether
    the items succeeded or not.  In a pass of the pets that is run
    (signed in, Supabase configured, pending flag on):

    - when no call throws, a create is sent for every waiting pet and
      [lastSyncedAt] is written, as claimed, and a pet whose replay
      comes back with an error stays in the collection under its local
      id; but the pass turns the pending flag off all the same, so that
      the next pass, in any environment, returns at once: the failed pet
      is never replayed;
    - when the call of the item at position [i] is the first that
      throws, the pass stops there: the items after it are not sent,
      [lastSyncedAt] is not written, and the pending flag stays on. *)
Theorem failed_pets_are_not_retried (env : Env) (w : World) :
  user env = true -> isSupabaseConfigured env = true ->
  PetState.pendingChanges (petStore w) = true ->
  let w' := exec (PetStore.syncToServer env) w in
  (neverRejects env ->
     gatewayLog w' = (gatewayLog w ++ map petCreate (localPets w))%list
     /\ PetState.lastSyncedAt (petStore w') = Some (nowISO env)
     /\ PetState.pendingChanges (petStore w') = false
     /\ (forall pet,
           In pet (PetState.pets (petStore w)) ->
           (forall j item,
              nth_error (localPets w) j = Some item -> Pet.id item = Pet.id pet ->
              exists msg,
                outcome env (length (gatewayLog w) + j) = Resolves (Some msg)) ->
           In pet (PetState.pets (petStore w')))
     /\ forall env2, PetStore.syncToServer env2 w' = (Val tt, w'))
  /\
  (forall i thrown,
     i < length (localPets w) ->
     (forall k, k < i ->
        exists err, outcome env (length (gatewayLog w) + k) = Resolves err) ->
     outcome env (length (gatewayLog w) + i) = Rejects thrown ->
     eval (PetStore.syncToServer env) w = Val tt
     /\ gatewayLog w'
        = (gatewayLog w ++ firstn (S i) (map petCreate (localPets w)))%list
     /\ PetState.lastSyncedAt (petStore w') = PetState.lastSyncedAt (petStore w)
     /\ PetState.pendingChanges (petStore w') = true).
Proof.
  intros Hu Hc Hp w'. split.
  - intros Hnr.
    destruct (pet_sync_completed env w Hu Hc Hnr Hp) as (_ & Hlog & Hoff & Hlast).
    fold w' in Hlog, Hoff, Hlast.
    split; [exact Hlog |]. split; [exact Hlast |]. split; [exact Hoff |].
    split; [| intros env2; now apply pet_sync_noop].
    intros pet Hin Hfail. subst w'.
    unfold PetStore.syncToServer. run_action. rewrite Hp, Hu, Hc. run_action.
    fold (localPets w).
    match goal with
    | |- context [forEach _ _ ?x] => set (w0 := x)
    end.
    assert (Hkept : In pet (PetState.pets
                              (petStore (exec (forEach (localPets w)
                                                 (PetStore.syncOne env)) w0)))).
    { apply pet_loop_keeps_failed; [exact Hnr | exact Hin | exact Hfail]. }
    pose proof (pet_loop env (localPets w) Hnr w0) as (Hv & _).
    unfold exec, eval in Hkept, Hv.
    destruct (forEach (localPets w) (PetStore.syncOne env) w0) as [r w1].
    cbn in Hv. subst r. cbn. exact Hkept.
  - intros i thrown Hi Hbefore Hrej. subst w'.
    unfold PetStore.syncToServer. run_action. rewrite Hp, Hu, Hc. run_action.
    fold (localPets w).
    match goal with
    | |- context [forEach _ _ ?x] => set (w0 := x)
    end.
    destruct (pet_loop_rejected env thrown (localPets w) i w0 Hi Hbefore Hrej)
      as (Hv & Hlog & Hpend & Hlast).
    unfold exec, eval in Hv, Hlog, Hpend, Hlast.
    destruct (forEach (localPets w) (PetStore.syncOne env) w0) as [r w1].
    cbn [fst snd] in Hv, Hlog, Hpend, Hlast. subst r. cbn.
    rewrite Hlog, Hlast, Hpend. repeat split. exact Hp.
Qed.

Lemma failed_pets_are_not_retried_witness :
  (user Sample.envFailing = true
   /\ isSupabaseConfigured Sample.envFailing = true
   /\ PetState.pendingChanges (petStore worldWithTwoLocalPets) = true
   /\ neverRejects Sample.envFailing
   /\ map Pet.id
        (localPets (exec (PetStore.syncToServer Sample.envFailing)
                         worldWithTwoLocalPets))
      = ["local_1700000000001"; "local_1700000000000"]
   /\ PetState.pendingChanges
        (petStore (exec (PetStore.syncToServer Sample.envFailing)
                        worldWithTwoLocalPets)) = false
   /\ PetStore.syncToServer Sample.envOnline
        (exec (PetStore.syncToServer Sample.envFailing) worldWithTwoLocalPets)
      = (Val tt, exec (PetStore.syncToServer Sample.envFailing) worldWithTwoLocalPets))
  /\
  (user envRejectingSecond = true
   /\ isSupabaseConfigured envRejectingSecond = true
   /\ 1 < length (localPets worldWithTwoLocalPets)
   /\ outcome envRejectingSecond (length (gatewayLog worldWithTwoLocalPets) + 1)
      = Rejects (Js.mkThrown (Some "timeout"))
   /\ PetState.lastSyncedAt (petStore worldWithTwoLocalPets) = None
   /\ PetState.lastSyncedAt
        (petStore (exec (PetStore.syncToServer envRejectingSecond)
                        worldWithTwoLocalPets)) = None
   /\ PetState.pendingChanges
        (petStore (exec (PetStore.syncToServer envRejectingSecond)
                        worldWithTwoLocalPets)) = true).
Proof.
  assert (H1 : user Sample.envFailing = true) by reflexivity.
  assert (H2 : isSupabaseConfigured Sample.envFailing = true) by reflexivity.
  assert (H3 : PetState.pendingChanges (petStore worldWithTwoLocalPets) = true)
    by reflexivity.
  assert (G1 : user envRejectingSecond = true) by reflexivity.
  assert (G2 : isSupabaseConfigured envRejectingSecond = true) by reflexivity.
  assert (G3 : 1 < length (localPets worldWithTwoLocalPets)) by (vm_compute; lia).
  assert (G4 : forall k, k < 1 ->
                 exists err,
                   outcome envRejectingSecond
                     (length (gatewayLog worldWithTwoLocalPets) + k) = Resolves err).
  { intros k Hk. assert (k = 0) by lia. subst k.
    exists (Some "network request failed"). reflexivity. }
  assert (G5 : outcome envRejectingSecond
                 (length (gatewayLog worldWithTwoLocalPets) + 1)
               = Rejects (Js.mkThrown (Some "timeout"))) by reflexivity.
  destruct (proj1 (failed_pets_are_not_retried Sample.envFailing
                     worldWithTwoLocalPets H1 H2 H3) envFailing_neverRejects)
    as (_ & _ & Hoff & _ & Hnoop).
  destruct (proj2 (failed_pets_are_not_retried envRejectingSecond
                     worldWithTwoLocalPets G1 G2 H3)
              1 (Js.mkThrown (Some "timeout")) G3 G4 G5)
    as (_ & _ & Hlast & Hpending).
  split.
  - split; [exact H1 |]. split; [exact H2 |]. split; [exact H3 |].
    split; [exact envFailing_neverRejects |]. split; [reflexivity |].
    split; [exact Hoff | exact (Hnoop Sample.envOnline)].
  - split; [exact G1 |]. split; [exact G2 |]. split; [exact G3 |].
    split; [exact G5 |]. split; [reflexivity |].
    split; [rewrite Hlast; reflexivity | exact Hpending].
Defined.

(* ===================================================================== *)
(** * Further properties of the code *)
(* ===================================================================== *)

(** ** Looking records up after a write *)

Section Lookup.

Variable A : Type.
Variable idOf : A -> string.

Lemma findById_replace_same id f arr :
  (forall x, idOf x = id -> idOf (f x) = id) ->
  findById idOf id (replaceById idOf id f arr) = option_map f (findById idOf id arr).
Proof.
  intros Hkeep. unfold findById, replaceById, Js.find.
  induction arr as [| a rest IH]; [reflexivity |]. cbn.
  destruct (String.eqb_spec (idOf a) id) as [Ha | Ha].
  - rewrite (Hkeep a Ha), String.eqb_refl. reflexivity.
  - apply String.eqb_neq in Ha. rewrite Ha. exact IH.
Qed.

Lemma findById_replace_other id other f arr :
  other <> id ->
  (forall x, idOf x = id -> idOf (f x) = id) ->
  findById idOf other (replaceById idOf id f arr) = findById idOf other arr.
Proof.
  intros Hother Hkeep. unfold findById, replaceById, Js.find.
  induction arr as [| a rest IH]; [reflexivity |]. cbn.
  destruct (String.eqb_spec (idOf a) id) as [Ha | Ha].
  - rewrite (Hkeep a Ha), Ha.
    assert (Hne : String.eqb id other = false)
      by (apply String.eqb_neq; congruence).
    rewrite Hne. exact IH.
  - destruct (String.eqb (idOf a) other); [reflexivity | exact IH].
Qed.

Lemma findById_remove_same id arr : findById idOf id (removeById idOf id arr) = None.
Proof.
  unfold findById, removeById, Js.find.
  induction arr as [| a rest IH]; [reflexivity |]. cbn.
  destruct (String.eqb (idOf a) id) eqn:Ha; cbn; [exact IH |].
  rewrite Ha. exact IH.
Qed.

Lemma findById_remove_other id other arr :
  other <> id -> findById idOf other (removeById idOf id arr) = findById idOf other arr.
Proof.
  intros Hother. unfold findById, removeById, Js.find.
  induction arr as [| a rest IH]; [reflexivity |]. cbn.
  destruct (String.eqb_spec (idOf a) id) as [Ha | Ha]; cbn.
  - assert (Hne : String.eqb (idOf a) other = false)
      by (apply String.eqb_neq; congruence).
    rewrite Hne. exact IH.
  - destruct (String.eqb (idOf a) other); [reflexivity | exact IH].
Qed.

End Lookup.

(** ** The pet store *)

(** X1.  A pet created offline is found at once under the id that
    [addPet] returns: [getPetById] gives back the record just stored. *)
Theorem addPet_offline_read_back (env : Env) (w : World) (petData : NewPet.t) :
  offline env ->
  let w' := exec (PetStore.addPet env petData) w in
  eval (PetStore.addPet env petData) w = Val (Some (localId env))
  /\ PetStore.getPetById (localId env) w'
     = Some (PetStore.newLocalPet petData (localId env) (nowISO env) (nowISO env)).
Proof.
  intros Hoff. cbv zeta. unfold exec, eval.
  rewrite (addPet_offline env petData w Hoff). cbn [fst snd].
  split; [reflexivity |].
  unfold PetStore.getPetById, Js.find. cbn.
  now rewrite String.eqb_refl.
Qed.

Lemma addPet_offline_read_back_witness :
  offline Sample.envOffline
  /\ PetStore.getPetById "local_1700000000000"
       (exec (PetStore.addPet Sample.envOffline Sample.rex) worldWithRex)
     = Some (PetStore.newLocalPet Sample.rex "local_1700000000000"
                                  Sample.stamp Sample.stamp).
Proof.
  assert (H : offline Sample.envOffline) by reflexivity.
  split; [exact H |].
  apply (addPet_offline_read_back Sample.envOffline worldWithRex Sample.rex H).
Defined.

(** X2.  When the gateway accepts the create and sends the row back,
    [addPet] stores the pet made of that row at the head of the
    collection, returns the id of the row, stamps [lastSyncedAt], leaves
    the pending flag as it was, and has sent exactly one create; the pet
    is found at once under the returned id. *)
Theorem addPet_online_stores_the_row
        (env : Env) (w : World) (petData : NewPet.t) (row : PetRecord.t) :
  user env && isSupabaseConfigured env = true ->
  outcome env (length (gatewayLog w)) = Resolves None ->
  petRow env (length (gatewayLog w)) = Some row ->
  let w' := exec (PetStore.addPet env petData) w in
  eval (PetStore.addPet env petData) w = Val (Some (PetRecord.id row))
  /\ PetState.pets (petStore w') = PetStore.recordToPet row :: PetState.pets (petStore w)
  /\ PetStore.getPetById (PetRecord.id row) w' = Some (PetStore.recordToPet row)
  /\ PetState.pendingChanges (petStore w') = PetState.pendingChanges (petStore w)
  /\ PetState.lastSyncedAt (petStore w') = Some (nowISO env)
  /\ gatewayLog w'
     = (gatewayLog w
          ++ [Create "pets"
                (PetPayload (PetStore.petToRecord (PartialPet.ofNew petData)))])%list.
Proof.
  intros Hon Hout Hrow. unfold PetStore.addPet. run_action.
  rewrite Hon. run_action. rewrite Hout. run_action. rewrite Hrow. run_action.
  cbn. unfold PetStore.getPetById, Js.find. cbn.
  rewrite String.eqb_refl. repeat split.
Qed.

Lemma addPet_online_stores_the_row_witness :
  user Sample.envOnline && isSupabaseConfigured Sample.envOnline = true
  /\ outcome Sample.envOnline (length (gatewayLog worldWithRex)) = Resolves None
  /\ petRow Sample.envOnline (length (gatewayLog worldWithRex)) = Some Sample2.rexRow
  /\ eval (PetStore.addPet Sample.envOnline Sample.rex) worldWithRex
     = Val (Some "7d1c-0").
Proof.
  assert (H1 : user Sample.envOnline && isSupabaseConfigured Sample.envOnline = true)
    by reflexivity.
  assert (H2 : outcome Sample.envOnline (length (gatewayLog worldWithRex))
               = Resolves None) by reflexivity.
  assert (H3 : petRow Sample.envOnline (length (gatewayLog worldWithRex))
               = Some Sample2.rexRow) by reflexivity.
  repeat (split; [assumption |]).
  apply (addPet_online_stores_the_row Sample.envOnline worldWithRex Sample.rex
           Sample2.rexRow H1 H2 H3).
Defined.

Lemma getPetById_findById id w :
  PetStore.getPetById id w = findById Pet.id id (PetState.pets (petStore w)).
Proof. reflexivity. Qed.

Lemma merge_keeps_id pet data updated :
  PartialPet.id data = None ->
  Pet.id (PetStore.merge pet data updated) = Pet.id pet.
Proof. intros H. unfold PetStore.merge. cbn. now rewrite H. Qed.

(** X3.  After an update that went through (and that does not rewrite
    the id), [getPetById] shows the merged record under the same id, a
    pet under any other id is found exactly as before, and the
    collection has as many records as before: an update never adds,
    drops or moves a record. *)
Theorem updatePet_read_back
        (env : Env) (w : World) (id : string) (data : PartialPet.t) :
  remoteCall env id = false
  \/ outcome env (length (gatewayLog w)) = Resolves None ->
  PartialPet.id data = None ->
  let w' := exec (PetStore.updatePet env id data) w in
  PetStore.getPetById id w'
  = option_map (fun pet => PetStore.merge pet data (nowISO env))
               (PetStore.getPetById id w)
  /\ (forall other, other <> id ->
        PetStore.getPetById other w' = PetStore.getPetById other w)
  /\ map Pet.id (PetState.pets (petStore w')) = map Pet.id (PetState.pets (petStore w)).
Proof.
  intros Hacc Hid w'.
  destruct (updatePet_applied env id data w Hacc) as (_ & Hpets & _).
  fold w' in Hpets.
  change (PetState.pets (petStore w')
          = replaceById Pet.id id (fun pet => PetStore.merge pet data (nowISO env))
                        (PetState.pets (petStore w))) in Hpets.
  assert (Hkeep : forall x, Pet.id x = id ->
                    Pet.id (PetStore.merge x data (nowISO env)) = id).
  { intros x Hx. now rewrite merge_keeps_id. }
  split; [| split].
  - rewrite !getPetById_findById, Hpets. now apply findById_replace_same.
  - intros other Hother. rewrite !getPetById_findById, Hpets.
    now apply findById_replace_other.
  - rewrite Hpets. unfold replaceById. rewrite map_map. apply map_ext. intros pet.
    destruct (String.eqb (Pet.id pet) id); [now apply merge_keeps_id | reflexivity].
Qed.

Lemma updatePet_read_back_witness :
  (remoteCall Sample.envOffline "7d1c" = false
   \/ outcome Sample.envOffline (length (gatewayLog worldWithRex)) = Resolves None)
  /\ PartialPet.id renamed = None
  /\ option_map Pet.name
       (PetStore.getPetById "7d1c"
          (exec (PetStore.updatePet Sample.envOffline "7d1c" renamed) worldWithRex))
     = Some "Max".
Proof.
  assert (H1 : remoteCall Sample.envOffline "7d1c" = false
               \/ outcome Sample.envOffline (length (gatewayLog worldWithRex))
                  = Resolves None) by (left; reflexivity).
  assert (H2 : PartialPet.id renamed = None) by reflexivity.
  repeat (split; [assumption |]).
  destruct (updatePet_read_back Sample.envOffline worldWithRex "7d1c" renamed H1 H2)
    as (Hsame & _).
  rewrite Hsame. reflexivity.
Defined.

Lemma deletePet_applied env id w :
  remoteCall env id = false
  \/ outcome env (length (gatewayLog w)) = Resolves None ->
  let w' := exec (PetStore.deletePet env id) w in
  eval (PetStore.deletePet env id) w = Val true
  /\ PetState.pets (petStore w') = removeById Pet.id id (PetState.pets (petStore w))
  /\ PetState.pendingChanges (petStore w') = PetState.pendingChanges (petStore w).
Proof.
  intros H. unfold PetStore.deletePet. run_action.
  fold (remoteCall env id).
  destruct (remoteCall env id) eqn:Hremote; run_action.
  - destruct H as [H | H]; [discriminate |]. rewrite H. cbn. repeat split.
  - cbn. repeat split.
Qed.

(** X4.  After a removal that went through, no pet is found under the
    removed id, every other pet is found exactly as before, and the
    pending flag is left as it was: a removal made offline is not
    remembered as pending. *)
Theorem deletePet_read_back (env : Env) (w : World) (id : string) :
  remoteCall env id = false
  \/ outcome env (length (gatewayLog w)) = Resolves None ->
  let w' := exec (PetStore.deletePet env id) w in
  eval (PetStore.deletePet env id) w = Val true
  /\ PetStore.getPetById id w' = None
  /\ (forall other, other <> id ->
        PetStore.getPetById other w' = PetStore.getPetById other w)
  /\ PetState.pendingChanges (petStore w') = PetState.pendingChanges (petStore w).
Proof.
  intros Hacc w'.
  destruct (deletePet_applied env id w Hacc) as (Hval & Hpets & Hpending).
  fold w' in Hpets, Hpending.
  split; [exact Hval |]. rewrite getPetById_findById, Hpets.
  split; [apply findById_remove_same |]. split; [| exact Hpending].
  intros other Hother. rewrite !getPetById_findById, Hpets.
  now apply findById_remove_other.
Qed.

Lemma deletePet_read_back_witness :
  (remoteCall Sample.envOffline "7d1c" = false
   \/ outcome Sample.envOffline (length (gatewayLog worldWithRexAndLocalTom))
      = Resolves None)
  /\ PetStore.getPetById "7d1c"
       (exec (PetStore.deletePet Sample.envOffline "7d1c") worldWithRexAndLocalTom)
     = None.
Proof.
  assert (H1 : remoteCall Sample.envOffline "7d1c" = false
               \/ outcome Sample.envOffline
                    (length (gatewayLog worldWithRexAndLocalTom)) = Resolves None)
    by (left; reflexivity).
  split; [exact H1 |].
  apply (deletePet_read_back Sample.envOffline worldWithRexAndLocalTom "7d1c" H1).
Defined.

(** X5.  An update of a pet with a server id that the gateway accepts
    switches the pending flag of the store off, whatever it was.  The
    pets that wait under a local id are still in the collection, but the
    next reconciliation pass, in any environment, returns at once and
    replays none of them. *)
Theorem accepted_update_hides_pending_pets
        (env : Env) (w : World) (id : string) (data : PartialPet.t) :
  remoteCall env id = true ->
  outcome env (length (gatewayLog w)) = Resolves None ->
  PartialPet.id data = None ->
  let w' := exec (PetStore.updatePet env id data) w in
  PetState.pendingChanges (petStore w') = false
  /\ localPets w' = localPets w
  /\ forall env', PetStore.syncToServer env' w' = (Val tt, w').
Proof.
  intros Hremote Hout Hid w'.
  destruct (updatePet_applied env id data w (or_intror Hout)) as (_ & Hpets & Hpending).
  fold w' in Hpets, Hpending.
  unfold remoteCall in Hremote.
  apply andb_true_iff in Hremote as [Hremote Hlocal].
  apply andb_true_iff in Hremote as [_ Hconf].
  apply negb_true_iff in Hlocal.
  assert (Hoff : PetState.pendingChanges (petStore w') = false)
    by (now rewrite Hpending, Hlocal, Hconf).
  split; [exact Hoff |]. split.
  - unfold localPets. rewrite Hpets. clear Hpets.
    induction (PetState.pets (petStore w)) as [| pet rest IH]; [reflexivity |].
    cbn. destruct (String.eqb_spec (Pet.id pet) id) as [Heq | Hne].
    + rewrite merge_keeps_id by assumption. rewrite Heq, Hlocal. exact IH.
    + destruct (isLocalId (Pet.id pet)); [f_equal |]; exact IH.
  - intros env'. now apply pet_sync_noop.
Qed.

Lemma accepted_update_hides_pending_pets_witness :
  remoteCall Sample.envOnline "7d1c" = true
  /\ outcome Sample.envOnline (length (gatewayLog worldWithRexAndLocalTom))
     = Resolves None
  /\ PartialPet.id renamed = None
  /\ PetState.pendingChanges (petStore worldWithRexAndLocalTom) = true
  /\ map Pet.id (localPets worldWithRexAndLocalTom) = ["local_1700000000001"]
  /\ PetState.pendingChanges
       (petStore (exec (PetStore.updatePet Sample.envOnline "7d1c" renamed)
                       worldWithRexAndLocalTom)) = false.
Proof.
  assert (H1 : remoteCall Sample.envOnline "7d1c" = true) by reflexivity.
  assert (H2 : outcome Sample.envOnline (length (gatewayLog worldWithRexAndLocalTom))
               = Resolves None) by reflexivity.
  assert (H3 : PartialPet.id renamed = None) by reflexivity.
  split; [exact H1 |]. split; [exact H2 |]. split; [exact H3 |].
  split; [reflexivity |]. split; [reflexivity |].
  exact (proj1 (accepted_update_hides_pending_pets Sample.envOnline
                  worldWithRexAndLocalTom "7d1c" renamed H1 H2 H3)).
Defined.

(** *** A pass in which every create succeeds *)

Lemma pet_syncOne_success env pet w row :
  outcome env (length (gatewayLog w)) = Resolves None ->
  petRow env (length (gatewayLog w)) = Some row ->
  PetStore.syncOne env pet w
  = (Val tt,
     with_petStore
       (PetStateSet.with_pets
          (replaceById Pet.id (Pet.id pet) (fun _ => PetStore.recordToPet row)
                       (PetState.pets (petStore w)))
          (petStore w))
       (with_gatewayLog (gatewayLog w ++ [petCreate pet]) w)).
Proof.
  intros Hout Hrow. unfold PetStore.syncOne. run_action.
  rewrite Hout. run_action. rewrite Hrow. reflexivity.
Qed.

Lemma replaceById_length {A : Type} (idOf : A -> string) id f (arr : list A) :
  length (replaceById idOf id f arr) = length arr.
Proof. unfold replaceById. apply length_map. Qed.

(** The loop over the waiting pets, when every create succeeds: the
    local ids that are left are ids of items still to come. *)
Lemma pet_loop_success env items :
  createsPets env ->
  Forall (fun pet => isLocalId (Pet.id pet) = true) items ->
  forall w,
    (forall q, In q (PetState.pets (petStore w)) -> isLocalId (Pet.id q) = true ->
               In (Pet.id q) (map Pet.id items)) ->
    let w' := exec (forEach items (PetStore.syncOne env)) w in
    (forall q, In q (PetState.pets (petStore w')) -> isLocalId (Pet.id q) = false)
    /\ length (PetState.pets (petStore w')) = length (PetState.pets (petStore w))
    /\ (forall q, In q (PetState.pets (petStore w)) -> isLocalId (Pet.id q) = false ->
                  In q (PetState.pets (petStore w'))).
Proof.
  intros Hall. induction items as [| pet rest IH]; intros Hlocal w Hcover.
  - cbn. repeat split; [| auto].
    intros q Hq. destruct (isLocalId (Pet.id q)) eqn:Hl; [| reflexivity].
    destruct (Hcover q Hq Hl).
  - apply Forall_cons_iff in Hlocal as [Hpet Hrest].
    cbn [forEach]. unfold exec, bind.
    destruct (Hall (length (gatewayLog w))) as (Hout & row & Hrow & Hremote).
    rewrite (pet_syncOne_success env pet w row Hout Hrow).
    match goal with
    | |- context [forEach rest _ ?x] => set (w1 := x)
    end.
    assert (Hpets1 : PetState.pets (petStore w1)
                     = replaceById Pet.id (Pet.id pet)
                         (fun _ => PetStore.recordToPet row)
                         (PetState.pets (petStore w))) by reflexivity.
    assert (Hcover1 : forall q, In q (PetState.pets (petStore w1)) ->
                        isLocalId (Pet.id q) = true ->
                        In (Pet.id q) (map Pet.id rest)).
    { intros q Hq Hl. rewrite Hpets1 in Hq. unfold replaceById in Hq.
      apply in_map_iff in Hq as (p & Hp & Hin).
      destruct (String.eqb_spec (Pet.id p) (Pet.id pet)) as [Heq | Hne].
      - subst q.
        change (Pet.id (PetStore.recordToPet row)) with (PetRecord.id row) in Hl.
        congruence.
      - subst q. destruct (Hcover p Hin Hl) as [Hhead | Htail];
          [congruence | exact Htail]. }
    destruct (IH Hrest w1 Hcover1) as (Hnone & Hlen & Hkept).
    unfold exec in Hnone, Hlen, Hkept.
    split; [exact Hnone |]. split.
    + rewrite Hlen, Hpets1. apply replaceById_length.
    + intros q Hq Hl. apply Hkept; [| exact Hl].
      rewrite Hpets1. unfold replaceById. apply in_map_iff. exists q.
      split; [| exact Hq].
      destruct (String.eqb_spec (Pet.id q) (Pet.id pet)) as [Heq | Hne];
        [| reflexivity].
      rewrite Heq in Hl. congruence.
Qed.

(** X6.  A reconciliation pass in which every create is accepted and
    answered with a row under a server id leaves no pet under a local
    id, keeps the number of pets, keeps every pet that already had a
    server id, switches the pending flag off and has sent one create per
    waiting pet, in the order of the collection. *)
Theorem sync_success_leaves_no_local_pet (env : Env) (w : World) :
  user env = true -> isSupabaseConfigured env = true -> createsPets env ->
  PetState.pendingChanges (petStore w) = true ->
  let w' := exec (PetStore.syncToServer env) w in
  localPets w' = []
  /\ length (PetState.pets (petStore w')) = length (PetState.pets (petStore w))
  /\ (forall q, In q (PetState.pets (petStore w)) -> isLocalId (Pet.id q) = false ->
                In q (PetState.pets (petStore w')))
  /\ PetState.pendingChanges (petStore w') = false
  /\ gatewayLog w' = (gatewayLog w ++ map petCreate (localPets w))%list.
Proof.
  intros Hu Hc Hall Hp w'.
  assert (Hnr : neverRejects env).
  { intros k. destruct (Hall k) as (Hout & _). now exists None. }
  destruct (pet_sync_completed env w Hu Hc Hnr Hp) as (_ & Hlog & Hoff & _).
  fold w' in Hlog, Hoff.
  assert (Hloop :
    (forall q, In q (PetState.pets (petStore w')) -> isLocalId (Pet.id q) = false)
    /\ length (PetState.pets (petStore w')) = length (PetState.pets (petStore w))
    /\ (forall q, In q (PetState.pets (petStore w)) -> isLocalId (Pet.id q) = false ->
                  In q (PetState.pets (petStore w')))).
  { subst w'. unfold PetStore.syncToServer. run_action.
    rewrite Hp, Hu, Hc. run_action. fold (localPets w).
    match goal with
    | |- context [forEach _ _ ?x] => set (w0 := x)
    end.
    assert (Hitems : Forall (fun pet => isLocalId (Pet.id pet) = true) (localPets w)).
    { apply Forall_forall. intros pet Hin. unfold localPets in Hin.
      now apply filter_In in Hin. }
    assert (Hcover : forall q, In q (PetState.pets (petStore w0)) ->
                       isLocalId (Pet.id q) = true ->
                       In (Pet.id q) (map Pet.id (localPets w))).
    { intros q Hq Hl. apply in_map. unfold localPets. apply filter_In.
      split; [exact Hq | exact Hl]. }
    pose proof (pet_loop_success env (localPets w) Hall Hitems w0 Hcover) as Hloop.
    pose proof (pet_loop env (localPets w) Hnr w0) as (Hv & _).
    unfold exec, eval in Hloop, Hv.
    destruct (forEach (localPets w) (PetStore.syncOne env) w0) as [r w1].
    cbn in Hv. subst r. cbn. exact Hloop. }
  destruct Hloop as (Hnone & Hlen & Hkept).
  split; [| repeat split; assumption].
  unfold localPets. apply filter_none. exact Hnone.
Qed.

Lemma envOnline_createsPets : createsPets Sample.envOnline.
Proof.
  intros k. split; [reflexivity |]. exists (Sample.serverPet k).
  split; reflexivity.
Qed.

Lemma sync_success_leaves_no_local_pet_witness :
  user Sample.envOnline = true
  /\ isSupabaseConfigured Sample.envOnline = true
  /\ createsPets Sample.envOnline
  /\ PetState.pendingChanges (petStore worldWithRexAndLocalTom) = true
  /\ localPets (exec (PetStore.syncToServer Sample.envOnline) worldWithRexAndLocalTom)
     = [].
Proof.
  assert (H1 : user Sample.envOnline = true) by reflexivity.
  assert (H2 : isSupabaseConfigured Sample.envOnline = true) by reflexivity.
  assert (H3 : createsPets Sample.envOnline) by exact envOnline_createsPets.
  assert (H4 : PetState.pendingChanges (petStore worldWithRexAndLocalTom) = true)
    by reflexivity.
  split; [exact H1 |]. split; [exact H2 |]. split; [exact H3 |].
  split; [exact H4 |].
  exact (proj1 (sync_success_leaves_no_local_pet Sample.envOnline
                  worldWithRexAndLocalTom H1 H2 H3 H4)).
Defined.

(** X7.  [fetchPets] never throws.  Signed in with Supabase configured,
    when the list comes back without an error it replaces the whole
    collection by the pets made of the rows, so that the pets that wait
    under a local id are dropped, and it switches the pending flag off;
    in every other case (offline, an error in the result, no rows, a
    rejected call) the collection and the flag are left as they were. *)
Theorem fetchPets_replaces_or_keeps
        (env : Env) (reply : ListOutcome PetRecord.t) (w : World) :
  let w' := exec (PetStoreLoad.fetchPets env reply) w in
  eval (PetStoreLoad.fetchPets env reply) w = Val tt
  /\ PetState.loading (petStore w') = false
  /\ match user env && isSupabaseConfigured env, reply with
     | true, ListResolves (Some rows) None =>
         PetState.pets (petStore w') = map PetStore.recordToPet rows
         /\ PetState.pendingChanges (petStore w') = false
         /\ PetState.lastSyncedAt (petStore w') = Some (nowISO env)
     | _, _ =>
         PetState.pets (petStore w') = PetState.pets (petStore w)
         /\ PetState.pendingChanges (petStore w') = PetState.pendingChanges (petStore w)
         /\ PetState.lastSyncedAt (petStore w') = PetState.lastSyncedAt (petStore w)
     end.
Proof.
  unfold PetStoreLoad.fetchPets, fetchAll. run_action.
  destruct (user env && isSupabaseConfigured env); run_action;
    [| cbn; repeat split].
  destruct reply as [[rows |] [msg |] | thrown]; run_action; cbn; repeat split.
Qed.

(** ** The appointment store *)

Lemma getAppointmentById_findById id w :
  AppointmentStoreSync.getAppointmentById id w
  = findById Appointment.id id (AppointmentState.appointments (appointmentStore w)).
Proof. reflexivity. Qed.

Lemma updateAppointment_applied env id data w :
  accepted env id w ->
  let w' := exec (AppointmentStore.updateAppointment env id data) w in
  eval (AppointmentStore.updateAppointment env id data) w = Val true
  /\ AppointmentState.appointments (appointmentStore w')
     = replaceById Appointment.id id
         (fun apt => AppointmentStore.merge apt data (nowISO env))
         (AppointmentState.appointments (appointmentStore w))
  /\ AppointmentState.pendingChanges (appointmentStore w')
     = isLocalId id || negb (isSupabaseConfigured env).
Proof.
  intros H. unfold AppointmentStore.updateAppointment. run_action.
  fold (remoteCall env id).
  destruct (remoteCall env id) eqn:Hremote; run_action.
  - destruct H as [H | H]; [congruence |]. rewrite H. cbn. repeat split.
  - cbn. repeat split.
Qed.

Lemma deleteAppointment_applied env id w :
  accepted env id w ->
  let w' := exec (AppointmentStore.deleteAppointment env id) w in
  eval (AppointmentStore.deleteAppointment env id) w = Val true
  /\ AppointmentState.appointments (appointmentStore w')
     = removeById Appointment.id id
         (AppointmentState.appointments (appointmentStore w)).
Proof.
  intros H. unfold AppointmentStore.deleteAppointment. run_action.
  fold (remoteCall env id).
  destruct (remoteCall env id) eqn:Hremote; run_action.
  - destruct H as [H | H]; [congruence |]. rewrite H. cbn. repeat split.
  - cbn. repeat split.
Qed.

(** X8.  [markAsCompleted], when the gateway is not asked or accepts,
    answers [true]; the appointment read back under the id is the one
    that was there with [isCompleted] set and nothing else changed but
    the stamp; every other id reads as before, and each pet keeps the
    same appointments. *)
Theorem markAsCompleted_read_back (env : Env) (id : string) (w : World) :
  accepted env id w ->
  let w' := exec (AppointmentStore.markAsCompleted env id) w in
  eval (AppointmentStore.markAsCompleted env id) w = Val true
  /\ AppointmentStoreSync.getAppointmentById id w'
     = option_map (fun apt => AppointmentStore.merge apt completed (nowISO env))
                  (AppointmentStoreSync.getAppointmentById id w)
  /\ (forall apt, AppointmentStoreSync.getAppointmentById id w' = Some apt ->
                  Appointment.isCompleted apt = Some true)
  /\ (forall other, other <> id ->
        AppointmentStoreSync.getAppointmentById other w'
        = AppointmentStoreSync.getAppointmentById other w)
  /\ (forall petId,
        map Appointment.id (AppointmentStore.getAppointmentsByPetId petId w')
        = map Appointment.id (AppointmentStore.getAppointmentsByPetId petId w)).
Proof.
  intros Hacc w'.
  destruct (updateAppointment_applied env id completed w Hacc) as (Hv & Happ & _).
  change (AppointmentStore.updateAppointment env id completed)
    with (AppointmentStore.markAsCompleted env id) in Hv, Happ.
  fold w' in Happ.
  assert (Hkeep : forall x, Appointment.id x = id ->
                    Appointment.id (AppointmentStore.merge x completed (nowISO env)) = id)
    by (intros x Hx; exact Hx).
  assert (Hread : AppointmentStoreSync.getAppointmentById id w'
                  = option_map (fun apt => AppointmentStore.merge apt completed (nowISO env))
                               (AppointmentStoreSync.getAppointmentById id w)).
  { rewrite !getAppointmentById_findById, Happ.
    now apply findById_replace_same. }
  split; [exact Hv |]. split; [exact Hread |]. split; [| split].
  - intros apt Hfound. rewrite Hread in Hfound.
    destruct (AppointmentStoreSync.getAppointmentById id w); [| discriminate].
    injection Hfound as <-. reflexivity.
  - intros other Hother. rewrite !getAppointmentById_findById, Happ.
    now apply findById_replace_other.
  - intros petId. unfold AppointmentStore.getAppointmentsByPetId.
    rewrite Happ. clear Happ Hread. unfold replaceById.
    induction (AppointmentState.appointments (appointmentStore w)) as [| a rest IH];
      [reflexivity |].
    cbn [map filter].
    assert (Hsame :
      Appointment.petId (if String.eqb (Appointment.id a) id
                         then AppointmentStore.merge a completed (nowISO env) else a)
      = Appointment.petId a
      /\ Appointment.id (if String.eqb (Appointment.id a) id
                         then AppointmentStore.merge a completed (nowISO env) else a)
         = Appointment.id a)
      by (destruct (String.eqb (Appointment.id a) id); split; reflexivity).
    destruct Hsame as [Hpet Hident]. rewrite Hpet.
    destruct (String.eqb (Appointment.petId a) petId); cbn [map];
      [rewrite Hident; f_equal |]; exact IH.
Qed.

Lemma markAsCompleted_read_back_witness :
  accepted Sample.envOffline "local_1700000000005" worldWithLocalCheckup
  /\ option_map Appointment.isCompleted
       (AppointmentStoreSync.getAppointmentById "local_1700000000005"
          worldWithLocalCheckup) = Some (Some false)
  /\ option_map Appointment.isCompleted
       (AppointmentStoreSync.getAppointmentById "local_1700000000005"
          (exec (AppointmentStore.markAsCompleted Sample.envOffline
                   "local_1700000000005") worldWithLocalCheckup))
     = Some (Some true).
Proof.
  assert (H : accepted Sample.envOffline "local_1700000000005" worldWithLocalCheckup)
    by (left; reflexivity).
  split; [exact H |]. split; [reflexivity |].
  rewrite (proj1 (proj2 (markAsCompleted_read_back Sample.envOffline
                           "local_1700000000005" worldWithLocalCheckup H))).
  reflexivity.
Defined.

(** X9.  [deleteAppointment], when the gateway is not asked or accepts,
    answers [true]; the appointment is no longer found under its id,
    every other id reads as before, and the list of each pet is the one
    it had without that appointment. *)
Theorem deleteAppointment_read_back (env : Env) (id : string) (w : World) :
  accepted env id w ->
  let w' := exec (AppointmentStore.deleteAppointment env id) w in
  eval (AppointmentStore.deleteAppointment env id) w = Val true
  /\ AppointmentStoreSync.getAppointmentById id w' = None
  /\ (forall other, other <> id ->
        AppointmentStoreSync.getAppointmentById other w'
        = AppointmentStoreSync.getAppointmentById other w)
  /\ (forall petId,
        AppointmentStore.getAppointmentsByPetId petId w'
        = removeById Appointment.id id
            (AppointmentStore.getAppointmentsByPetId petId w)).
Proof.
  intros Hacc w'.
  destruct (deleteAppointment_applied env id w Hacc) as (Hv & Happ).
  fold w' in Happ. split; [exact Hv |]. split; [| split].
  - rewrite getAppointmentById_findById, Happ. apply findById_remove_same.
  - intros other Hother. rewrite !getAppointmentById_findById, Happ.
    now apply findById_remove_other.
  - intros petId. unfold AppointmentStore.getAppointmentsByPetId.
    rewrite Happ. unfold removeById. rewrite !filter_twice.
    apply filter_ext. intros a. apply andb_comm.
Qed.

Lemma deleteAppointment_read_back_witness :
  accepted Sample.envOffline "local_1700000000005" worldWithLocalCheckup
  /\ AppointmentStoreSync.getAppointmentById "local_1700000000005"
       worldWithLocalCheckup = Some Sample2.localCheckup
  /\ AppointmentStoreSync.getAppointmentById "local_1700000000005"
       (exec (AppointmentStore.deleteAppointment Sample.envOffline
                "local_1700000000005") worldWithLocalCheckup) = None.
Proof.
  assert (H : accepted Sample.envOffline "local_1700000000005" worldWithLocalCheckup)
    by (left; reflexivity).
  split; [exact H |]. split; [reflexivity |].
  exact (proj1 (proj2 (deleteAppointment_read_back Sample.envOffline
                         "local_1700000000005" worldWithLocalCheckup H))).
Defined.

(** *** Reconciling the appointments *)

Lemma apt_syncOne_cases env rows apt w :
  let k := length (gatewayLog w) in
  let w1 := with_gatewayLog (gatewayLog w ++ [appointmentCreate apt]) w in
  AppointmentStoreSync.syncOne env rows apt w
  = match outcome env k with
    | Rejects e => (Exn e, w1)
    | Resolves (Some _) => (Val tt, w1)
    | Resolves None =>
        match rows k with
        | None => (Val tt, w1)
        | Some d =>
            (Val tt,
             with_appointmentStore
               (AppointmentStateSet.with_appointments
                  (replaceById Appointment.id (Appointment.id apt)
                     (fun _ => AppointmentStoreSync.recordToAppointment d)
                     (AppointmentState.appointments (appointmentStore w)))
                  (appointmentStore w))
               w1)
        end
    end.
Proof.
  unfold AppointmentStoreSync.syncOne. run_action.
  destruct (outcome env (length (gatewayLog w))) as [[msg |] | thrown]; cbn;
    try reflexivity.
  destruct (rows (length (gatewayLog w))); reflexivity.
Qed.

(** What the loop keeps, whatever the gateway does: the flags of the
    store, the number of appointments, and the appointments that carry
    a server id. *)
Lemma apt_loop_keeps env rows items :
  Forall (fun apt => isLocalId (Appointment.id apt) = true) items ->
  forall w,
    let w' := exec (forEach items (AppointmentStoreSync.syncOne env rows)) w in
    length (AppointmentState.appointments (appointmentStore w'))
    = length (AppointmentState.appointments (appointmentStore w))
    /\ (forall q, In q (AppointmentState.appointments (appointmentStore w)) ->
                  isLocalId (Appointment.id q) = false ->
                  In q (AppointmentState.appointments (appointmentStore w')))
    /\ (exists n, gatewayLog w'
                  = (gatewayLog w ++ firstn n (map appointmentCreate items))%list)
    /\ AppointmentState.pendingChanges (appointmentStore w')
       = AppointmentState.pendingChanges (appointmentStore w)
    /\ AppointmentState.error (appointmentStore w')
       = AppointmentState.error (appointmentStore w).
Proof.
  induction items as [| apt rest IH]; intros Hlocal w.
  - cbn. repeat split; [auto |]. exists 0. cbn. now rewrite app_nil_r.
  - apply Forall_cons_iff in Hlocal as [Hapt Hrest].
    cbn [forEach]. unfold exec, bind.
    rewrite apt_syncOne_cases.
    destruct (outcome env (length (gatewayLog w))) as [[msg |] | thrown].
    + specialize (IH Hrest
        (with_gatewayLog (gatewayLog w ++ [appointmentCreate apt]) w)).
      unfold exec in IH. destruct IH as (Hlen & Hkept & [n Hn] & Hp & He).
      split; [exact Hlen |]. split; [exact Hkept |].
      split; [| split; assumption].
      exists (S n). rewrite Hn. cbn. now rewrite <- app_assoc.
    + destruct (rows (length (gatewayLog w))) as [d |].
      * match goal with
        | |- context [forEach rest _ ?x] => set (w1 := x)
        end.
        specialize (IH Hrest w1).
        unfold exec in IH. destruct IH as (Hlen & Hkept & [n Hn] & Hp & He).
        split; [| split; [| split; [| split; assumption]]].
        -- rewrite Hlen. subst w1. cbn. apply length_map.
        -- intros q Hq Hl. apply Hkept; [| exact Hl].
           subst w1. cbn. unfold replaceById. apply in_map_iff. exists q.
           split; [| exact Hq].
           destruct (String.eqb_spec (Appointment.id q) (Appointment.id apt))
             as [Heq | Hne]; [| reflexivity].
           rewrite Heq in Hl. congruence.
        -- exists (S n). rewrite Hn. subst w1. cbn. now rewrite <- app_assoc.
      * specialize (IH Hrest
          (with_gatewayLog (gatewayLog w ++ [appointmentCreate apt]) w)).
        unfold exec in IH. destruct IH as (Hlen & Hkept & [n Hn] & Hp & He).
        split; [exact Hlen |]. split; [exact Hkept |].
        split; [| split; assumption].
        exists (S n). rewrite Hn. cbn. now rewrite <- app_assoc.
    + cbn. repeat split; [auto |]. exists 1. reflexivity.
Qed.

Lemma localAppointments_local w :
  Forall (fun apt => isLocalId (Appointment.id apt) = true) (localAppointments w).
Proof.
  apply Forall_forall. intros apt Hin. unfold localAppointments in Hin.
  now apply filter_In in Hin.
Qed.

(** X10.  Whatever the gateway does (errors, missing rows, a rejected
    call), reconciling the appointments never throws, never changes the
    number of appointments, never drops or changes an appointment that
    carries a server id, and sends nothing but creates that replay, in
    order, appointments that carried a local id when it started. *)
Theorem appointment_sync_loses_nothing
        (env : Env) (rows : nat -> option AppointmentRecord.t) (w : World) :
  let w' := exec (AppointmentStoreSync.syncToServer env rows) w in
  eval (AppointmentStoreSync.syncToServer env rows) w = Val tt
  /\ length (AppointmentState.appointments (appointmentStore w'))
     = length (AppointmentState.appointments (appointmentStore w))
  /\ (forall q, In q (AppointmentState.appointments (appointmentStore w)) ->
                isLocalId (Appointment.id q) = false ->
                In q (AppointmentState.appointments (appointmentStore w')))
  /\ exists n, gatewayLog w'
               = (gatewayLog w
                    ++ firstn n (map appointmentCreate (localAppointments w)))%list.
Proof.
  unfold AppointmentStoreSync.syncToServer, AppointmentStoreSync.get. run_action.
  destruct (AppointmentState.pendingChanges (appointmentStore w)); cbn [negb];
    [| cbn; repeat split; [auto |]; exists 0; cbn; now rewrite app_nil_r].
  destruct (negb (user env) || negb (isSupabaseConfigured env));
    [cbn; repeat split; [auto |]; exists 0; cbn; now rewrite app_nil_r |].
  run_action. fold (localAppointments w).
  match goal with
  | |- context [forEach _ _ ?x] => set (w0 := x)
  end.
  pose proof (apt_loop_keeps env rows (localAppointments w)
                (localAppointments_local w) w0) as (Hlen & Hkept & [n Hn] & _).
  unfold exec in Hlen, Hkept, Hn.
  destruct (forEach (localAppointments w) (AppointmentStoreSync.syncOne env rows) w0)
    as [[[] | thrown] w1]; cbn in Hlen, Hkept, Hn |- *;
    (split; [reflexivity |]; split; [exact Hlen |]; split; [exact Hkept |];
     exists n; exact Hn).
Qed.

(** The loop when every create succeeds. *)
Lemma apt_loop_success env rows items :
  createsAppointments env rows ->
  forall w,
    (forall q, In q (AppointmentState.appointments (appointmentStore w)) ->
               isLocalId (Appointment.id q) = true ->
               In (Appointment.id q) (map Appointment.id items)) ->
    let w' := exec (forEach items (AppointmentStoreSync.syncOne env rows)) w in
    eval (forEach items (AppointmentStoreSync.syncOne env rows)) w = Val tt
    /\ (forall q, In q (AppointmentState.appointments (appointmentStore w')) ->
                  isLocalId (Appointment.id q) = false)
    /\ gatewayLog w' = (gatewayLog w ++ map appointmentCreate items)%list.
Proof.
  intros Hall. induction items as [| apt rest IH]; intros w Hcover.
  - cbn. rewrite app_nil_r. repeat split.
    intros q Hq. destruct (isLocalId (Appointment.id q)) eqn:Hl; [| reflexivity].
    destruct (Hcover q Hq Hl).
  - cbn [forEach]. unfold exec, eval, bind.
    rewrite apt_syncOne_cases.
    destruct (Hall (length (gatewayLog w))) as (Hout & d & Hrow & Hremote).
    rewrite Hout, Hrow.
    match goal with
    | |- context [forEach rest _ ?x] => set (w1 := x)
    end.
    assert (Hcover1 :
      forall q, In q (AppointmentState.appointments (appointmentStore w1)) ->
                isLocalId (Appointment.id q) = true ->
                In (Appointment.id q) (map Appointment.id rest)).
    { intros q Hq Hl. subst w1. cbn in Hq. unfold replaceById in Hq.
      apply in_map_iff in Hq as (p & Hp & Hin).
      destruct (String.eqb_spec (Appointment.id p) (Appointment.id apt)) as [Heq | Hne].
      - subst q.
        change (Appointment.id (AppointmentStoreSync.recordToAppointment d))
          with (AppointmentRecord.id d) in Hl.
        congruence.
      - subst q. destruct (Hcover p Hin Hl) as [Hhead | Htail];
          [congruence | exact Htail]. }
    destruct (IH w1 Hcover1) as (Hv & Hnone & Hlog).
    unfold exec, eval in Hv, Hnone, Hlog.
    split; [exact Hv |]. split; [exact Hnone |].
    rewrite Hlog. subst w1. cbn. now rewrite <- app_assoc.
Qed.

(** X11.  A reconciliation of the appointments in which every create is
    accepted and answered with a row under a server id leaves no
    appointment under a local id, has sent one create per waiting
    appointment in the order of the collection, and switches the
    pending flag off, so that a second pass sends nothing. *)
Theorem appointment_sync_success
        (env : Env) (rows : nat -> option AppointmentRecord.t) (w : World) :
  user env = true -> isSupabaseConfigured env = true ->
  createsAppointments env rows ->
  AppointmentState.pendingChanges (appointmentStore w) = true ->
  let w' := exec (AppointmentStoreSync.syncToServer env rows) w in
  localAppointments w' = []
  /\ gatewayLog w' = (gatewayLog w ++ map appointmentCreate (localAppointments w))%list
  /\ AppointmentState.pendingChanges (appointmentStore w') = false
  /\ AppointmentState.lastSyncedAt (appointmentStore w') = Some (nowISO env)
  /\ forall env' rows', AppointmentStoreSync.syncToServer env' rows' w' = (Val tt, w').
Proof.
  intros Hu Hc Hall Hp w'.
  assert (Hrun :
    (forall q, In q (AppointmentState.appointments (appointmentStore w')) ->
               isLocalId (Appointment.id q) = false)
    /\ gatewayLog w' = (gatewayLog w ++ map appointmentCreate (localAppointments w))%list
    /\ AppointmentState.pendingChanges (appointmentStore w') = false
    /\ AppointmentState.lastSyncedAt (appointmentStore w') = Some (nowISO env)).
  { subst w'. unfold AppointmentStoreSync.syncToServer, AppointmentStoreSync.get.
    run_action. rewrite Hp, Hu, Hc. run_action. fold (localAppointments w).
    match goal with
    | |- context [forEach _ _ ?x] => set (w0 := x)
    end.
    assert (Hcover :
      forall q, In q (AppointmentState.appointments (appointmentStore w0)) ->
                isLocalId (Appointment.id q) = true ->
                In (Appointment.id q) (map Appointment.id (localAppointments w))).
    { intros q Hq Hl. apply in_map. unfold localAppointments. apply filter_In.
      split; [exact Hq | exact Hl]. }
    pose proof (apt_loop_success env rows (localAppointments w) Hall w0 Hcover)
      as (Hv & Hnone & Hlog).
    unfold exec, eval in Hv, Hnone, Hlog.
    destruct (forEach (localAppointments w) (AppointmentStoreSync.syncOne env rows) w0)
      as [r w1].
    cbn in Hv, Hnone, Hlog. subst r. cbn. rewrite Hlog. repeat split.
    exact Hnone. }
  destruct Hrun as (Hnone & Hlog & Hoff & Hstamp).
  split; [unfold localAppointments; apply filter_none; exact Hnone |].
  split; [exact Hlog |]. split; [exact Hoff |]. split; [exact Hstamp |].
  intros env' rows'.
  unfold AppointmentStoreSync.syncToServer, AppointmentStoreSync.get. run_action.
  rewrite Hoff. reflexivity.
Qed.

Lemma serverAppointment_creates :
  createsAppointments Sample.envOnline (fun k => Some (Sample2.serverAppointment k)).
Proof.
  intros k. split; [reflexivity |]. exists (Sample2.serverAppointment k).
  split; reflexivity.
Qed.

Lemma appointment_sync_success_witness :
  user Sample.envOnline = true
  /\ isSupabaseConfigured Sample.envOnline = true
  /\ createsAppointments Sample.envOnline (fun k => Some (Sample2.serverAppointment k))
  /\ AppointmentState.pendingChanges (appointmentStore worldWithLocalCheckup) = true
  /\ map Appointment.id (localAppointments worldWithLocalCheckup)
     = ["local_1700000000005"]
  /\ localAppointments
       (exec (AppointmentStoreSync.syncToServer Sample.envOnline
                (fun k => Some (Sample2.serverAppointment k)))
             worldWithLocalCheckup) = [].
Proof.
  assert (H1 : user Sample.envOnline = true) by reflexivity.
  assert (H2 : isSupabaseConfigured Sample.envOnline = true) by reflexivity.
  assert (H3 : createsAppointments Sample.envOnline
                 (fun k => Some (Sample2.serverAppointment k)))
    by exact serverAppointment_creates.
  assert (H4 : AppointmentState.pendingChanges (appointmentStore worldWithLocalCheckup)
               = true) by reflexivity.
  split; [exact H1 |]. split; [exact H2 |]. split; [exact H3 |].
  split; [exact H4 |]. split; [reflexivity |].
  exact (proj1 (appointment_sync_success Sample.envOnline
                  (fun k => Some (Sample2.serverAppointment k))
                  worldWithLocalCheckup H1 H2 H3 H4)).
Defined.

(** X12.  [fetchAppointments] never throws.  Signed in with Supabase
    configured, when the list comes back without an error it replaces
    the whole collection by the appointments made of the rows and
    switches the pending flag off; in every other case the collection
    and the flag are left as they were.  Only a rejected call records an
    error message. *)
Theorem fetchAppointments_replaces_or_keeps
        (env : Env) (reply : ListOutcome AppointmentRecord.t) (w : World) :
  let w' := exec (AppointmentStoreSync.fetchAppointments env reply) w in
  eval (AppointmentStoreSync.fetchAppointments env reply) w = Val tt
  /\ AppointmentState.loading (appointmentStore w') = false
  /\ match user env && isSupabaseConfigured env, reply with
     | true, ListResolves (Some rows) None =>
         AppointmentState.appointments (appointmentStore w')
         = map AppointmentStoreSync.recordToAppointment rows
         /\ AppointmentState.pendingChanges (appointmentStore w') = false
         /\ AppointmentState.error (appointmentStore w') = None
     | true, ListRejects e =>
         AppointmentState.appointments (appointmentStore w')
         = AppointmentState.appointments (appointmentStore w)
         /\ AppointmentState.pendingChanges (appointmentStore w')
            = AppointmentState.pendingChanges (appointmentStore w)
         /\ AppointmentState.error (appointmentStore w')
            = Some (Js.messageOr e "Failed to load appointments")
     | _, _ =>
         AppointmentState.appointments (appointmentStore w')
         = AppointmentState.appointments (appointmentStore w)
         /\ AppointmentState.pendingChanges (appointmentStore w')
            = AppointmentState.pendingChanges (appointmentStore w)
         /\ AppointmentState.error (appointmentStore w') = None
     end.
Proof.
  unfold AppointmentStoreSync.fetchAppointments, fetchAll. run_action.
  destruct (user env && isSupabaseConfigured env); run_action;
    [| cbn; repeat split].
  destruct reply as [[rows |] [msg |] | thrown]; run_action; cbn; repeat split.
Qed.

(** ** The scheduler of the reminders *)

Section SchedulerExtras.

Import Notifications NotificationService.

Lemma schedulerOk_filter (keep : NotificationRequest -> bool) w :
  schedulerOk w -> schedulerOk (with_scheduled (filter keep (scheduled w)) w).
Proof.
  intros [Hnd Hlt]. split.
  - destruct w; cbn in *. now apply identifiers_after_filter.
  - destruct w; cbn in *. rewrite Forall_forall in Hlt |- *.
    intros n Hn. apply filter_In in Hn as [Hn _]. now apply Hlt.
Qed.

Lemma with_scheduled_same w : with_scheduled (scheduled w) w = w.
Proof. destruct w; reflexivity. Qed.

Lemma othersOf_afterCancel reminderId table :
  NoDup (map identifier table) ->
  afterCancel reminderId table = othersOf reminderId table.
Proof. apply afterCancel_filter. Qed.

Lemma schedulerOk_worldWithReminder : schedulerOk worldWithReminder.
Proof.
  split; vm_compute.
  - repeat constructor; cbn; intuition discriminate.
  - repeat constructor.
Qed.

(** The table once the requests of a reminder are cancelled. *)
Lemma afterCancel_exact reminderId w :
  schedulerOk w ->
  let w' := with_scheduled (afterCancel reminderId (scheduled w)) w in
  scheduled w' = othersOf reminderId (scheduled w)
  /\ triggersOf reminderId w' = []
  /\ (forall other, other <> reminderId -> triggersOf other w' = triggersOf other w)
  /\ schedulerOk w'.
Proof.
  intros Hok w'. subst w'.
  assert (Hnd : NoDup (map identifier (scheduled w))) by apply Hok.
  rewrite (othersOf_afterCancel reminderId _ Hnd).
  assert (Hsched : scheduled (with_scheduled (othersOf reminderId (scheduled w)) w)
                   = othersOf reminderId (scheduled w))
    by (destruct w; reflexivity).
  split; [exact Hsched |]. split; [| split].
  - unfold triggersOf. rewrite Hsched.
    rewrite <- (othersOf_afterCancel reminderId _ Hnd), afterCancel_none.
    reflexivity.
  - intros other Hother. unfold triggersOf. rewrite Hsched.
    unfold othersOf. rewrite filter_twice. f_equal. apply filter_ext_in.
    intros n _. destruct (isFor reminderId n) eqn:Hfor; [| reflexivity].
    destruct (isFor other n) eqn:Hother'; [| reflexivity].
    exfalso. apply Hother. exact (isFor_unique _ _ _ Hother' Hfor).
  - now apply schedulerOk_filter.
Qed.

(** X13.  [cancelPetReminder] takes the requests of the reminder out of
    the table and no other request; the scheduler stays well formed,
    and cancelling a second time changes nothing. *)
Theorem cancelPetReminder_removes_exactly (reminderId : string) (w : World) :
  schedulerOk w ->
  let w' := exec (cancelPetReminder reminderId) w in
  eval (cancelPetReminder reminderId) w = Val tt
  /\ scheduled w' = othersOf reminderId (scheduled w)
  /\ triggersOf reminderId w' = []
  /\ (forall other, other <> reminderId -> triggersOf other w' = triggersOf other w)
  /\ schedulerOk w'
  /\ exec (cancelPetReminder reminderId) w' = w'.
Proof.
  intros Hok w'. subst w'. unfold exec, eval.
  rewrite cancelPetReminder_run. cbn [fst snd].
  destruct (afterCancel_exact reminderId w Hok) as (Hsched & Hnone & Hothers & Hok').
  split; [reflexivity |]. split; [exact Hsched |]. split; [exact Hnone |].
  split; [exact Hothers |]. split; [exact Hok' |].
  rewrite cancelPetReminder_run. cbn [snd].
  rewrite afterCancel_absent.
  - apply with_scheduled_same.
  - rewrite Hsched.
    assert (Hnd : NoDup (map identifier (scheduled w))) by apply Hok.
    rewrite <- (othersOf_afterCancel reminderId _ Hnd). apply afterCancel_none.
Qed.

Lemma cancelPetReminder_removes_exactly_witness :
  schedulerOk worldWithReminder
  /\ length (scheduled worldWithReminder) = 5
  /\ scheduled (exec (cancelPetReminder "local_1700000000000") worldWithReminder)
     = othersOf "local_1700000000000" (scheduled worldWithReminder).
Proof.
  split; [exact schedulerOk_worldWithReminder |]. split; [reflexivity |].
  exact (proj1 (proj2 (cancelPetReminder_removes_exactly "local_1700000000000"
                         worldWithReminder schedulerOk_worldWithReminder))).
Defined.

(** The run of [schedulePetReminder] with the identifiers it returns. *)
Lemma schedulePetReminder_returns env reminder w :
  schedulePetReminder env reminder w
  = (Val (seq (issued w) (length (liveDays reminder))),
     afterSchedule env reminder w).
Proof.
  unfold schedulePetReminder, liveDays, afterSchedule. unfold bind at 1.
  rewrite cancelPetReminder_run. unfold liveDays.
  destruct (PetReminder.enabled reminder); simpl.
  - destruct (PetReminder.daysOfWeek reminder) as [| d rest] eqn:Hdays.
    + simpl. unfold ret. rewrite app_nil_r, Nat.add_0_r.
      destruct w; reflexivity.
    + cbn [length Nat.eqb]. rewrite scheduleDays_run.
      destruct w; reflexivity.
  - unfold ret. rewrite app_nil_r, Nat.add_0_r. destruct w; reflexivity.
Qed.

(** X14.  [schedulePetReminder] returns the identifiers of the requests
    it registers, one per day of an enabled reminder and none
    otherwise, none of them in use before.  Afterwards the triggers of
    the reminder are exactly its days at its time, whatever was
    registered for it before, so that scheduling again never doubles
    them; the requests of everything else are untouched. *)
Theorem schedulePetReminder_replaces_triggers
        (env : Env) (reminder : PetReminder.t) (w : World) :
  schedulerOk w ->
  let w' := exec (schedulePetReminder env reminder) w in
  eval (schedulePetReminder env reminder) w
  = Val (map identifier (filter (isFor (PetReminder.id reminder)) (scheduled w')))
  /\ triggersOf (PetReminder.id reminder) w'
     = map (reminderTrigger env reminder) (liveDays reminder)
  /\ othersOf (PetReminder.id reminder) (scheduled w')
     = othersOf (PetReminder.id reminder) (scheduled w)
  /\ (forall n, In n (scheduled w) ->
        ~ In (identifier n)
             (map identifier
                  (filter (isFor (PetReminder.id reminder)) (scheduled w'))))
  /\ schedulerOk w'
  /\ triggersOf (PetReminder.id reminder)
                (exec (schedulePetReminder env reminder) w')
     = triggersOf (PetReminder.id reminder) w'.
Proof.
  intros Hok w'. subst w'. unfold exec, eval.
  rewrite !schedulePetReminder_returns. cbn [fst snd].
  pose proof (afterSchedule_own env reminder w) as Hown.
  assert (Htrig : forall u, triggersOf (PetReminder.id reminder)
                              (afterSchedule env reminder u)
                            = map (reminderTrigger env reminder) (liveDays reminder)).
  { intros u. unfold triggersOf. rewrite afterSchedule_own.
    apply newRequests_triggers. }
  split; [| split; [| split; [| split; [| split]]]].
  - rewrite Hown, newRequests_identifiers. reflexivity.
  - apply Htrig.
  - assert (Hnd : NoDup (map identifier (scheduled w))) by apply Hok.
    replace (scheduled (afterSchedule env reminder w))
      with (afterCancel (PetReminder.id reminder) (scheduled w)
              ++ newRequests env reminder (issued w) (liveDays reminder))%list
      by (destruct w; reflexivity).
    unfold othersOf at 1. rewrite filter_app.
    rewrite (othersOf_afterCancel _ _ Hnd). unfold othersOf.
    rewrite filter_twice.
    assert (Hnew : filter (fun n => negb (isFor (PetReminder.id reminder) n))
                     (newRequests env reminder (issued w) (liveDays reminder)) = []).
    { apply filter_none. intros n Hn.
      rewrite <- newRequests_isFor in Hn. apply filter_In in Hn as [_ ->].
      reflexivity. }
    rewrite Hnew, app_nil_r. apply filter_ext. intros n.
    now destruct (isFor (PetReminder.id reminder) n).
  - intros n Hn Hin. rewrite Hown, newRequests_identifiers in Hin.
    apply in_seq in Hin as [Hlow _].
    destruct Hok as [_ Hlt]. rewrite Forall_forall in Hlt.
    specialize (Hlt n Hn). lia.
  - now apply afterSchedule_ok.
  - now rewrite !Htrig.
Qed.

Lemma schedulePetReminder_replaces_triggers_witness :
  schedulerOk worldWithReminder
  /\ triggersOf "local_1700000000000" worldWithReminder
     = [WEEKLY 1 8 0 None; WEEKLY 2 8 0 None; WEEKLY 3 8 0 None;
        WEEKLY 4 8 0 None; WEEKLY 5 8 0 None]
  /\ triggersOf "local_1700000000000"
       (exec (schedulePetReminder Sample.envOffline localWalk) worldWithReminder)
     = [WEEKLY 1 8 0 None; WEEKLY 2 8 0 None; WEEKLY 3 8 0 None;
        WEEKLY 4 8 0 None; WEEKLY 5 8 0 None].
Proof.
  split; [exact schedulerOk_worldWithReminder |]. split; [reflexivity |].
  exact (proj1 (proj2 (schedulePetReminder_replaces_triggers Sample.envOffline
                         localWalk worldWithReminder
                         schedulerOk_worldWithReminder))).
Defined.

End SchedulerExtras.

(** ** The reminders of the notification store *)

Section ReminderExtras.

Import Notifications NotificationService.

Lemma findReminder_findById id w :
  findReminder id w
  = findById PetReminder.id id (NotificationState.petReminders (notificationStore w)).
Proof. reflexivity. Qed.

(** [deletePetReminder], whatever the gateway does. *)
Lemma deletePetReminder_run env id w :
  let w0 := with_scheduled (afterCancel id (scheduled w)) w in
  let logged := with_gatewayLog (gatewayLog w ++ [Remove "pet_reminders" id]) w0 in
  let removed (u : World) :=
    with_notificationStore
      (NotificationStateSet.with_petReminders
         (removeById PetReminder.id id
                     (NotificationState.petReminders (notificationStore w)))
         (notificationStore w)) u in
  NotificationStore.deletePetReminder env id w
  = if remoteCall env id then
      match outcome env (length (gatewayLog w)) with
      | Resolves None => (Val true, removed logged)
      | _ => (Val false, logged)
      end
    else (Val true, removed w0).
Proof.
  unfold NotificationStore.deletePetReminder, tryCatch. unfold bind at 1.
  rewrite cancelPetReminder_run. run_action. fold (remoteCall env id).
  destruct (remoteCall env id); run_action; [| reflexivity].
  destruct (outcome env (length (gatewayLog w))) as [[msg |] | thrown];
    reflexivity.
Qed.

(** X15.  When the gateway refuses the remote delete of a reminder (an
    error in the result, or a rejected call), [deletePetReminder]
    answers [false] and keeps the reminder in the store, but the
    triggers of the reminder are cancelled all the same: the stored
    reminder is left without any trigger. *)
Theorem deletePetReminder_refused_still_cancels
        (env : Env) (id : string) (w : World) :
  remoteCall env id = true ->
  nextCallFails env w ->
  let w' := exec (NotificationStore.deletePetReminder env id) w in
  eval (NotificationStore.deletePetReminder env id) w = Val false
  /\ notificationStore w' = notificationStore w
  /\ findReminder id w' = findReminder id w
  /\ scheduled w' = afterCancel id (scheduled w)
  /\ triggersOf id w' = [].
Proof.
  intros Hremote Hfail w'. subst w'. unfold exec, eval.
  rewrite deletePetReminder_run, Hremote. red in Hfail.
  assert (Hnone : triggersOf id (with_gatewayLog
                                   (gatewayLog w ++ [Remove "pet_reminders" id])
                                   (with_scheduled (afterCancel id (scheduled w)) w))
                  = []).
  { unfold triggersOf.
    replace (scheduled _) with (afterCancel id (scheduled w))
      by (destruct w; reflexivity).
    now rewrite afterCancel_none. }
  destruct (outcome env (length (gatewayLog w))) as [[msg |] | thrown];
    [| contradiction |]; cbn [fst snd];
    (split; [reflexivity |]; split; [destruct w; reflexivity |];
     split; [destruct w; reflexivity |]; split; [destruct w; reflexivity |];
     exact Hnone).
Qed.

Lemma deletePetReminder_refused_still_cancels_witness :
  remoteCall Sample.envFailing "5b0a" = true
  /\ nextCallFails Sample.envFailing worldWithServerWalk
  /\ option_map PetReminder.enabled (findReminder "5b0a" worldWithServerWalk)
     = Some true
  /\ length (triggersOf "5b0a" worldWithServerWalk) = 5
  /\ option_map PetReminder.enabled
       (findReminder "5b0a"
          (exec (NotificationStore.deletePetReminder Sample.envFailing "5b0a")
                worldWithServerWalk)) = Some true
  /\ triggersOf "5b0a"
       (exec (NotificationStore.deletePetReminder Sample.envFailing "5b0a")
             worldWithServerWalk) = [].
Proof.
  assert (H1 : remoteCall Sample.envFailing "5b0a" = true) by reflexivity.
  assert (H2 : nextCallFails Sample.envFailing worldWithServerWalk) by exact I.
  split; [exact H1 |]. split; [exact H2 |]. split; [reflexivity |].
  split; [reflexivity |]. split; [reflexivity |].
  exact (proj2 (proj2 (proj2 (proj2
           (deletePetReminder_refused_still_cancels Sample.envFailing "5b0a"
              worldWithServerWalk H1 H2))))).
Defined.

(** X16.  After a [deletePetReminder] that went through, the reminder
    is no longer found, it has no trigger left, every other reminder is
    found as before with its triggers untouched, and the list of each
    pet is the one it had without that reminder. *)
Theorem deletePetReminder_read_back (env : Env) (id : string) (w : World) :
  accepted env id w ->
  schedulerOk w ->
  let w' := exec (NotificationStore.deletePetReminder env id) w in
  eval (NotificationStore.deletePetReminder env id) w = Val true
  /\ findReminder id w' = None
  /\ triggersOf id w' = []
  /\ (forall other, other <> id ->
        findReminder other w' = findReminder other w
        /\ triggersOf other w' = triggersOf other w)
  /\ (forall petId,
        NotificationStore.getPetReminders petId w'
        = removeById PetReminder.id id (NotificationStore.getPetReminders petId w))
  /\ schedulerOk w'.
Proof.
  intros Hacc Hok w'.
  assert (Hnd : NoDup (map identifier (scheduled w))) by apply Hok.
  destruct (afterCancel_exact id w Hok) as (Hsched & Hnone & Hothers & Hok').
  assert (Hrun :
    eval (NotificationStore.deletePetReminder env id) w = Val true
    /\ NotificationState.petReminders (notificationStore w')
       = removeById PetReminder.id id
           (NotificationState.petReminders (notificationStore w))
    /\ scheduled w' = scheduled (with_scheduled (afterCancel id (scheduled w)) w)
    /\ issued w' = issued w).
  { subst w'. unfold exec, eval. rewrite deletePetReminder_run.
    destruct Hacc as [Hacc | Hacc].
    - rewrite Hacc. cbn [fst snd]. destruct w; repeat split.
    - rewrite Hacc. destruct (remoteCall env id); cbn [fst snd];
        destruct w; repeat split. }
  destruct Hrun as (Hv & Hrem & Hs & Hi).
  assert (Htrig : forall x, triggersOf x w'
                            = triggersOf x (with_scheduled
                                              (afterCancel id (scheduled w)) w))
    by (intros x; unfold triggersOf; now rewrite Hs).
  split; [exact Hv |]. split; [| split; [| split; [| split]]].
  - rewrite findReminder_findById, Hrem. apply findById_remove_same.
  - rewrite Htrig. exact Hnone.
  - intros other Hother. split.
    + rewrite !findReminder_findById, Hrem. now apply findById_remove_other.
    + rewrite Htrig. now apply Hothers.
  - intros petId. unfold NotificationStore.getPetReminders.
    rewrite Hrem. unfold removeById. rewrite !filter_twice.
    apply filter_ext. intros r. apply andb_comm.
  - destruct Hok' as [Hnd' Hlt']. split; rewrite Hs; [exact Hnd' |].
    rewrite Hi. destruct w; exact Hlt'.
Qed.

Lemma deletePetReminder_read_back_witness :
  accepted Sample.envOffline "local_1700000000000" worldWithReminder
  /\ schedulerOk worldWithReminder
  /\ findReminder "local_1700000000000" worldWithReminder = Some localWalk
  /\ findReminder "local_1700000000000"
       (exec (NotificationStore.deletePetReminder Sample.envOffline
                "local_1700000000000") worldWithReminder) = None.
Proof.
  assert (H1 : accepted Sample.envOffline "local_1700000000000" worldWithReminder)
    by (left; reflexivity).
  split; [exact H1 |]. split; [exact schedulerOk_worldWithReminder |].
  split; [reflexivity |].
  exact (proj1 (proj2 (deletePetReminder_read_back Sample.envOffline
                         "local_1700000000000" worldWithReminder H1
                         schedulerOk_worldWithReminder))).
Defined.

End ReminderExtras.

Section ToggleExtras.

Import Notifications NotificationService.

(** [updatePetReminder] when the reminder is there and the gateway is
    not asked or accepts. *)
Lemma updatePetReminder_run env id updates existing w :
  findReminder id w = Some existing ->
  accepted env id w ->
  NotificationStore.updatePetReminder env id updates w
  = (Val true, afterUpdateReminder env id updates existing w).
Proof.
  intros Hfind Hacc.
  unfold NotificationStore.updatePetReminder, afterUpdateReminder. run_action.
  unfold findReminder in Hfind. rewrite Hfind.
  fold (remoteCall env id). unfold gateOf.
  destruct (remoteCall env id) eqn:Hremote; run_action;
    [destruct Hacc as [Hacc | Hacc]; [congruence |]; rewrite Hacc; run_action |].
  - destruct (NotificationStore.gate _); run_action; [| reflexivity].
    destruct (PetReminder.enabled (NotificationStore.merge existing updates));
      run_action.
    + rewrite schedulePetReminder_returns. reflexivity.
    + rewrite cancelPetReminder_run. reflexivity.
  - destruct (NotificationStore.gate _); run_action; [| reflexivity].
    destruct (PetReminder.enabled (NotificationStore.merge existing updates));
      run_action.
    + rewrite schedulePetReminder_returns. reflexivity.
    + rewrite cancelPetReminder_run. reflexivity.
Qed.

Lemma afterUpdateReminder_store env id updates existing w :
  let w' := afterUpdateReminder env id updates existing w in
  NotificationState.petReminders (notificationStore w')
  = replaceById PetReminder.id id
      (fun _ => NotificationStore.merge existing updates)
      (NotificationState.petReminders (notificationStore w))
  /\ NotificationState.settings (notificationStore w')
     = NotificationState.settings (notificationStore w).
Proof.
  unfold afterUpdateReminder.
  destruct (gateOf w);
    [destruct (PetReminder.enabled (NotificationStore.merge existing updates)) |];
    destruct (remoteCall env id); destruct w; split; reflexivity.
Qed.

Lemma afterUpdateReminder_triggers env id updates existing w :
  PetReminder.id existing = id ->
  PartialPetReminder.id updates = None ->
  gateOf w = true ->
  triggersOf id (afterUpdateReminder env id updates existing w)
  = map (reminderTrigger env (NotificationStore.merge existing updates))
        (liveDays (NotificationStore.merge existing updates)).
Proof.
  intros Hid Hnone Hgate. unfold afterUpdateReminder. rewrite Hgate.
  assert (Hsame : PetReminder.id (NotificationStore.merge existing updates) = id)
    by (now rewrite merge_id).
  destruct (PetReminder.enabled (NotificationStore.merge existing updates)) eqn:Hen.
  - unfold triggersOf. rewrite <- Hsame at 1. rewrite afterSchedule_own.
    apply newRequests_triggers.
  - rewrite (liveDays_disabled _ Hen). unfold triggersOf.
    match goal with
    | |- context [scheduled (with_scheduled ?t _)] =>
        replace (scheduled (with_scheduled t _)) with t
          by (destruct (remoteCall env id); destruct w; reflexivity)
    end.
    replace (scheduled _) with (scheduled w)
      by (destruct (remoteCall env id); destruct w; reflexivity).
    now rewrite afterCancel_none.
Qed.

Lemma togglePetReminder_run env id reminder w :
  findReminder id w = Some reminder ->
  accepted env id w ->
  NotificationStore.togglePetReminder env id w
  = (Val tt, afterUpdateReminder env id (toggled reminder) reminder w).
Proof.
  intros Hfind Hacc. unfold NotificationStore.togglePetReminder.
  unfold bind at 1. unfold NotificationStore.get. run_action.
  pose proof Hfind as Hfind'. unfold findReminder in Hfind'. rewrite Hfind'.
  unfold bind.
  change (PartialPetReminder.mk None None None None None None None None
            (Some (negb (PetReminder.enabled reminder))))
    with (toggled reminder).
  rewrite (updatePetReminder_run env id (toggled reminder) reminder w Hfind Hacc).
  reflexivity.
Qed.

Lemma toggled_twice reminder :
  NotificationStore.merge
    (NotificationStore.merge reminder (toggled reminder))
    (toggled (NotificationStore.merge reminder (toggled reminder)))
  = reminder.
Proof. destruct reminder as [i p n t ti b tm d e]. destruct e; reflexivity. Qed.

(** X17.  With the gate on and a gateway that accepts, switching an
    enabled reminder off with [togglePetReminder] leaves it stored but
    without any trigger, and switching it on again gives back the same
    reminder with exactly its triggers, one per day at its time.  A
    toggle of an id that is not stored changes nothing. *)
Theorem togglePetReminder_twice
        (env : Env) (id : string) (reminder : PetReminder.t) (w : World) :
  alwaysAccepts env ->
  findReminder id w = Some reminder ->
  PetReminder.enabled reminder = true ->
  gateOf w = true ->
  let w1 := exec (NotificationStore.togglePetReminder env id) w in
  let w2 := exec (NotificationStore.togglePetReminder env id) w1 in
  option_map PetReminder.enabled (findReminder id w1) = Some false
  /\ triggersOf id w1 = []
  /\ findReminder id w2 = Some reminder
  /\ triggersOf id w2
     = map (reminderTrigger env reminder) (PetReminder.daysOfWeek reminder)
  /\ forall ghost, findReminder ghost w = None ->
       NotificationStore.togglePetReminder env ghost w = (Val tt, w).
Proof.
  intros Hall Hfind Hen Hgate w1 w2.
  assert (Hacc : forall u, accepted env id u) by (intros u; right; apply Hall).
  pose proof (findReminder_id _ _ _ Hfind) as Hid.
  set (off := NotificationStore.merge reminder (toggled reminder)).
  assert (Hoff_id : PetReminder.id off = id) by (subst off; now rewrite merge_id).
  assert (Hoff_en : PetReminder.enabled off = false)
    by (subst off; cbn; now rewrite Hen).
  assert (Hw1 : w1 = afterUpdateReminder env id (toggled reminder) reminder w).
  { subst w1. unfold exec.
    now rewrite (togglePetReminder_run env id reminder w Hfind (Hacc w)). }
  destruct (afterUpdateReminder_store env id (toggled reminder) reminder w)
    as (Hstore1 & Hset1).
  rewrite <- Hw1 in Hstore1, Hset1. fold off in Hstore1.
  assert (Hfind1 : findReminder id w1 = Some off).
  { rewrite findReminder_findById, Hstore1.
    rewrite findById_replace_same by (intros; exact Hoff_id).
    rewrite <- findReminder_findById, Hfind. reflexivity. }
  assert (Hgate1 : gateOf w1 = true) by (unfold gateOf; now rewrite Hset1).
  assert (Hw2 : w2 = afterUpdateReminder env id (toggled off) off w1).
  { subst w2. unfold exec.
    now rewrite (togglePetReminder_run env id off w1 Hfind1 (Hacc w1)). }
  assert (Hback : NotificationStore.merge off (toggled off) = reminder)
    by (subst off; apply toggled_twice).
  split; [rewrite Hfind1; cbn [option_map]; now rewrite Hoff_en |].
  split; [| split; [| split]].
  - rewrite Hw1, (afterUpdateReminder_triggers env id (toggled reminder) reminder w
              Hid eq_refl Hgate).
    fold off. now rewrite (liveDays_disabled _ Hoff_en).
  - destruct (afterUpdateReminder_store env id (toggled off) off w1) as (Hstore2 & _).
    rewrite <- Hw2, Hback in Hstore2.
    rewrite findReminder_findById, Hstore2.
    rewrite findById_replace_same by (intros; exact Hid).
    rewrite <- findReminder_findById, Hfind1. reflexivity.
  - rewrite Hw2, (afterUpdateReminder_triggers env id (toggled off) off w1
              Hoff_id eq_refl Hgate1).
    rewrite Hback. now rewrite (liveDays_enabled _ Hen).
  - intros ghost Hghost. unfold NotificationStore.togglePetReminder.
    unfold bind at 1. unfold NotificationStore.get. run_action.
    unfold findReminder in Hghost. rewrite Hghost. reflexivity.
Qed.

Lemma togglePetReminder_twice_witness :
  alwaysAccepts Sample.envOffline
  /\ findReminder "local_1700000000000" worldWithReminder = Some localWalk
  /\ PetReminder.enabled localWalk = true
  /\ gateOf worldWithReminder = true
  /\ triggersOf "local_1700000000000"
       (exec (NotificationStore.togglePetReminder Sample.envOffline
                "local_1700000000000") worldWithReminder) = [].
Proof.
  assert (H1 : alwaysAccepts Sample.envOffline) by (intros k; reflexivity).
  assert (H2 : findReminder "local_1700000000000" worldWithReminder = Some localWalk)
    by reflexivity.
  assert (H3 : PetReminder.enabled localWalk = true) by reflexivity.
  assert (H4 : gateOf worldWithReminder = true) by reflexivity.
  split; [exact H1 |]. split; [exact H2 |]. split; [exact H3 |].
  split; [exact H4 |].
  exact (proj1 (proj2 (togglePetReminder_twice Sample.envOffline
                         "local_1700000000000" localWalk worldWithReminder
                         H1 H2 H3 H4))).
Defined.

End ToggleExtras.

Section SettingsExtras.

Import Notifications NotificationService.

(** A pass over the reminders leaves alone the requests of an id under
    which no enabled reminder is stored. *)
Lemma scheduleSteps_untouched env reminders x :
  (forall a, In a reminders -> PetReminder.id a = x -> PetReminder.enabled a = false) ->
  forall w, schedulerOk w ->
    filter (isFor x) (scheduled (fold_left (scheduleStep env) reminders w))
    = filter (isFor x) (scheduled w).
Proof.
  induction reminders as [| a rest IH]; intros Hoff w Hok; [reflexivity |].
  cbn [fold_left].
  rewrite IH; [| intros b Hb; apply Hoff; now right | now apply scheduleStep_ok].
  unfold scheduleStep. destruct (PetReminder.enabled a) eqn:Hen; [| reflexivity].
  apply afterSchedule_other; [exact Hok |].
  intros Heq. specialize (Hoff a (or_introl eq_refl) (eq_sym Heq)). congruence.
Qed.

(** X18.  With the gate on, [scheduleAllReminders] gives every stored
    enabled reminder exactly its triggers, one per day at its time (the
    reminders have different ids); it touches no request of an id under
    which no enabled reminder is stored, so the triggers that a
    disabled reminder still has are not cancelled; and the scheduler
    stays well formed. *)
Theorem scheduleAllReminders_live_set (env : Env) (w : World) :
  gateOf w = true ->
  schedulerOk w ->
  NoDup (map PetReminder.id (NotificationState.petReminders (notificationStore w))) ->
  let w' := exec (NotificationStore.scheduleAllReminders env) w in
  eval (NotificationStore.scheduleAllReminders env) w = Val tt
  /\ (forall r, In r (NotificationState.petReminders (notificationStore w)) ->
                PetReminder.enabled r = true ->
                triggersOf (PetReminder.id r) w'
                = map (reminderTrigger env r) (PetReminder.daysOfWeek r))
  /\ (forall x,
        (forall a, In a (NotificationState.petReminders (notificationStore w)) ->
                   PetReminder.id a = x -> PetReminder.enabled a = false) ->
        triggersOf x w' = triggersOf x w)
  /\ schedulerOk w'.
Proof.
  intros Hgate Hok Hnd w'. subst w'. unfold exec, eval.
  rewrite (scheduleAllReminders_run env w Hgate). cbn [fst snd].
  split; [reflexivity |]. split; [| split].
  - intros r Hin Hen. unfold triggersOf. now apply scheduleSteps_live.
  - intros x Hoff. unfold triggersOf. now rewrite scheduleSteps_untouched.
  - now apply scheduleSteps_ok.
Qed.

Lemma scheduleAllReminders_live_set_witness :
  gateOf worldWithReminder = true
  /\ schedulerOk worldWithReminder
  /\ NoDup (map PetReminder.id
                (NotificationState.petReminders (notificationStore worldWithReminder)))
  /\ schedulerOk (exec (NotificationStore.scheduleAllReminders Sample.envOffline)
                       worldWithReminder).
Proof.
  assert (H1 : gateOf worldWithReminder = true) by reflexivity.
  assert (H3 : NoDup (map PetReminder.id
                        (NotificationState.petReminders
                           (notificationStore worldWithReminder)))).
  { vm_compute. repeat constructor. intros []. }
  split; [exact H1 |]. split; [exact schedulerOk_worldWithReminder |].
  split; [exact H3 |].
  exact (proj2 (proj2 (proj2
           (scheduleAllReminders_live_set Sample.envOffline worldWithReminder
              H1 schedulerOk_worldWithReminder H3)))).
Defined.

(** X19.  When [updateSettings] turns [pushEnabled] from on to off and
    the upsert of the settings, if there is one, does not reject, the
    table of the scheduler is empty afterwards, the merged settings are
    stored, and the reminders stay stored as they were. *)
Theorem push_off_clears_scheduler
        (env : Env) (w : World) (newSettings : PartialNotificationSettings.t) :
  NotificationSettings.pushEnabled (NotificationState.settings (notificationStore w))
  = true ->
  NotificationSettings.pushEnabled
    (NotificationStore.mergeSettings
       (NotificationState.settings (notificationStore w)) newSettings) = false ->
  (offline env \/ exists err, outcome env (length (gatewayLog w)) = Resolves err) ->
  let w' := exec (NotificationStore.updateSettings env newSettings) w in
  eval (NotificationStore.updateSettings env newSettings) w = Val tt
  /\ scheduled w' = []
  /\ NotificationState.settings (notificationStore w')
     = NotificationStore.mergeSettings
         (NotificationState.settings (notificationStore w)) newSettings
  /\ NotificationState.petReminders (notificationStore w')
     = NotificationState.petReminders (notificationStore w).
Proof.
  intros Hon Hoff Hcall.
  unfold NotificationStore.updateSettings, NotificationStore.cancelAllReminders,
    cancelAllNotifications, cancelAllScheduledNotificationsAsync,
    NotificationStore.get.
  run_action.
  destruct (user env && isSupabaseConfigured env) eqn:Hsigned; run_action.
  - destruct Hcall as [Hcall | [err Hcall]];
      [unfold offline in Hcall; congruence |].
    rewrite Hcall. run_action. rewrite Hon, Hoff. run_action.
    cbn. repeat split.
  - rewrite Hon, Hoff. run_action. cbn. repeat split.
Qed.

Lemma push_off_clears_scheduler_witness :
  NotificationSettings.pushEnabled
    (NotificationState.settings (notificationStore worldWithReminder)) = true
  /\ NotificationSettings.pushEnabled
       (NotificationStore.mergeSettings
          (NotificationState.settings (notificationStore worldWithReminder))
          Sample.pushOff) = false
  /\ (offline Sample.envOffline
      \/ exists err, outcome Sample.envOffline
                       (length (gatewayLog worldWithReminder)) = Resolves err)
  /\ length (scheduled worldWithReminder) = 5
  /\ scheduled (exec (NotificationStore.updateSettings Sample.envOffline
                        Sample.pushOff) worldWithReminder) = [].
Proof.
  assert (H1 : NotificationSettings.pushEnabled
                 (NotificationState.settings (notificationStore worldWithReminder))
               = true) by reflexivity.
  assert (H2 : NotificationSettings.pushEnabled
                 (NotificationStore.mergeSettings
                    (NotificationState.settings (notificationStore worldWithReminder))
                    Sample.pushOff) = false) by reflexivity.
  assert (H3 : offline Sample.envOffline
               \/ exists err, outcome Sample.envOffline
                                (length (gatewayLog worldWithReminder))
                              = Resolves err) by (left; reflexivity).
  split; [exact H1 |]. split; [exact H2 |]. split; [exact H3 |].
  split; [reflexivity |].
  exact (proj1 (proj2 (push_off_clears_scheduler Sample.envOffline
                         worldWithReminder Sample.pushOff H1 H2 H3))).
Defined.

(** X20.  [updateSettings] has no handler around the upsert: when the
    call rejects, the action throws what the call threw, the merged
    settings are already stored, and the scheduler is not touched, so
    that turning [pushEnabled] off leaves every trigger registered. *)
Theorem updateSettings_rejected_upsert
        (env : Env) (w : World) (newSettings : PartialNotificationSettings.t)
        (thrown : Js.Thrown) :
  user env && isSupabaseConfigured env = true ->
  outcome env (length (gatewayLog w)) = Rejects thrown ->
  let w' := exec (NotificationStore.updateSettings env newSettings) w in
  eval (NotificationStore.updateSettings env newSettings) w = Exn thrown
  /\ NotificationState.settings (notificationStore w')
     = NotificationStore.mergeSettings
         (NotificationState.settings (notificationStore w)) newSettings
  /\ scheduled w' = scheduled w
  /\ gatewayLog w'
     = (gatewayLog w
          ++ [settingsUpsert
                (NotificationStore.mergeSettings
                   (NotificationState.settings (notificationStore w))
                   newSettings)])%list.
Proof.
  intros Hsigned Hrej.
  unfold NotificationStore.updateSettings, NotificationStore.get. run_action.
  rewrite Hsigned. run_action. rewrite Hrej. cbn. repeat split.
Qed.

Lemma updateSettings_rejected_upsert_witness :
  user Sample.envRejecting && isSupabaseConfigured Sample.envRejecting = true
  /\ outcome Sample.envRejecting (length (gatewayLog worldWithReminder))
     = Rejects (Js.mkThrown (Some "timeout"))
  /\ NotificationSettings.pushEnabled
       (NotificationState.settings
          (notificationStore
             (exec (NotificationStore.updateSettings Sample.envRejecting
                      Sample.pushOff) worldWithReminder))) = false
  /\ length (scheduled
               (exec (NotificationStore.updateSettings Sample.envRejecting
                        Sample.pushOff) worldWithReminder)) = 5
  /\ eval (NotificationStore.updateSettings Sample.envRejecting Sample.pushOff)
          worldWithReminder = Exn (Js.mkThrown (Some "timeout")).
Proof.
  assert (H1 : user Sample.envRejecting && isSupabaseConfigured Sample.envRejecting
               = true) by reflexivity.
  assert (H2 : outcome Sample.envRejecting (length (gatewayLog worldWithReminder))
               = Rejects (Js.mkThrown (Some "timeout"))) by reflexivity.
  split; [exact H1 |]. split; [exact H2 |]. split; [reflexivity |].
  split; [reflexivity |].
  exact (proj1 (updateSettings_rejected_upsert Sample.envRejecting
                  worldWithReminder Sample.pushOff
                  (Js.mkThrown (Some "timeout")) H1 H2)).
Defined.

(** X21.  When the gateway accepts the create of a reminder and sends
    the row back, [addPetReminder] appends the reminder made of that
    row, returns the id of the row and leaves the pending flag as it
    was; when the gate is on and the row is enabled, the triggers
    registered under that id are the days of the row at its time, and
    otherwise the scheduler is left as it was. *)
Theorem addPetReminder_online_stores_the_row
        (env : Env) (w : World) (reminderData : NewPetReminder.t)
        (row : PetReminderRecord.t) :
  user env && isSupabaseConfigured env = true ->
  outcome env (length (gatewayLog w)) = Resolves None ->
  reminderRow env (length (gatewayLog w)) = Some row ->
  let stored := NotificationStore.recordToReminder row in
  let w' := exec (NotificationStore.addPetReminder env reminderData) w in
  eval (NotificationStore.addPetReminder env reminderData) w
  = Val (Some (PetReminderRecord.id row))
  /\ NotificationState.petReminders (notificationStore w')
     = (NotificationState.petReminders (notificationStore w) ++ [stored])%list
  /\ NotificationState.pendingChanges (notificationStore w')
     = NotificationState.pendingChanges (notificationStore w)
  /\ (if gateOf w && PetReminder.enabled stored
      then triggersOf (PetReminderRecord.id row) w'
           = map (reminderTrigger env stored) (PetReminder.daysOfWeek stored)
      else scheduled w' = scheduled w).
Proof.
  intros Hsigned Hout Hrow stored w'. subst w'.
  unfold NotificationStore.addPetReminder. run_action.
  rewrite Hsigned. run_action. rewrite Hout. run_action. rewrite Hrow. run_action.
  fold stored. rewrite scheduleIfAllowed_run. cbn [fst snd].
  unfold gateOf.
  match goal with
  | |- context [NotificationStore.gate ?s] =>
      change (NotificationStore.gate s)
        with (NotificationStore.gate (NotificationState.settings (notificationStore w)))
  end.
  destruct (NotificationStore.gate (NotificationState.settings (notificationStore w)))
    eqn:Hgate; cbn [andb].
  - destruct (PetReminder.enabled stored) eqn:Hen.
    + split; [reflexivity |]. split; [destruct w; reflexivity |].
      split; [destruct w; reflexivity |].
      unfold triggersOf.
      change (PetReminderRecord.id row) with (PetReminder.id stored).
      rewrite afterSchedule_own, newRequests_triggers.
      now rewrite (liveDays_enabled _ Hen).
    + split; [reflexivity |]. split; [destruct w; reflexivity |].
      split; destruct w; reflexivity.
  - split; [reflexivity |]. split; [destruct w; reflexivity |].
    split; destruct w; reflexivity.
Qed.

Lemma addPetReminder_online_stores_the_row_witness :
  user envOnlineWalk && isSupabaseConfigured envOnlineWalk = true
  /\ outcome envOnlineWalk (length (gatewayLog worldWithRex)) = Resolves None
  /\ reminderRow envOnlineWalk (length (gatewayLog worldWithRex))
     = Some Sample2.walkRow
  /\ eval (NotificationStore.addPetReminder envOnlineWalk Sample.morningWalk)
          worldWithRex = Val (Some "5b0a").
Proof.
  assert (H1 : user envOnlineWalk && isSupabaseConfigured envOnlineWalk = true)
    by reflexivity.
  assert (H2 : outcome envOnlineWalk (length (gatewayLog worldWithRex))
               = Resolves None) by reflexivity.
  assert (H3 : reminderRow envOnlineWalk (length (gatewayLog worldWithRex))
               = Some Sample2.walkRow) by reflexivity.
  split; [exact H1 |]. split; [exact H2 |]. split; [exact H3 |].
  exact (proj1 (addPetReminder_online_stores_the_row envOnlineWalk worldWithRex
                  Sample.morningWalk Sample2.walkRow H1 H2 H3)).
Defined.

End SettingsExtras.

Section ReminderSyncExtras.

Import Notifications NotificationService.

Lemma reminder_syncOne_success env reminder w row :
  outcome env (length (gatewayLog w)) = Resolves None ->
  reminderRow env (length (gatewayLog w)) = Some row ->
  NotificationStore.syncOne env reminder w
  = (Val tt,
     with_notificationStore
       (NotificationStateSet.with_petReminders
          (replaceById PetReminder.id (PetReminder.id reminder)
             (fun _ => NotificationStore.recordToReminder row)
             (NotificationState.petReminders (notificationStore w)))
          (notificationStore w))
       (with_gatewayLog (gatewayLog w ++ [reminderCreate reminder]) w)).
Proof.
  intros Hout Hrow. unfold NotificationStore.syncOne. run_action.
  rewrite Hout. run_action. rewrite Hrow. reflexivity.
Qed.

(** The loop over the waiting reminders when every create succeeds. *)
Lemma reminder_loop_success env items :
  createsReminders env ->
  forall w,
    (forall q, In q (NotificationState.petReminders (notificationStore w)) ->
               isLocalId (PetReminder.id q) = true ->
               In (PetReminder.id q) (map PetReminder.id items)) ->
    let w' := exec (forEach items (NotificationStore.syncOne env)) w in
    eval (forEach items (NotificationStore.syncOne env)) w = Val tt
    /\ (forall q, In q (NotificationState.petReminders (notificationStore w')) ->
                  isLocalId (PetReminder.id q) = false)
    /\ scheduled w' = scheduled w
    /\ NotificationState.settings (notificationStore w')
       = NotificationState.settings (notificationStore w).
Proof.
  intros Hall. induction items as [| reminder rest IH]; intros w Hcover.
  - cbn. repeat split.
    intros q Hq. destruct (isLocalId (PetReminder.id q)) eqn:Hl; [| reflexivity].
    destruct (Hcover q Hq Hl).
  - cbn [forEach]. unfold exec, eval, bind.
    destruct (Hall (length (gatewayLog w))) as (Hout & d & Hrow & Hremote).
    rewrite (reminder_syncOne_success env reminder w d Hout Hrow).
    match goal with
    | |- context [forEach rest _ ?x] => set (w1 := x)
    end.
    assert (Hcover1 :
      forall q, In q (NotificationState.petReminders (notificationStore w1)) ->
                isLocalId (PetReminder.id q) = true ->
                In (PetReminder.id q) (map PetReminder.id rest)).
    { intros q Hq Hl. subst w1. cbn in Hq. unfold replaceById in Hq.
      apply in_map_iff in Hq as (p & Hp & Hin).
      destruct (String.eqb_spec (PetReminder.id p) (PetReminder.id reminder))
        as [Heq | Hne].
      - subst q.
        change (PetReminder.id (NotificationStore.recordToReminder d))
          with (PetReminderRecord.id d) in Hl.
        congruence.
      - subst q. destruct (Hcover p Hin Hl) as [Hhead | Htail];
          [congruence | exact Htail]. }
    destruct (IH w1 Hcover1) as (Hv & Hnone & Hsched & Hset).
    unfold exec, eval in Hv, Hnone, Hsched, Hset.
    split; [exact Hv |]. split; [exact Hnone |].
    rewrite Hsched, Hset. subst w1. destruct w; split; reflexivity.
Qed.

(** X22.  A reconciliation of the reminders in which every call is
    accepted and every create answered with a row under a server id
    leaves no reminder under a local id and switches the pending flag
    off, but it does not touch the scheduler: the triggers registered
    for a reminder while it carried a local id stay registered under
    that local id, under which no reminder is stored any more. *)
Theorem reminder_sync_strands_triggers (env : Env) (w : World) :
  user env = true -> isSupabaseConfigured env = true ->
  createsReminders env ->
  NotificationState.pendingChanges (notificationStore w) = true ->
  let w' := exec (NotificationStore.syncToServer env) w in
  localReminders w' = []
  /\ NotificationState.pendingChanges (notificationStore w') = false
  /\ scheduled w' = scheduled w
  /\ forall r, In r (localReminders w) ->
       findReminder (PetReminder.id r) w' = None
       /\ triggersOf (PetReminder.id r) w' = triggersOf (PetReminder.id r) w.
Proof.
  intros Hu Hc Hall Hp w'.
  assert (Hrun :
    (forall q, In q (NotificationState.petReminders (notificationStore w')) ->
               isLocalId (PetReminder.id q) = false)
    /\ NotificationState.pendingChanges (notificationStore w') = false
    /\ scheduled w' = scheduled w).
  { subst w'. unfold NotificationStore.syncToServer, NotificationStore.get.
    run_action. rewrite Hp, Hu, Hc. run_action.
    destruct (Hall (length (gatewayLog w))) as (Hout & _). rewrite Hout.
    run_action. fold (localReminders w).
    match goal with
    | |- context [forEach _ _ ?x] => set (w0 := x)
    end.
    assert (Hcover :
      forall q, In q (NotificationState.petReminders (notificationStore w0)) ->
                isLocalId (PetReminder.id q) = true ->
                In (PetReminder.id q) (map PetReminder.id (localReminders w))).
    { intros q Hq Hl. apply in_map. unfold localReminders. apply filter_In.
      split; [exact Hq | exact Hl]. }
    pose proof (reminder_loop_success env (localReminders w) Hall w0 Hcover)
      as (Hv & Hnone & Hsched & _).
    unfold exec, eval in Hv, Hnone, Hsched.
    destruct (forEach (localReminders w) (NotificationStore.syncOne env) w0)
      as [r w1].
    cbn in Hv, Hnone, Hsched. subst r. cbn. rewrite Hsched.
    split; [exact Hnone |]. split; reflexivity. }
  destruct Hrun as (Hnone & Hoff & Hsched).
  split; [unfold localReminders; apply filter_none; exact Hnone |].
  split; [exact Hoff |]. split; [exact Hsched |].
  intros r Hr. split.
  - destruct (findReminder (PetReminder.id r) w') as [q |] eqn:Hfind;
      [| reflexivity].
    pose proof (findReminder_id _ _ _ Hfind) as Hid.
    unfold findReminder, Js.find in Hfind. apply find_some in Hfind as [Hin _].
    specialize (Hnone q Hin). rewrite Hid in Hnone.
    unfold localReminders in Hr. apply filter_In in Hr as [_ Hlocal].
    congruence.
  - unfold triggersOf. now rewrite Hsched.
Qed.

Lemma envOnlineWalk_createsReminders : createsReminders envOnlineWalk.
Proof.
  intros k. split; [reflexivity |]. exists Sample2.walkRow. split; reflexivity.
Qed.

Lemma reminder_sync_strands_triggers_witness :
  user envOnlineWalk = true
  /\ isSupabaseConfigured envOnlineWalk = true
  /\ createsReminders envOnlineWalk
  /\ NotificationState.pendingChanges (notificationStore worldWithReminder) = true
  /\ map PetReminder.id (localReminders worldWithReminder) = ["local_1700000000000"]
  /\ map PetReminder.id
       (NotificationState.petReminders
          (notificationStore
             (exec (NotificationStore.syncToServer envOnlineWalk) worldWithReminder)))
     = ["5b0a"]
  /\ triggersOf "5b0a"
       (exec (NotificationStore.syncToServer envOnlineWalk) worldWithReminder) = []
  /\ length (triggersOf "local_1700000000000"
               (exec (NotificationStore.syncToServer envOnlineWalk)
                     worldWithReminder)) = 5
  /\ localReminders
       (exec (NotificationStore.syncToServer envOnlineWalk) worldWithReminder) = [].
Proof.
  assert (H1 : user envOnlineWalk = true) by reflexivity.
  assert (H2 : isSupabaseConfigured envOnlineWalk = true) by reflexivity.
  assert (H4 : NotificationState.pendingChanges (notificationStore worldWithReminder)
               = true) by reflexivity.
  split; [exact H1 |]. split; [exact H2 |].
  split; [exact envOnlineWalk_createsReminders |]. split; [exact H4 |].
  split; [reflexivity |]. split; [reflexivity |]. split; [reflexivity |].
  split; [reflexivity |].
  exact (proj1 (reminder_sync_strands_triggers envOnlineWalk worldWithReminder
                  H1 H2 envOnlineWalk_createsReminders H4)).
Defined.

End ReminderSyncExtras.

(** ** Start-up of the notification store *)

Section InitExtras.

Import Notifications NotificationService.

Lemma scheduleSteps_store env reminders :
  forall w,
    notificationStore (fold_left (scheduleStep env) reminders w)
    = notificationStore w.
Proof.
  induction reminders as [| r rest IH]; intros w; [reflexivity |].
  cbn [fold_left]. rewrite IH. unfold scheduleStep, afterSchedule.
  destruct (PetReminder.enabled r); destruct w; reflexivity.
Qed.

Lemma scheduleAllReminders_cases env w :
  NotificationStore.scheduleAllReminders env w
  = (Val tt,
     if gateOf w
     then fold_left (scheduleStep env)
            (NotificationState.petReminders (notificationStore w)) w
     else w).
Proof.
  destruct (gateOf w) eqn:Hgate; [now apply scheduleAllReminders_run |].
  unfold gateOf, NotificationStore.gate in Hgate.
  unfold NotificationStore.scheduleAllReminders, NotificationStore.get. run_action.
  destruct (NotificationSettings.pushEnabled _);
    destruct (NotificationSettings.reminders _); try discriminate; reflexivity.
Qed.

Lemma scheduleAllReminders_store env w :
  notificationStore (snd (NotificationStore.scheduleAllReminders env w))
  = notificationStore w.
Proof.
  rewrite scheduleAllReminders_cases. cbn [snd].
  destruct (gateOf w); [apply scheduleSteps_store | reflexivity].
Qed.

Ltac init_step :=
  match goal with
  | |- context [NotificationStore.scheduleAllReminders ?e ?x] =>
      pose proof (scheduleAllReminders_store e x) as Hkeep;
      rewrite (scheduleAllReminders_cases e x) in Hkeep |- *;
      cbn [fst snd] in Hkeep |- *;
      try rewrite Hkeep
  end.

(** X23.  As long as the calls to the notification API themselves
    resolve, [initialize] never throws and always leaves the store
    initialized.  The permission it records is the one the device
    gives (a physical device on which the permission is granted, at
    once or when asked), unless one of the two reads is rejected: then
    it records that the permission is not granted, whatever the device
    said.  Without the permission the scheduler is not touched. *)
Theorem initialize_always_finishes
        (env : Env) (device : Device)
        (settingsReply : ListOutcome UserSettingsRow.t)
        (remindersReply : ListOutcome PetReminderRecord.t) (w : World) :
  let w' := exec (NotificationStoreInit.initialize env device settingsReply
                    remindersReply) w in
  eval (NotificationStoreInit.initialize env device settingsReply remindersReply) w
  = Val tt
  /\ NotificationState.isInitialized (notificationStore w') = true
  /\ NotificationState.permissionGranted (notificationStore w')
     = NotificationStoreInit.requestPermissions device
       && negb (fetchRejects env settingsReply remindersReply)
  /\ (NotificationStoreInit.requestPermissions device = true <->
      isDevice device = true
      /\ (existingStatus device = granted \/ requestedStatus device = granted))
  /\ (NotificationState.permissionGranted (notificationStore w') = false ->
      scheduled w' = scheduled w).
Proof.
  assert (Hperm : NotificationStoreInit.requestPermissions device = true <->
                  isDevice device = true
                  /\ (existingStatus device = granted
                      \/ requestedStatus device = granted)).
  { unfold NotificationStoreInit.requestPermissions.
    destruct device as [d [| |] [| |]]; destruct d; cbn;
      intuition (discriminate || auto). }
  unfold NotificationStoreInit.initialize, fetchAll, fetchRejects,
    NotificationStore.get.
  run_action.
  destruct (NotificationStoreInit.requestPermissions device) eqn:Hgranted;
    destruct (user env && isSupabaseConfigured env);
    try (destruct settingsReply as [[[| first more] |] serr | sthrown]);
    try (destruct remindersReply as [[rows |] rerr | rthrown]);
    run_action;
    try (destruct (NotificationSettings.pushEnabled _); run_action);
    try init_step;
    cbn;
    (split; [reflexivity |]; split; [reflexivity |]; split; [reflexivity |];
     split; [exact Hperm |]; try discriminate; intros _; reflexivity).
Qed.



End InitExtras.

(** ** The reminder forms *)

Section FormExtras.

Import JsText.

Lemma allDistinct_injective {A : Type} (label : A -> string) (items : list A) :
  allDistinct (map label items) = true ->
  forall x y, In x items -> In y items -> label x = label y -> x = y.
Proof.
  induction items as [| a rest IH]; intros Hall x y Hx Hy Heq; [destruct Hx |].
  cbn in Hall. apply andb_true_iff in Hall as [Hhead Hrest].
  apply negb_true_iff in Hhead.
  assert (Hfresh : forall z, In z rest -> label a <> label z).
  { intros z Hz Hsame.
    assert (Hex : existsb (String.eqb (label a)) (map label rest) = true).
    { apply existsb_exists. exists (label z). split; [now apply in_map |].
      now apply String.eqb_eq. }
    congruence. }
  destruct Hx as [Hx | Hx]; destruct Hy as [Hy | Hy].
  - congruence.
  - subst x. destruct (Hfresh y Hy Heq).
  - subst y. destruct (Hfresh x Hx (eq_sym Heq)).
  - now apply IH.
Qed.

Lemma timesOfDay_complete hour minute :
  timeOfDay hour minute -> In (hour, minute) timesOfDay.
Proof.
  intros [Hh Hm]. unfold timesOfDay. apply in_prod.
  - apply in_map_iff. exists (Z.to_nat hour). split; [lia |].
    apply in_seq. lia.
  - apply in_map_iff. exists (Z.to_nat minute). split; [lia |].
    apply in_seq. lia.
Qed.

Lemma formatTime_labels_distinct :
  allDistinct
    (map (fun t => NotificationsScreenTime.formatTime (fst t) (snd t)) timesOfDay)
  = true.
Proof. vm_compute. reflexivity. Qed.

(** X25.  [formatTime] writes different times of day differently: on
    hours from 0 to 23 and minutes from 0 to 59, two times with the
    same label are the same time. *)
Theorem formatTime_injective (hour minute hour' minute' : Z) :
  timeOfDay hour minute -> timeOfDay hour' minute' ->
  NotificationsScreenTime.formatTime hour minute
  = NotificationsScreenTime.formatTime hour' minute' ->
  hour = hour' /\ minute = minute'.
Proof.
  intros Ht Ht' Hsame.
  pose proof (allDistinct_injective
                (fun t => NotificationsScreenTime.formatTime (fst t) (snd t))
                timesOfDay formatTime_labels_distinct
                (hour, minute) (hour', minute')
                (timesOfDay_complete _ _ Ht) (timesOfDay_complete _ _ Ht') Hsame)
    as Heq.
  now inversion Heq.
Qed.

Lemma formatTime_injective_witness :
  timeOfDay 0 5 /\ timeOfDay 0 5
  /\ NotificationsScreenTime.formatTime 0 5 = "12:05 AM"
  /\ (0 = 0 /\ 5 = 5)%Z.
Proof.
  assert (H : timeOfDay 0 5) by (unfold timeOfDay; lia).
  split; [exact H |]. split; [exact H |]. split; [reflexivity |].
  exact (formatTime_injective 0 5 0 5 H H eq_refl).
Defined.

(** On one-digit numbers the order of the strings is the order of the
    numbers. *)
Lemma digit_ltb x y :
  (0 <= x <= 9)%Z -> (0 <= y <= 9)%Z ->
  String.ltb (toString x) (toString y) = (x <? y)%Z.
Proof.
  intros Hx Hy.
  assert (Hcx : (x = 0 \/ x = 1 \/ x = 2 \/ x = 3 \/ x = 4 \/ x = 5 \/ x = 6
                 \/ x = 7 \/ x = 8 \/ x = 9)%Z) by lia.
  assert (Hcy : (y = 0 \/ y = 1 \/ y = 2 \/ y = 3 \/ y = 4 \/ y = 5 \/ y = 6
                 \/ y = 7 \/ y = 8 \/ y = 9)%Z) by lia.
  repeat (destruct Hcx as [-> | Hcx]); try subst x;
    repeat (destruct Hcy as [-> | Hcy]); try subst y; reflexivity.
Qed.

Lemma insertSorted_In x sorted d :
  In d (insertSorted x sorted) <-> d = x \/ In d sorted.
Proof.
  induction sorted as [| y rest IH]; cbn.
  - intuition.
  - destruct (String.ltb (toString x) (toString y)); cbn; [intuition |].
    rewrite IH. intuition.
Qed.

Lemma insertSorted_last x sorted :
  (0 <= x <= 9)%Z ->
  Forall (fun y => (0 <= y < x)%Z) sorted ->
  insertSorted x sorted = (sorted ++ [x])%list.
Proof.
  intros Hx. induction sorted as [| y rest IH]; intros Hall; [reflexivity |].
  apply Forall_cons_iff in Hall as [Hy Hrest]. cbn.
  rewrite digit_ltb by lia.
  destruct (Z.ltb_spec x y) as [Hlt | Hge]; [lia |].
  now rewrite IH.
Qed.

Lemma insertSorted_ascending x sorted :
  (0 <= x <= 9)%Z ->
  (forall d, In d sorted -> (0 <= d <= 9)%Z) ->
  ascending sorted -> ~ In x sorted ->
  ascending (insertSorted x sorted).
Proof.
  intros Hx. unfold ascending.
  induction sorted as [| y rest IH]; intros Hrange Hasc Hfresh; cbn.
  - repeat constructor.
  - apply StronglySorted_inv in Hasc as [Hrest Hy].
    rewrite digit_ltb by (try lia; apply Hrange; now left).
    destruct (Z.ltb_spec x y) as [Hlt | Hge].
    + constructor; [now constructor |].
      constructor; [exact Hlt |].
      rewrite Forall_forall in Hy |- *. intros z Hz. specialize (Hy z Hz). lia.
    + assert (Hne : y <> x) by (intros ->; apply Hfresh; now left).
      constructor.
      * apply IH; [intros d Hd; apply Hrange; now right | exact Hrest |].
        intros Hin. apply Hfresh. now right.
      * rewrite Forall_forall in Hy |- *. intros z Hz.
        apply insertSorted_In in Hz as [-> | Hz]; [lia | now apply Hy].
Qed.

(** [sort()] leaves an ascending list of one-digit numbers as it is. *)
Lemma sort_ascending (days : list Z) :
  (forall d, In d days -> (0 <= d <= 9)%Z) -> ascending days -> sort days = days.
Proof.
  unfold sort, ascending.
  assert (Hgen : forall acc,
    (forall d, In d days -> (0 <= d <= 9)%Z) ->
    StronglySorted Z.lt days ->
    Forall (fun a => Forall (fun d => (0 <= a < d)%Z) days) acc ->
    fold_left (fun sorted x => insertSorted x sorted) days acc = (acc ++ days)%list).
  { induction days as [| a rest IH]; intros acc Hrange Hasc Hlow; cbn.
    - now rewrite app_nil_r.
    - apply StronglySorted_inv in Hasc as [Hrest Ha].
      rewrite insertSorted_last.
      + rewrite IH.
        * now rewrite <- app_assoc.
        * intros d Hd. apply Hrange. now right.
        * exact Hrest.
        * apply Forall_app. split.
          -- eapply Forall_impl; [| exact Hlow]. intros b Hb.
             now apply Forall_cons_iff in Hb as [_ Hb].
          -- constructor; [| constructor].
             rewrite Forall_forall in Ha |- *. intros d Hd.
             specialize (Ha d Hd).
             assert (0 <= a <= 9)%Z by (apply Hrange; now left). lia.
      + apply Hrange. now left.
      + eapply Forall_impl; [| exact Hlow]. intros b Hb.
        now apply Forall_cons_iff in Hb as [Hb _]. }
  intros Hrange Hasc. now rewrite Hgen.
Qed.

Lemma toggleDay_adds day prev :
  (0 <= day <= 6)%Z ->
  (forall d, In d prev -> (0 <= d <= 6)%Z) -> ascending prev ->
  ~ In day prev ->
  AddReminderScreen.toggleDay day prev = insertSorted day prev.
Proof.
  intros Hday Hrange Hasc Hfresh. unfold AddReminderScreen.toggleDay.
  apply includes_notIn in Hfresh. rewrite Hfresh.
  unfold sort. rewrite fold_left_app. cbn [fold_left].
  fold (sort prev). rewrite sort_ascending; [reflexivity | | exact Hasc].
  intros d Hd. specialize (Hrange d Hd). lia.
Qed.

(** X26.  [toggleDay] keeps the selection of the form well formed: it
    never becomes empty, stays in ascending order without a day twice,
    and holds days from 0 to 6 only.  The toggled day changes side,
    except that the last selected day cannot be taken out; every other
    day stays where it was. *)
Theorem toggleDay_keeps_selection (day : Z) (prev : list Z) :
  (0 <= day <= 6)%Z ->
  selection prev ->
  let next := AddReminderScreen.toggleDay day prev in
  selection next
  /\ (forall d, d <> day -> (In d next <-> In d prev))
  /\ (In day next <-> ~ In day prev \/ prev = [day]).
Proof.
  intros Hday (Hne & Hasc & Hrange) next.
  destruct (Js.includes prev day) eqn:Hinc.
  - apply includes_In in Hinc.
    destruct (Nat.eqb_spec (length prev) 1) as [Hone | Hmany].
    + assert (Hnext : next = prev).
      { subst next. unfold AddReminderScreen.toggleDay.
        apply includes_In in Hinc. rewrite Hinc, Hone. reflexivity. }
      assert (Hprev : prev = [day]).
      { destruct prev as [| a [| b rest]]; try discriminate.
        destruct Hinc as [-> | []]. reflexivity. }
      rewrite Hnext. split; [exact (conj Hne (conj Hasc Hrange)) |]. split; [tauto |].
      split; [now right | now intros _].
    + assert (Hnext : next = filter (fun d => negb (Z.eqb d day)) prev).
      { subst next. unfold AddReminderScreen.toggleDay.
        apply includes_In in Hinc. rewrite Hinc.
        destruct (Nat.eqb_spec (length prev) 1); [contradiction | reflexivity]. }
      assert (Hmem : forall d, In d next <-> In d prev /\ d <> day).
      { intros d. rewrite Hnext, filter_In, negb_true_iff, Z.eqb_neq. tauto. }
      assert (Hother : exists d, In d prev /\ d <> day).
      { destruct prev as [| a [| b rest]]; [contradiction | cbn in Hmany; lia |].
        unfold ascending in Hasc. apply StronglySorted_inv in Hasc as [_ Ha].
        apply Forall_cons_iff in Ha as [Hab _].
        destruct (Z.eq_dec a day) as [-> | Hna].
        - exists b. split; [right; now left | lia].
        - exists a. split; [now left | exact Hna]. }
      split; [split; [| split] |].
      * destruct Hother as (d & Hd). apply Hmem in Hd.
        intros Hempty. rewrite Hempty in Hd. destruct Hd.
      * rewrite Hnext. now apply ascending_filter.
      * intros d Hd. apply Hmem in Hd. now apply Hrange.
      * split; [intros d Hd; rewrite Hmem; tauto |].
        rewrite Hmem. split; [tauto |]. intros [Hno | Hprev]; [contradiction |].
        rewrite Hprev in Hmany. cbn in Hmany. lia.
  - apply includes_notIn in Hinc.
    assert (Hnext : next = insertSorted day prev)
      by (now apply toggleDay_adds).
    assert (Hmem : forall d, In d next <-> d = day \/ In d prev)
      by (intros d; rewrite Hnext; apply insertSorted_In).
    split; [split; [| split] |].
    * intros Hempty. specialize (Hmem day). rewrite Hempty in Hmem.
      apply (proj2 Hmem). now left.
    * rewrite Hnext. apply insertSorted_ascending; try assumption; [lia |].
      intros d Hd. specialize (Hrange d Hd). lia.
    * intros d Hd. apply Hmem in Hd as [-> | Hd]; [exact Hday | now apply Hrange].
    * split; [intros d Hd; rewrite Hmem; tauto |].
      rewrite Hmem. split; [intros _; now left | intros _; now left].
Qed.

Lemma toggleDay_keeps_selection_witness :
  (0 <= 3 <= 6)%Z
  /\ selection [1; 5]%Z
  /\ AddReminderScreen.toggleDay 3 [1; 5]%Z = [1; 3; 5]%Z
  /\ selection (AddReminderScreen.toggleDay 3 [1; 5]%Z).
Proof.
  assert (H1 : (0 <= 3 <= 6)%Z) by lia.
  assert (H2 : selection [1; 5]%Z).
  { split; [discriminate |]. split.
    - unfold ascending. repeat constructor; lia.
    - intros d [<- | [<- | []]]; lia. }
  split; [exact H1 |]. split; [exact H2 |]. split; [reflexivity |].
  exact (proj1 (toggleDay_keeps_selection 3 [1; 5]%Z H1 H2)).
Defined.

End FormExtras.
